(** * ADGM corporate agent: a shallow embedding of the document pipeline

    The development follows the Python sources of the repository:
    - [src/processor/type_detector.py]   (module [TypeDetector])
    - [src/processor/redflag_rules.py]   (module [RedflagRules])
    - [src/processor/rag.py]             (modules [Rag], [RagIndexing])
    - [src/utils/docx_comment_helper.py] (module [CommentHelper])
    - [src/utils/reporter.py] and [src/processor/docx_processor.py]
                                         (module [DocxProcessor])

    Conventions of the embedding:
    - a Python [str] is a Rocq string read as a sequence of code points
      below 256, with Python's character classes on that range;
    - a Python [float] is an IEEE 754 binary64 value, here a primitive
      float of the kernel, so that sums such as [0.1 + 0.1 + 0.1] round as
      they do in Python;
    - a Python [int] is a [Z], or a [nat] where it counts or measures;
    - a dictionary iterated with [.items()] is the list of its entries in
      insertion order; a [set] is a [gset];
    - a call that may raise returns a [result]; [try]/[except Exception]
      is a [match] on it;
    - the calls into python-docx, faiss, the embedding and completion
      service and the file system are taken to do what their names say;
      what they answer is part of the world a run lives in. *)

From Stdlib Require Import ZArith NArith List Bool Ascii Lia.
From Stdlib Require Import Numbers.DecimalString.
From Stdlib Require Numbers.DecimalZ.
From Stdlib Require Import Floats.PrimFloat Floats.SpecFloat Floats.FloatOps Floats.FloatAxioms.
From Stdlib Require Import Numbers.Cyclic.Int63.Uint63.
From Stdlib Require Import Sorting.Sorted.
From stdpp Require Import gmap strings list.

Set Warnings "-inexact-float".

(* ===================================================================== *)
(** ** Python string primitives *)
(* ===================================================================== *)

Module PyStr.

Definition code (c : ascii) : N := N_of_ascii c.

Definition in_range (lo hi : N) (c : ascii) : bool :=
  ((lo <=? code c) && (code c <=? hi))%N.

Definition is_code (n : N) (c : ascii) : bool := (code c =? n)%N.

(** [str.isupper]/[str.lower] on one character (Latin-1 range). *)
Definition is_upper_char (c : ascii) : bool :=
  in_range 65 90 c || (in_range 192 222 c && negb (is_code 215 c)).

Definition is_lower_char (c : ascii) : bool :=
  in_range 97 122 c || (in_range 223 255 c && negb (is_code 247 c))
  || is_code 170 c || is_code 181 c || is_code 186 c.

Definition lower_char (c : ascii) : ascii :=
  if is_upper_char c then ascii_of_N (code c + 32) else c.

(** [str.isspace] on one character; also the class [\s] of [re]. *)
Definition isspace_char (c : ascii) : bool :=
  in_range 9 13 c || in_range 28 32 c || is_code 133 c || is_code 160 c.

(** The whitespace [int()] skips around a number. *)
Definition is_int_space (c : ascii) : bool :=
  in_range 9 13 c || is_code 32 c || is_code 133 c || is_code 160 c.

(** The class [\d] of [re]. *)
Definition is_digit_char (c : ascii) : bool := in_range 48 57 c.

(** The class [\w] of [re]: alphanumeric characters and the underscore. *)
Definition is_word_char (c : ascii) : bool :=
  in_range 48 57 c || in_range 65 90 c || in_range 97 122 c || is_code 95 c
  || is_code 170 c || is_code 178 c || is_code 179 c || is_code 181 c
  || is_code 185 c || is_code 186 c || in_range 188 190 c
  || (in_range 192 255 c && negb (is_code 215 c) && negb (is_code 247 c)).

(** [s.lower()] *)
Fixpoint lower (s : string) : string :=
  match s with
  | EmptyString => EmptyString
  | String c s' => String (lower_char c) (lower s')
  end.

(** [s.startswith(p)] *)
Fixpoint startswith (s p : string) : bool :=
  match p, s with
  | EmptyString, _ => true
  | String _ _, EmptyString => false
  | String a p', String b s' => Ascii.eqb a b && startswith s' p'
  end.

(** [needle in hay] *)
Fixpoint contains (needle hay : string) : bool :=
  startswith hay needle ||
  match hay with
  | EmptyString => false
  | String _ hay' => contains needle hay'
  end.

(** Dropping the leading characters of a class. *)
Fixpoint lstrip_with (sp : ascii -> bool) (s : string) : string :=
  match s with
  | EmptyString => EmptyString
  | String c s' => if sp c then lstrip_with sp s' else s
  end.

(** Dropping the trailing characters of a class: a character is kept when
    it is not in the class or something is kept after it. *)
Fixpoint rstrip_with (sp : ascii -> bool) (s : string) : string :=
  match s with
  | EmptyString => EmptyString
  | String c s' =>
      match rstrip_with sp s' with
      | EmptyString => if sp c then EmptyString else String c EmptyString
      | r => String c r
      end
  end.

Definition strip_with (sp : ascii -> bool) (s : string) : string :=
  rstrip_with sp (lstrip_with sp s).

(** [s.strip()] *)
Definition strip (s : string) : string := strip_with isspace_char s.

(** Truthiness of a string: [bool(s)]. *)
Definition truthy (s : string) : bool :=
  match s with EmptyString => false | _ => true end.

Definition rev_string (s : string) : string :=
  String.string_of_list_ascii (rev (String.list_ascii_of_string s)).

(** [s.endswith(p)] *)
Definition endswith (s p : string) : bool :=
  startswith (rev_string s) (rev_string p).

(** [s.isupper()]: at least one cased character and no lowercase one. *)
Definition isupper (s : string) : bool :=
  let cs := String.list_ascii_of_string s in
  existsb is_upper_char cs && negb (existsb is_lower_char cs).

(** [s.split()]: the maximal runs of non-space characters.  [cur] is the
    run being read, reversed. *)
Fixpoint split_ws_aux (cur : list ascii) (s : string) : list string :=
  let flush := match cur with
               | [] => []
               | _ => [String.string_of_list_ascii (rev cur)]
               end in
  match s with
  | EmptyString => flush
  | String c s' =>
      if isspace_char c then flush ++ split_ws_aux [] s'
      else split_ws_aux (c :: cur) s'
  end.

Definition split_ws (s : string) : list string := split_ws_aux [] s.

(** [s.split(sep)] for a one-character separator: empty fields are kept. *)
Fixpoint split_char_aux (sep : ascii) (cur : list ascii) (s : string) : list string :=
  match s with
  | EmptyString => [String.string_of_list_ascii (rev cur)]
  | String c s' =>
      if Ascii.eqb c sep then String.string_of_list_ascii (rev cur) :: split_char_aux sep [] s'
      else split_char_aux sep (c :: cur) s'
  end.

Definition split_char (sep : ascii) (s : string) : list string :=
  split_char_aux sep [] s.

(** [sep.join(parts)] *)
Fixpoint join (sep : string) (parts : list string) : string :=
  match parts with
  | [] => EmptyString
  | [p] => p
  | p :: ps => p +:+ sep +:+ join sep ps
  end.

(** [str(n)] for an integer. *)
Definition str_of_Z (z : Z) : string := NilZero.string_of_int (Z.to_int z).
Definition str_of_nat (n : nat) : string := str_of_Z (Z.of_nat n).

(** [s[a:b]] for indices that are already clamped into [0, len(s)]. *)
Definition substr (a b : nat) (s : string) : string :=
  String.string_of_list_ascii (firstn (b - a) (skipn a (String.list_ascii_of_string s))).

(** Python's index normalisation for a slice bound: negative bounds count
    from the end, and the result is clamped into [0, len]. *)
Definition clamp_index (len i : Z) : Z :=
  let i := if (i <? 0)%Z then (i + len)%Z else i in
  Z.max 0 (Z.min len i).

(** [s[a:b]] for arbitrary integers [a], [b]. *)
Definition slice (s : string) (a b : Z) : string :=
  let len := Z.of_nat (String.length s) in
  substr (Z.to_nat (clamp_index len a)) (Z.to_nat (clamp_index len b)) s.

Definition nl : ascii := ascii_of_N 10.
Definition dquote : string := String (ascii_of_N 34) EmptyString.

(** [s.replace(old, new, 1)]: the first occurrence of [old] replaced. *)
Fixpoint replace_first (old new s : string) : string :=
  if startswith s old then new +:+ String.substring (String.length old) (String.length s) s
  else
    match s with
    | EmptyString => EmptyString
    | String c s' => String c (replace_first old new s')
    end.

End PyStr.

(* ===================================================================== *)
(** ** The fragment of Python's [re] the sources use *)
(* ===================================================================== *)

Module Re.
Import PyStr.

Inductive regex : Type :=
| Lit (s : string)                      (* literal text *)
| Class (p : ascii -> bool)             (* one character of a class *)
| WordB                                 (* \b *)
| Cat (r1 r2 : regex)                   (* r1 r2 *)
| Alt (r1 r2 : regex)                   (* r1|r2 *)
| Repeat (lo hi : nat) (r : regex).     (* r{lo,hi}, greedy *)

(** A position in the subject: the character before it and what follows. *)
Definition pos : Type := option ascii * string.

Definition word_before (p : pos) : bool :=
  match fst p with Some c => is_word_char c | None => false end.

Definition word_after (p : pos) : bool :=
  match snd p with String c _ => is_word_char c | EmptyString => false end.

Fixpoint match_lit (l : string) (p : pos) : list pos :=
  match l with
  | EmptyString => [p]
  | String a l' =>
      match snd p with
      | String b s' => if Ascii.eqb a b then match_lit l' (Some b, s') else []
      | EmptyString => []
      end
  end.

(** Backtracking iteration of a step [m], between [lo] and [hi] times, the
    longer attempts first. *)
Fixpoint repeat_match (m : pos -> list pos) (lo hi : nat) (p : pos) : list pos :=
  match hi with
  | O => match lo with O => [p] | S _ => [] end
  | S hi' =>
      flat_map (repeat_match m (Nat.pred lo) hi') (m p)
      ++ match lo with O => [p] | S _ => [] end
  end.

(** All the ways [r] matches at position [p], in the order the
    backtracking matcher tries them; the head is the match [re] returns. *)
Fixpoint match_at (r : regex) (p : pos) : list pos :=
  match r with
  | Lit l => match_lit l p
  | Class f =>
      match snd p with
      | String c s' => if f c then [(Some c, s')] else []
      | EmptyString => []
      end
  | WordB => if xorb (word_before p) (word_after p) then [p] else []
  | Cat r1 r2 => flat_map (match_at r2) (match_at r1 p)
  | Alt r1 r2 => match_at r1 p ++ match_at r2 p
  | Repeat lo hi r' => repeat_match (match_at r') lo hi p
  end.

Fixpoint search_from (r : regex) (prev : option ascii) (s : string) : bool :=
  match match_at r (prev, s) with
  | _ :: _ => true
  | [] =>
      match s with
      | String c s' => search_from r (Some c) s'
      | EmptyString => false
      end
  end.

(** [bool(re.search(r, s))] *)
Definition search (r : regex) (s : string) : bool := search_from r None s.

(** [re.sub(r, repl, s)] for a pattern that matches no empty string:
    leftmost matches are replaced, the scan resuming after each one.
    [skip] counts the characters of the current match still to be passed. *)
Fixpoint sub_from (r : regex) (repl : string) (skip : nat)
    (prev : option ascii) (s : string) : string :=
  match s with
  | EmptyString => EmptyString
  | String c s' =>
      match skip with
      | S k => sub_from r repl k (Some c) s'
      | O =>
          match match_at r (prev, s) with
          | (_, rest) :: _ =>
              let n := (String.length s - String.length rest)%nat in
              match n with
              | O => String c (sub_from r repl 0 (Some c) s')
              | S k => repl +:+ sub_from r repl k (Some c) s'
              end
          | [] => String c (sub_from r repl 0 (Some c) s')
          end
      end
  end.

Definition sub (r : regex) (repl s : string) : string := sub_from r repl 0 None s.

(** [r+] and [r*] on a subject of length at most [n]. *)
Definition plus (n : nat) (r : regex) : regex := Repeat 1 n r.
Definition star (n : nat) (r : regex) : regex := Repeat 0 n r.

(** [\bword\b] *)
Definition word (w : string) : regex := Cat WordB (Cat (Lit w) WordB).

(** A literal under [re.IGNORECASE]: each character matches the
    characters with the same lower case. *)
Fixpoint lit_i (s : string) : regex :=
  match s with
  | EmptyString => Lit EmptyString
  | String a s' => Cat (Class (fun c => Ascii.eqb (lower_char c) (lower_char a))) (lit_i s')
  end.

(** [[m.group() for m in re.finditer(r, s)]] for a pattern that matches
    no empty string: the leftmost matches, each search resuming where the
    match before ended.  [skip] counts the characters of the current
    match still to be passed. *)
Fixpoint finditer_from (r : regex) (skip : nat) (prev : option ascii) (s : string)
    : list string :=
  match s with
  | EmptyString => []
  | String c s' =>
      match skip with
      | S k => finditer_from r k (Some c) s'
      | O =>
          match match_at r (prev, s) with
          | (_, rest) :: _ =>
              let n := (String.length s - String.length rest)%nat in
              match n with
              | O => finditer_from r 0 (Some c) s'
              | S k => String.substring 0 n s :: finditer_from r k (Some c) s'
              end
          | [] => finditer_from r 0 (Some c) s'
          end
      end
  end.

Definition finditer (r : regex) (s : string) : list string := finditer_from r 0 None s.

End Re.

(* ===================================================================== *)
(** ** Python float primitives *)
(* ===================================================================== *)

Module PyFloat.

(** Python's [min(a, b)] and [max(a, b)] on floats: the first argument is
    returned unless the second one compares strictly better. *)
Definition py_min (a b : float) : float := if PrimFloat.ltb b a then b else a.
Definition py_max (a b : float) : float := if PrimFloat.ltb a b then b else a.

(** [a >= b] on floats. *)
Definition py_ge (a b : float) : bool := PrimFloat.leb b a.

(** [float(n)] for a small non-negative integer. *)
Definition of_nat (n : nat) : float := PrimFloat.of_uint63 (Uint63.of_Z (Z.of_nat n)).

End PyFloat.

(* ===================================================================== *)
(** ** The records the modules exchange *)
(* ===================================================================== *)

Module Data.

(** Python exceptions (subclasses of [Exception]) with their message, and
    the outcome of a call that may raise. *)
Inductive exn : Type :=
| EnvironmentError (msg : string)
| IOError (msg : string)
| IndexError (msg : string)
| OtherError (msg : string).

Definition str_of_exn (e : exn) : string :=
  match e with
  | EnvironmentError m | IOError m | IndexError m | OtherError m => m
  end.

Inductive result (A : Type) : Type :=
| Ok (a : A)
| Raise (e : exn).
Arguments Ok {A} a.
Arguments Raise {A} e.

(** The severities the checks assign (the strings ['High'], ['Medium'],
    ['Low']). *)
Inductive Severity : Type := High | Medium | Low.

(** One retrieved passage of a citation. *)
Record Passage : Type := {
  score : float;
  source : string;
  page : option Z;
  chunk_index : option Z;
  passage_text : option string
}.

(** The value under ['llm_summary']: the parsed answer of the model, a
    dictionary with (possibly) the keys ['citation'] and ['excerpt'], or
    some other JSON value. *)
Inductive LlmSummary : Type :=
| SummaryDict (citation excerpt : option string)
| SummaryOther.

(** What [get_citation_for_issue] of rag.py returns. *)
Record Citation : Type := {
  query : string;
  results : list Passage;
  llm_summary : LlmSummary
}.

(** The value under the key ['citation'] of an issue: a dictionary with
    the key ['llm_summary'], or any other value, of which only the
    truthiness and [str()] matter. *)
Inductive CitationValue : Type :=
| CitDict (c : Citation)
| CitOther (is_truthy : bool) (repr : string).

(** An issue dictionary.  The keys ['issue'] and ['severity'] are always
    there; the others are absent ([None]) in some of the dictionaries the
    pipeline builds. *)
Record Issue : Type := {
  issue : string;
  severity : Severity;
  suggestion : option string;
  section : option string;
  document : option string;
  citation : option CitationValue
}.

End Data.

(* ===================================================================== *)
(** ** src/processor/type_detector.py *)
(* ===================================================================== *)

Module TypeDetector.
Import PyStr PyFloat.

(** One entry of [DOCUMENT_PATTERNS]. *)
Record Patterns : Type := {
  primary_keywords : list string;
  secondary_keywords : list string;
  exclusion_keywords : list string;
  structure_indicators : list string;
  confidence_threshold : float
}.

(** The dictionary [DOCUMENT_PATTERNS], in insertion order (the order in
    which [.items()] yields it). *)
Definition DOCUMENT_PATTERNS : list (string * Patterns) := [
  ("Articles of Association",
   {| primary_keywords := ["articles of association"; "articles of incorporation"];
      secondary_keywords := ["share capital"; "directors"; "shareholders"; "company constitution"];
      exclusion_keywords := ["memorandum"];
      structure_indicators := ["article 1"; "article 2"; "clause"];
      confidence_threshold := 0.6 |});
  ("Memorandum of Association",
   {| primary_keywords := ["memorandum of association"; "memorandum of incorporation"];
      secondary_keywords := ["company name"; "registered office"; "objects"; "liability"];
      exclusion_keywords := ["articles"];
      structure_indicators := ["whereas"; "now therefore"];
      confidence_threshold := 0.6 |});
  ("UBO Declaration",
   {| primary_keywords := ["ultimate beneficial owner"; "ubo declaration"; "beneficial ownership"];
      secondary_keywords := ["25%"; "twenty-five percent"; "ownership"; "control"];
      exclusion_keywords := [];
      structure_indicators := ["declare"; "confirm"; "certify"];
      confidence_threshold := 0.5 |});
  ("Register of Members and Directors",
   {| primary_keywords := ["register of members"; "register of directors"; "members register"];
      secondary_keywords := ["shareholder"; "director"; "appointment"; "resignation"];
      exclusion_keywords := [];
      structure_indicators := ["name"; "address"; "shares held"; "date of appointment"];
      confidence_threshold := 0.5 |});
  ("Incorporation Application",
   {| primary_keywords := ["incorporation application"; "application for incorporation"; "company formation"];
      secondary_keywords := ["proposed name"; "business activity"; "applicant"];
      exclusion_keywords := [];
      structure_indicators := ["applicant details"; "proposed activities"];
      confidence_threshold := 0.5 |});
  ("Board Resolution",
   {| primary_keywords := ["board resolution"; "directors' resolution"; "board meeting"];
      secondary_keywords := ["resolved"; "directors"; "meeting"; "unanimous"];
      exclusion_keywords := ["shareholder"];
      structure_indicators := ["it was resolved"; "resolved that"; "meeting held"];
      confidence_threshold := 0.5 |});
  ("Shareholder Resolution",
   {| primary_keywords := ["shareholder resolution"; "shareholders' resolution"; "general meeting"];
      secondary_keywords := ["resolved"; "shareholders"; "meeting"; "ordinary resolution"];
      exclusion_keywords := ["board"; "directors"];
      structure_indicators := ["it was resolved"; "resolved that"; "meeting held"];
      confidence_threshold := 0.5 |});
  ("Employment Contract",
   {| primary_keywords := ["employment contract"; "employment agreement"; "service agreement"];
      secondary_keywords := ["employee"; "employer"; "salary"; "termination"; "duties"];
      exclusion_keywords := [];
      structure_indicators := ["terms of employment"; "job description"; "remuneration"];
      confidence_threshold := 0.5 |});
  ("Commercial License Application",
   {| primary_keywords := ["commercial license"; "license application"; "business license"];
      secondary_keywords := ["trade name"; "business activity"; "premises"];
      exclusion_keywords := [];
      structure_indicators := ["license details"; "business activities"];
      confidence_threshold := 0.5 |});
  ("Power of Attorney",
   {| primary_keywords := ["power of attorney"; "poa"; "attorney"];
      secondary_keywords := ["appoint"; "attorney"; "behalf"; "authorize"];
      exclusion_keywords := [];
      structure_indicators := ["hereby appoint"; "full power"; "in witness whereof"];
      confidence_threshold := 0.5 |});
  ("Lease Agreement",
   {| primary_keywords := ["lease agreement"; "tenancy agreement"; "rental agreement"];
      secondary_keywords := ["landlord"; "tenant"; "premises"; "rent"; "lease term"];
      exclusion_keywords := [];
      structure_indicators := ["lease term"; "rental amount"; "premises description"];
      confidence_threshold := 0.5 |});
  ("Non-Disclosure Agreement",
   {| primary_keywords := ["non-disclosure agreement"; "nda"; "confidentiality agreement"];
      secondary_keywords := ["confidential"; "proprietary"; "disclosure"; "information"];
      exclusion_keywords := [];
      structure_indicators := ["confidential information"; "non-disclosure"];
      confidence_threshold := 0.5 |})
].

(** One of the three weighted loops of [_calculate_confidence]: every
    keyword adds [weight] to [total_possible], a keyword found in [text]
    adds it to [score] and is counted. *)
Definition weighted_scan (weight : float) (text : string) (keywords : list string)
    (st : float * float * nat) : float * float * nat :=
  fold_left
    (fun '(score, total_possible, found) keyword =>
       let total_possible := (total_possible + weight)%float in
       if contains keyword text
       then ((score + weight)%float, total_possible, S found)
       else (score, total_possible, found))
    keywords st.

(** The exclusion loop: every exclusion keyword present costs the penalty. *)
Definition exclusion_scan (penalty : float) (text : string) (keywords : list string)
    (score : float) : float :=
  fold_left
    (fun score exclusion =>
       if contains exclusion text then (score - penalty)%float else score)
    keywords score.

Definition _calculate_confidence (text : string) (patterns : Patterns) : float :=
  let score := 0%float in
  let total_possible := 0%float in
  (* Primary keywords (highest weight) *)
  let primary_weight := 0.5%float in
  let '(score, total_possible, primary_found) :=
    weighted_scan primary_weight text (primary_keywords patterns)
      (score, total_possible, 0%nat) in
  (* Bonus if multiple primary keywords found *)
  let score := if (1 <? primary_found)%nat then (score + 0.1)%float else score in
  (* Secondary keywords (medium weight) *)
  let secondary_weight := 0.1%float in
  let '(score, total_possible, _) :=
    weighted_scan secondary_weight text (secondary_keywords patterns)
      (score, total_possible, 0%nat) in
  (* Structure indicators (medium weight) *)
  let structure_weight := 0.15%float in
  let '(score, total_possible, _) :=
    weighted_scan structure_weight text (structure_indicators patterns)
      (score, total_possible, 0%nat) in
  (* Penalty for exclusion keywords *)
  let exclusion_penalty := 0.2%float in
  let score := exclusion_scan exclusion_penalty text (exclusion_keywords patterns) score in
  (* Normalize score *)
  let confidence :=
    if PrimFloat.ltb 0 total_possible
    then py_min (score / total_possible)%float 1%float
    else 0%float in
  py_max confidence 0%float.

Definition legal_indicators : list (string * string) := [
  ("contract", "Contract");
  ("agreement", "Agreement");
  ("resolution", "Resolution");
  ("application", "Application");
  ("declaration", "Declaration");
  ("certificate", "Certificate");
  ("notice", "Notice");
  ("policy", "Policy");
  ("procedure", "Procedure");
  ("form", "Form")
].

Definition _fallback_detection (text : string) : string :=
  match find (fun '(indicator, _) => contains indicator text) legal_indicators with
  | Some (_, doc_type) => "General " +:+ doc_type
  | None =>
      let word_count := length (split_ws text) in
      if (word_count <? 100)%nat then "Short Form/Notice"
      else if (2000 <? word_count)%nat then "Complex Legal Document"
      else "Standard Business Document"
  end.

(** [re.sub(r'\s+', ' ', text_lower)] *)
Definition normalize_ws (text_lower : string) : string :=
  Re.sub (Re.plus (String.length text_lower) (Re.Class isspace_char)) " " text_lower.

(** [not text or not text.strip()] *)
Definition is_blank (text : string) : bool :=
  negb (truthy text) || negb (truthy (strip text)).

(** [detected.sort(key=lambda x: x[1], reverse=True)]: a stable sort into
    non-increasing key order that compares keys with [<] only. *)
Fixpoint insert_desc {A} (key : A -> float) (x : A) (l : list A) : list A :=
  match l with
  | [] => [x]
  | y :: l' =>
      if PrimFloat.ltb (key x) (key y) then y :: insert_desc key x l'
      else x :: l
  end.

Definition sort_desc {A} (key : A -> float) (l : list A) : list A :=
  foldr (insert_desc key) [] l.

(** The loop over [patterns_table.items()] of [detect_doc_type], with the
    confidence kept beside the type. *)
Definition matching_types (table : list (string * Patterns)) (text_normalized : string)
    : list (string * float) :=
  fold_left
    (fun detected_types '(doc_type, patterns) =>
       let confidence := _calculate_confidence text_normalized patterns in
       if py_ge confidence (confidence_threshold patterns)
       then detected_types ++ [(doc_type, confidence)]
       else detected_types)
    table [].

(** [detect_doc_type(text, return_confidence=True)], over a table of
    patterns. *)
Definition detect_doc_type_scored_in (table : list (string * Patterns)) (text : string)
    : list (string * float) :=
  if is_blank text then [("Unknown", 0%float)]
  else
    let text_lower := lower text in
    let text_normalized := normalize_ws text_lower in
    let detected_types := matching_types table text_normalized in
    (* Sort by confidence if returning confidence scores *)
    let detected_types :=
      match detected_types with
      | [] => detected_types
      | _ => sort_desc snd detected_types
      end in
    (* If no types detected, try fallback detection *)
    match detected_types with
    | [] => detected_types ++ [(_fallback_detection text_normalized, 0.3%float)]
    | _ => detected_types
    end.

Definition detect_doc_type_scored (text : string) : list (string * float) :=
  detect_doc_type_scored_in DOCUMENT_PATTERNS text.

(** [detect_doc_type(text)], that is [return_confidence=False]: the same
    loop keeping the type names only; nothing is sorted. *)
Definition detect_doc_type (text : string) : list string :=
  if is_blank text then ["Unknown"]
  else
    let text_lower := lower text in
    let text_normalized := normalize_ws text_lower in
    let detected_types := map fst (matching_types DOCUMENT_PATTERNS text_normalized) in
    match detected_types with
    | [] => detected_types ++ [_fallback_detection text_normalized]
    | _ => detected_types
    end.

(** ** Requirements and completeness *)

(** The dictionary [get_document_requirements] answers. *)
Record Requirements : Type := {
  required_sections : list string;
  typical_clauses : list string;
  signatures_required : list string;
  witnesses_required : bool
}.

Definition requirements_table : list (string * Requirements) := [
  ("Articles of Association",
   {| required_sections := ["Company Name"; "Share Capital"; "Directors"; "Objects"];
      typical_clauses := ["Liability Limitation"; "Share Transfer"; "Board Powers"];
      signatures_required := ["Directors"; "Shareholders"];
      witnesses_required := false |});
  ("Memorandum of Association",
   {| required_sections := ["Company Name"; "Registered Office"; "Objects"; "Liability"];
      typical_clauses := ["Subscriber Details"; "Share Capital"];
      signatures_required := ["Subscribers"];
      witnesses_required := true |});
  ("UBO Declaration",
   {| required_sections := ["Personal Details"; "Ownership Details"; "Declaration"];
      typical_clauses := ["25% Threshold"; "Control Definition"];
      signatures_required := ["UBO"; "Company Officer"];
      witnesses_required := false |});
  ("Board Resolution",
   {| required_sections := ["Meeting Details"; "Resolutions"; "Voting"];
      typical_clauses := ["Meeting Notice"; "Quorum"; "Unanimous Consent"];
      signatures_required := ["Directors"];
      witnesses_required := false |});
  ("Employment Contract",
   {| required_sections := ["Parties"; "Job Description"; "Remuneration"; "Termination"];
      typical_clauses := ["Confidentiality"; "Non-Compete"; "Benefits"];
      signatures_required := ["Employee"; "Employer"];
      witnesses_required := false |})
].

(** The default of [requirements.get(doc_type, ...)]. *)
Definition default_requirements : Requirements :=
  {| required_sections := [];
     typical_clauses := [];
     signatures_required := ["Parties"];
     witnesses_required := false |}.

Definition get_document_requirements (doc_type : string) : Requirements :=
  match find (fun '(name, _) => String.eqb name doc_type) requirements_table with
  | Some (_, r) => r
  | None => default_requirements
  end.

(** The dictionary [analyze_document_completeness] answers. *)
Record Analysis : Type := {
  detected_types : list string;
  completeness_score : float;
  missing_elements : list string;
  present_elements : list string
}.

(** The loop over the required sections: the sections found, the sections
    not found, and the number found. *)
Definition check_sections (text_lower : string) (sections : list string)
    : list string * list string * nat :=
  fold_left
    (fun '(present_elements, missing_elements, present_count) sect =>
       if contains (lower sect) text_lower
       then (present_elements ++ [sect], missing_elements, S present_count)
       else (present_elements, missing_elements ++ [sect], present_count))
    sections ([], [], 0%nat).

Definition signature_indicators : list string :=
  ["signature"; "signed"; "executed"; "witness"].

(** [doc_types == ["Unknown"]] *)
Definition is_unknown_only (doc_types : list string) : bool :=
  match doc_types with
  | [t] => String.eqb t "Unknown"
  | _ => false
  end.

Definition analyze_document_completeness (text : string) (doc_types : list string)
    : Analysis :=
  let analysis :=
    {| detected_types := doc_types; completeness_score := 0%float;
       missing_elements := []; present_elements := [] |} in
  match doc_types with
  | [] => analysis
  | primary_type :: _ =>
      if is_unknown_only doc_types then analysis
      else
        (* Analyze primary document type *)
        let requirements := get_document_requirements primary_type in
        let text_lower := lower text in
        (* Check required sections *)
        let total_requirements := length (required_sections requirements) in
        let '(present_elements, missing_elements, present_count) :=
          check_sections text_lower (required_sections requirements) in
        (* Check signatures *)
        let has_signatures :=
          existsb (fun indicator => contains indicator text_lower) signature_indicators in
        let '(present_elements, missing_elements, present_count, total_requirements) :=
          match signatures_required requirements with
          | _ :: _ =>
              if negb has_signatures
              then (present_elements, missing_elements ++ ["Signature Block"],
                    present_count, total_requirements)
              else (present_elements ++ ["Signature Block"], missing_elements,
                    S present_count, S total_requirements)
          | [] =>
              if has_signatures
              then (present_elements ++ ["Signature Block"], missing_elements,
                    S present_count, S total_requirements)
              else (present_elements, missing_elements, present_count, total_requirements)
          end in
        (* Calculate completeness score *)
        let score :=
          if (0 <? total_requirements)%nat
          then (PyFloat.of_nat present_count / PyFloat.of_nat total_requirements)%float
          else 0%float in
        {| detected_types := doc_types; completeness_score := score;
           missing_elements := missing_elements; present_elements := present_elements |}
  end.

(** ** Suggestions *)

Definition unclear_suggestion : string :=
  "Document type is unclear - consider adding a clear title".

Definition get_document_type_suggestions (text : string) : list string :=
  let suggestions := [] in
  (* Get all types with confidence scores *)
  let types_with_confidence := detect_doc_type_scored text in
  let suggestions :=
    match types_with_confidence with
    | [] => suggestions ++ [unclear_suggestion]
    | (_, c) :: _ =>
        if PrimFloat.ltb c 0.5 then suggestions ++ [unclear_suggestion] else suggestions
    end in
  (* Check for multiple high-confidence types *)
  let high_confidence_types :=
    map fst (List.filter (fun '(_, c) => PrimFloat.ltb 0.7 c) types_with_confidence) in
  let suggestions :=
    if (1 <? length high_confidence_types)%nat
    then suggestions ++ ["Document appears to combine multiple types: "
                         +:+ join ", " high_confidence_types]
    else suggestions in
  (* Specific improvement suggestions *)
  let primary_type :=
    match types_with_confidence with
    | (t, _) :: _ => t
    | [] => "Unknown"
    end in
  match find (fun '(name, _) => String.eqb name primary_type) DOCUMENT_PATTERNS with
  | Some (_, patterns) =>
      let text_lower := lower text in
      let missing_primary :=
        List.filter (fun k => negb (contains k text_lower)) (primary_keywords patterns) in
      match missing_primary with
      | [] => suggestions
      | _ => suggestions ++ ["Consider adding key terms: "
                             +:+ join ", " (firstn 2 missing_primary)]
      end
  | None => suggestions
  end.

End TypeDetector.

(* ===================================================================== *)
(** ** src/processor/redflag_rules.py *)
(* ===================================================================== *)

Module RedflagRules.
Import PyStr Data.

(** The dictionary literal of the checks: four keys. *)
Definition mk_issue (i : string) (sev : Severity) (sugg sect : string) : Issue :=
  {| issue := i; severity := sev; suggestion := Some sugg; section := Some sect;
     document := None; citation := None |}.

(** [issues.append(x)] under a condition, and [issues.extend(xs)]. *)
Definition append_if (cond : bool) (x : Issue) (issues : list Issue) : list Issue :=
  if cond then issues ++ [x] else issues.

Definition extend (xs issues : list Issue) : list Issue := issues ++ xs.

(** The inner loop of [_find_section_with_text]: the first of the lines
    [lines[j]], [max(0, i-5) <= j < i], that looks like a header. *)
Definition is_header (line : string) : bool :=
  truthy (strip line) &&
  (isupper line || startswith line "Section" || startswith line "Article"
   || endswith line ":").

Definition header_above (lines : list string) (i : nat) : option string :=
  let lo := (i - 5)%nat in
  find is_header (firstn (i - lo) (skipn lo lines)).

Fixpoint find_section_loop (lines : list string) (term_lower : string)
    (i : nat) (rest : list string) : string :=
  match rest with
  | [] => "General"
  | line :: rest' =>
      if contains term_lower (lower line) then
        match header_above lines i with
        | Some h => strip h
        | None => "Line " +:+ str_of_nat (i + 1)
        end
      else find_section_loop lines term_lower (S i) rest'
  end.

Definition _find_section_with_text (text search_term : string) : string :=
  let lines := split_char nl text in
  find_section_loop lines (lower search_term) 0 lines.

Definition _check_jurisdiction (text text_lower : string) : list Issue :=
  let issues := [] in
  (* Check for incorrect jurisdiction references *)
  let issues :=
    append_if (Re.search (Re.word "uae federal court") text_lower)
      (mk_issue "References UAE Federal Courts instead of ADGM Courts" High
         ("Replace with " +:+ dquote +:+ "ADGM Courts" +:+ dquote +:+ " for proper jurisdiction")
         (_find_section_with_text text "uae federal court")) issues in
  let issues :=
    append_if (Re.search (Re.word "dubai court") text_lower)
      (mk_issue "References Dubai Courts instead of ADGM Courts" High
         "Update jurisdiction to ADGM Courts"
         (_find_section_with_text text "dubai court")) issues in
  (* Check for proper ADGM jurisdiction clause *)
  let issues :=
    append_if (contains "jurisdiction" text_lower
               && negb (Re.search (Re.word "adgm court") text_lower))
      (mk_issue "Jurisdiction clause present but does not specify ADGM Courts" High
         "Specify ADGM Courts as the governing jurisdiction"
         (_find_section_with_text text "jurisdiction")) issues in
  (* Check for UAE mainland law references *)
  let issues :=
    append_if (Re.search (Re.word "uae civil code") text_lower
               && negb (Re.search (Re.word "adgm") text_lower))
      (mk_issue "References UAE Civil Code without ADGM context" Medium
         "Specify ADGM laws take precedence where applicable"
         (_find_section_with_text text "uae civil code")) issues in
  issues.

Definition signature_patterns : list Re.regex := [
  Re.word "signature"; Re.word "signed by"; Re.word "for and on behalf";
  Re.word "executed"; Re.word "in witness whereof"
].

Definition _check_signatures (text text_lower : string) : list Issue :=
  let issues := [] in
  let has_signature := existsb (fun pattern => Re.search pattern text_lower) signature_patterns in
  let issues :=
    append_if (negb has_signature)
      (mk_issue "Missing signature block or execution clause" High
         "Add proper signature block with name, title, and date fields"
         "End of document") issues in
  (* Check for witness requirements in certain documents *)
  let issues :=
    append_if ((contains "deed" text_lower || contains "power of attorney" text_lower)
               && negb (contains "witness" text_lower))
      (mk_issue "Document may require witness signature" Medium
         "Consider adding witness signature requirements"
         (_find_section_with_text text "signature")) issues in
  issues.

Definition _check_articles_of_association (text text_lower : string) : list Issue :=
  let issues := [] in
  if negb (contains "articles of association" text_lower) then issues
  else
    (* Share capital requirements *)
    let issues :=
      append_if (negb (contains "share capital" text_lower)
                 && negb (contains "shares" text_lower))
        (mk_issue "Missing share capital provisions in Articles of Association" High
           "Add clause specifying authorized share capital and classes of shares"
           "Share Capital") issues in
    (* Directors provisions *)
    let issues :=
      append_if (negb (contains "director" text_lower))
        (mk_issue "Missing directors provisions" High
           "Add provisions for appointment and powers of directors"
           "Directors") issues in
    (* Company objects/purpose *)
    let issues :=
      append_if (negb (contains "objects" text_lower)
                 && negb (contains "purpose" text_lower))
        (mk_issue "Missing company objects or purpose clause" Medium
           "Include clause defining company objects and permitted activities"
           "Company Objects") issues in
    issues.

Definition _check_memorandum_of_association (text text_lower : string) : list Issue :=
  let issues := [] in
  if negb (contains "memorandum of association" text_lower) then issues
  else
    (* Company name check *)
    let issues :=
      append_if (negb (Re.search (Re.Alt (Re.word "llc")
                                    (Re.Alt (Re.word "limited") (Re.word "ltd")))
                         text_lower))
        (mk_issue "Company name may not include proper legal designation" Medium
           "Ensure company name includes LLC, Limited, or Ltd as appropriate"
           "Company Name") issues in
    (* Registered office *)
    let issues :=
      append_if (negb (contains "registered office" text_lower)
                 && negb (contains "registered address" text_lower))
        (mk_issue "Missing registered office clause" High
           "Include registered office address in ADGM"
           "Registered Office") issues in
    issues.

(** [\b25%\b|\btwenty[- ]five percent\b] *)
Definition threshold_pattern : Re.regex :=
  Re.Alt (Re.word "25%")
    (Re.Cat Re.WordB
       (Re.Cat (Re.Lit "twenty")
          (Re.Cat (Re.Class (fun c => is_code 45 c || is_code 32 c))
             (Re.Cat (Re.Lit "five percent") Re.WordB)))).

Definition _check_ubo_declaration (text text_lower : string) : list Issue :=
  let issues := [] in
  if negb (contains "ultimate beneficial owner" text_lower)
     && negb (contains "ubo" text_lower) then issues
  else
    (* Ownership threshold *)
    let issues :=
      append_if (negb (Re.search threshold_pattern text_lower))
        (mk_issue "Missing 25% ownership threshold reference" Medium
           "Specify 25% ownership threshold for UBO determination"
           "Ownership Threshold") issues in
    (* Personal information requirements *)
    let required_fields := ["full name"; "address"; "nationality"; "date of birth"] in
    fold_left
      (fun issues field =>
         append_if (negb (contains field text_lower))
           (mk_issue ("May be missing " +:+ field +:+ " field for UBO") Medium
              ("Ensure " +:+ field +:+ " is included for each UBO")
              "UBO Information") issues)
      required_fields issues.

Definition _check_incorporation_application (text text_lower : string) : list Issue :=
  let issues := [] in
  if negb (contains "incorporation" text_lower)
     && negb (contains "application" text_lower) then issues
  else
    (* Required application elements *)
    let required_elements := [
      ("proposed company name", "Company Name");
      ("business activity", "Business Activity");
      ("share capital", "Share Capital");
      ("registered office", "Registered Office")
    ] in
    fold_left
      (fun issues '(element, sect) =>
         append_if (negb (contains element text_lower))
           (mk_issue ("Missing " +:+ element +:+ " in incorporation application") High
              ("Include " +:+ element +:+ " details in the application")
              sect) issues)
      required_elements issues.

Definition _check_document_specific_issues (text text_lower doc_type : string) : list Issue :=
  if contains "articles of association" (lower doc_type) then
    _check_articles_of_association text text_lower
  else if contains "memorandum of association" (lower doc_type) then
    _check_memorandum_of_association text text_lower
  else if contains "ubo" (lower doc_type) then
    _check_ubo_declaration text text_lower
  else if contains "incorporation" (lower doc_type) then
    _check_incorporation_application text text_lower
  else [].

Definition _check_adgm_compliance (text text_lower : string) : list Issue :=
  let issues := [] in
  (* Check for ADGM reference *)
  let issues :=
    append_if (negb (contains "adgm" text_lower)
               && negb (contains "abu dhabi global market" text_lower))
      (mk_issue "Document does not reference ADGM jurisdiction" Medium
         "Include reference to ADGM (Abu Dhabi Global Market) jurisdiction"
         "General") issues in
  (* Check for proper currency references *)
  let issues :=
    append_if (Re.search (Re.Alt (Re.word "usd") (Re.word "us dollar")) text_lower
               && negb (contains "aed" text_lower))
      (mk_issue "References USD without AED alternative" Low
         "Consider including AED (UAE Dirham) as alternative currency"
         (_find_section_with_text text "USD")) issues in
  (* Check for compliance statements *)
  let compliance_terms := ["compliant"; "compliance"; "regulatory"; "regulation"] in
  let has_compliance_ref := existsb (fun term => contains term text_lower) compliance_terms in
  let issues :=
    append_if ((200 <? length (split_ws text))%nat && negb has_compliance_ref)
      (mk_issue "Document lacks compliance or regulatory references" Low
         "Consider adding compliance statements relevant to ADGM regulations"
         "General") issues in
  issues.

(** The two date patterns, each with its source text (which the code also
    passes to [_find_section_with_text] as the search term). *)
Definition digits (lo hi : nat) : Re.regex := Re.Repeat lo hi (Re.Class is_digit_char).

Definition date_pattern (sep : string) : Re.regex :=
  Re.Cat Re.WordB
    (Re.Cat (digits 1 2)
       (Re.Cat (Re.Lit sep)
          (Re.Cat (digits 1 2)
             (Re.Cat (Re.Lit sep) (Re.Cat (digits 2 4) Re.WordB))))).

Definition date_patterns : list (string * Re.regex) := [
  ("\b\d{1,2}/\d{1,2}/\d{2,4}\b", date_pattern "/");
  ("\b\d{1,2}-\d{1,2}-\d{2,4}\b", date_pattern "-")
].

Definition _check_language_and_formatting (text text_lower : string) : list Issue :=
  let issues := [] in
  (* Check for ambiguous language *)
  let ambiguous_phrases := [
    ("may or may not", "Use definitive language instead of ambiguous terms");
    ("as appropriate", "Specify exact conditions or requirements");
    ("if necessary", "Define when such necessity arises");
    ("reasonable", "Define what constitutes reasonable in this context")
  ] in
  let issues :=
    fold_left
      (fun issues '(phrase, sugg) =>
         append_if (contains phrase text_lower)
           (mk_issue ("Ambiguous language detected: " +:+ dquote +:+ phrase +:+ dquote) Low
              sugg (_find_section_with_text text phrase)) issues)
      ambiguous_phrases issues in
  (* Check for proper legal language *)
  let issues :=
    append_if (negb (contains "shall" text_lower) && contains "will" text_lower)
      (mk_issue ("Uses " +:+ dquote +:+ "will" +:+ dquote +:+ " instead of "
                 +:+ dquote +:+ "shall" +:+ dquote +:+ " for obligations") Low
         ("Use " +:+ dquote +:+ "shall" +:+ dquote +:+ " for legal obligations and "
          +:+ dquote +:+ "will" +:+ dquote +:+ " for future actions")
         "General") issues in
  (* Check for missing defined terms section *)
  let issues :=
    append_if (negb (contains "definition" text_lower)
               && negb (contains "means" text_lower)
               && (500 <? length (split_ws text))%nat)
      (mk_issue "Long document may benefit from definitions section" Low
         "Consider adding a definitions section for key terms"
         "Structure") issues in
  (* Check for date formatting: the first pattern found, then [break] *)
  match find (fun '(_, pattern) => Re.search pattern text) date_patterns with
  | Some (pattern_text, _) =>
      issues ++ [mk_issue "Date format may be ambiguous" Low
                   ("Use unambiguous date format (e.g., " +:+ dquote
                    +:+ "1st January 2024" +:+ dquote +:+ ")")
                   (_find_section_with_text text pattern_text)]
  | None => issues
  end.

(** [if doc_type:] is false for [None] and for the empty string. *)
Definition doc_type_given (doc_type : option string) : option string :=
  match doc_type with
  | Some d => if truthy d then Some d else None
  | None => None
  end.

Definition run_redflag_checks (text : string) (doc_type : option string) : list Issue :=
  let issues := [] in
  let text_lower := lower text in
  (* General jurisdiction and legal framework checks *)
  let issues := extend (_check_jurisdiction text text_lower) issues in
  (* Signature and execution checks *)
  let issues := extend (_check_signatures text text_lower) issues in
  (* Document-specific checks *)
  let issues :=
    match doc_type_given doc_type with
    | Some d => extend (_check_document_specific_issues text text_lower d) issues
    | None =>
        (* Run all document type checks if type unknown *)
        let issues := extend (_check_articles_of_association text text_lower) issues in
        let issues := extend (_check_memorandum_of_association text text_lower) issues in
        let issues := extend (_check_ubo_declaration text text_lower) issues in
        let issues := extend (_check_incorporation_application text text_lower) issues in
        issues
    end in
  (* General ADGM compliance checks *)
  let issues := extend (_check_adgm_compliance text text_lower) issues in
  (* Language and formatting checks *)
  let issues := extend (_check_language_and_formatting text text_lower) issues in
  issues.

(** ** Scoring and the additional helpers *)

(** The dictionary [severity_counts]. *)
Record SeverityCounts : Type := {
  high_count : nat;
  medium_count : nat;
  low_count : nat
}.

(** The dictionary [get_severity_score] answers. *)
Record SeverityScore : Type := {
  total_score : nat;
  severity_counts : SeverityCounts;
  priority : Severity
}.

(** [severity_weights.get(severity, 2)] *)
Definition severity_weight (sev : Severity) : nat :=
  match sev with High => 3 | Medium => 2 | Low => 1 end.

(** [severity_counts[severity] += 1] *)
Definition count_severity (sev : Severity) (c : SeverityCounts) : SeverityCounts :=
  match sev with
  | High => {| high_count := S (high_count c); medium_count := medium_count c;
               low_count := low_count c |}
  | Medium => {| high_count := high_count c; medium_count := S (medium_count c);
                 low_count := low_count c |}
  | Low => {| high_count := high_count c; medium_count := medium_count c;
              low_count := S (low_count c) |}
  end.

Definition get_severity_score (issues : list Issue) : SeverityScore :=
  let '(total_score, severity_counts) :=
    fold_left
      (fun '(total_score, severity_counts) i =>
         let sev := severity i in
         let severity_counts := count_severity sev severity_counts in
         ((total_score + severity_weight sev)%nat, severity_counts))
      issues
      (0%nat, {| high_count := 0; medium_count := 0; low_count := 0 |}) in
  {| total_score := total_score;
     severity_counts := severity_counts;
     priority := if (0 <? high_count severity_counts)%nat then High
                 else if (0 <? medium_count severity_counts)%nat then Medium
                 else Low |}.

Definition validate_document_completeness (text : string) (required_sections : list string)
    : list Issue :=
  let issues := [] in
  let text_lower := lower text in
  fold_left
    (fun issues sect =>
       append_if (negb (contains (lower sect) text_lower))
         (mk_issue ("Missing required section: " +:+ sect) High
            ("Add " +:+ sect +:+ " section to the document") sect) issues)
    required_sections issues.

(** The reference patterns, compiled with [re.IGNORECASE], for a subject
    of length at most [n]. *)
Definition ref_patterns (n : nat) : list Re.regex :=
  let number := Re.plus n (Re.Class is_digit_char) in
  [ (* clause \d+\.\d+ *)
    Re.Cat (Re.lit_i "clause ") (Re.Cat number (Re.Cat (Re.Lit ".") number));
    (* section \d+ *)
    Re.Cat (Re.lit_i "section ") number;
    (* article \d+ *)
    Re.Cat (Re.lit_i "article ") number;
    (* paragraph \([a-z]\) *)
    Re.Cat (Re.lit_i "paragraph (")
      (Re.Cat (Re.Class (fun c => in_range 97 122 (lower_char c))) (Re.Lit ")"));
    (* schedule \d+ *)
    Re.Cat (Re.lit_i "schedule ") number ].

Definition check_cross_references (text : string) : list Issue :=
  let issues := [] in
  fold_left
    (fun issues pattern =>
       fold_left
         (fun issues ref =>
            (* This is a simplified check *)
            append_if (contains "clause" (lower ref)
                       && negb (contains (lower ref)
                                  (replace_first (lower ref) EmptyString (lower text))))
              (mk_issue ("Potential broken cross-reference: " +:+ ref) Medium
                 ("Verify that " +:+ ref +:+ " exists in the document")
                 (_find_section_with_text text ref)) issues)
         (Re.finditer pattern text) issues)
    (ref_patterns (String.length text)) issues.

End RedflagRules.

(* ===================================================================== *)
(** ** src/processor/rag.py *)
(* ===================================================================== *)

Module Rag.
Import PyStr Data.

(** The pattern of [_clean_text] as the source spells it: in the raw
    string every backslash is doubled, so the pattern reads: a backslash,
    [n], a backslash, any number of [s], a backslash, one or more [n]. *)
Definition clean_pattern (n : nat) : Re.regex :=
  Re.Cat (Re.Lit "\n\")
    (Re.Cat (Re.star n (Re.Lit "s"))
       (Re.Cat (Re.Lit "\") (Re.plus n (Re.Lit "n")))).

(** The replacement template is backslash-n twice, which [re.sub] expands
    to two newlines. *)
Definition clean_replacement : string := String nl (String nl EmptyString).

Definition _clean_text (s : string) : string :=
  let s := Re.sub (clean_pattern (String.length s)) clean_replacement s in
  strip s.

(** The [while start < L] loop of [_chunk_text].  [fuel] bounds the number
    of iterations; [None] means the bound was reached. *)
Fixpoint chunk_loop (fuel : nat) (text : string) (chunk_size overlap : Z)
    (start : Z) (chunks : list string) : option (list string) :=
  let L := Z.of_nat (String.length text) in
  if (start <? L)%Z then
    match fuel with
    | O => None
    | S fuel' =>
        let end_ := (start + chunk_size)%Z in
        let chunk := slice text start end_ in
        let chunks := chunks ++ [chunk] in
        let start := Z.max (start + chunk_size - overlap) (start + 1) in
        chunk_loop fuel' text chunk_size overlap start chunks
    end
  else Some chunks.

(** [_chunk_text(text, chunk_size, overlap)]; every iteration advances
    [start] by at least one, so [len(text)] iterations are enough. *)
Definition _chunk_text (text : string) (chunk_size overlap : Z) : option (list string) :=
  let text := _clean_text text in
  if (Z.of_nat (String.length text) <=? chunk_size)%Z then Some [text]
  else chunk_loop (String.length text) text chunk_size overlap 0 [].

(** ** Retrieval *)

(** A chunk record of the metadata store. *)
Record Meta : Type := {
  meta_source : string;
  meta_page : option Z;
  meta_chunk_index : option Z;
  meta_text : option string
}.

(** The collaborators of [get_citation_for_issue]: the environment, the
    index files, the embedding and completion service.  [Index] is the
    type of a loaded vector index. *)
Record Services (Index : Type) : Type := {
  api_key_set : bool;
  load_index_and_meta : string -> string -> result (Index * list Meta);
  embed_query : string -> result (list float);
  index_search : Index -> list float -> Z -> list (float * Z);
  chat_completion : string -> result string;
  json_loads : string -> result LlmSummary
}.
Arguments api_key_set {Index}.
Arguments load_index_and_meta {Index}.
Arguments embed_query {Index}.
Arguments index_search {Index}.
Arguments chat_completion {Index}.
Arguments json_loads {Index}.

Definition _ensure_openai_key {Index} (sv : Services Index) : result unit :=
  if api_key_set sv then Ok tt
  else Raise (EnvironmentError
                "OPENAI_API_KEY env var not set. Please set it to use embeddings.").

(** The hits kept: those whose position lies inside the metadata store. *)
Definition collect_results (meta : list Meta) (hits : list (float * Z)) : list Passage :=
  flat_map
    (fun '(score, idx) =>
       if ((idx <? 0) || (Z.of_nat (length meta) <=? idx))%Z then []
       else
         match nth_error meta (Z.to_nat idx) with
         | Some m =>
             [{| score := score; source := meta_source m; page := meta_page m;
                 chunk_index := meta_chunk_index m; passage_text := meta_text m |}]
         | None => []
         end)
    hits.

(** The prompt sent to the completion service.  The separators are spelt
    with doubled backslashes in the source, hence backslash-n in the text. *)
Definition build_prompt (query : string) (passages : string) : string :=
  "You are a legal assistant. Given this query and the retrieved passages from ADGM documents, "
  +:+ "produce a one-sentence citation (with which document/file and page) that supports or explains the query, "
  +:+ "and extract a short quoted passage (<= 120 words) that is most relevant. "
  +:+ "If nothing relevant is found, say 'no relevant passage found'.\n\n"
  +:+ "QUERY: " +:+ query +:+ "\n\nRETRIEVED_PASSAGES:\n" +:+ passages +:+ "\n\n"
  +:+ "Output JSON with keys: citation (string), excerpt (string).".

(** [join] over the passage texts raises when one of them is [None]. *)
Fixpoint passage_texts (rs : list Passage) : result (list string) :=
  match rs with
  | [] => Ok []
  | r :: rs' =>
      match passage_text r, passage_texts rs' with
      | Some t, Ok ts => Ok (t :: ts)
      | None, _ => Raise (OtherError "sequence item: expected str instance, NoneType found")
      | _, Raise e => Raise e
      end
  end.

Definition get_citation_for_issue {Index} (sv : Services Index)
    (query index_path meta_path : string) (top_k : Z) : result Citation :=
  match _ensure_openai_key sv with
  | Raise e => Raise e
  | Ok _ =>
  match load_index_and_meta sv index_path meta_path with
  | Raise e => Raise e
  | Ok (index, meta) =>
  match embed_query sv query with
  | Raise e => Raise e
  | Ok q_emb =>
      let results := collect_results meta (index_search sv index q_emb top_k) in
      match passage_texts results with
      | Raise e => Raise e
      | Ok texts =>
          let passages := join "\n\n---\n\n" texts in
          match chat_completion sv (build_prompt query passages) with
          | Raise e => Raise e
          | Ok content =>
              let llm_text := strip content in
              let llm_json :=
                match json_loads sv llm_text with
                | Ok j => j
                | Raise _ => SummaryDict (Some llm_text) (Some EmptyString)
                end in
              Ok {| query := query; results := results; llm_summary := llm_json |}
          end
      end
  end end end.

(** ** Embedding *)

(** [range(0, n, batch_size)] with [batch_size = 50]. *)
Definition batch_starts (n : nat) : list nat :=
  map (fun k => (k * 50)%nat) (seq 0 ((n + 49) / 50)).

(** [_embed_texts(texts)].  [create] is [openai.Embeddings.create]: for a
    batch of texts it answers the embeddings under [resp["data"]], or
    raises. *)
Definition _embed_texts {Index} (sv : Services Index)
    (create : list string -> result (list (list float))) (texts : list string)
    : result (list (list float)) :=
  match _ensure_openai_key sv with
  | Raise e => Raise e
  | Ok _ =>
      fold_left
        (fun acc i =>
           match acc with
           | Raise e => Raise e
           | Ok embeddings =>
               let batch := firstn 50 (skipn i texts) in
               match create batch with
               | Raise e => Raise e
               | Ok data => Ok (embeddings ++ data)
               end
           end)
        (batch_starts (length texts)) (Ok [])
  end.

End Rag.

(* ===================================================================== *)
(** ** src/utils/docx_comment_helper.py *)
(* ===================================================================== *)

Module CommentHelper.
Import PyStr Data.

(** *** The document object

    The part of a [docx.Document] the helper touches: the paragraphs of
    the body, each the list of the children of its [w:p] element, and the
    comments part, when the package has one. *)

(** The children of a run [w:r]. *)
Inductive RunChild : Type :=
| WT (text : string)              (* w:t *)
| WTab                            (* w:tab *)
| WBr                             (* w:br *)
| WCr                             (* w:cr *)
| WNoBreakHyphen                  (* w:noBreakHyphen *)
| WCommentReference (id : string) (* w:commentReference *)
| WRunOther (tag : string).       (* w:rPr, drawings, ... *)

(** The children of a paragraph [w:p]. *)
Inductive PChild : Type :=
| WR (children : list RunChild)             (* w:r *)
| WHyperlink (runs : list (list RunChild))  (* w:hyperlink and its runs *)
| WCommentRangeStart (id : string)          (* w:commentRangeStart *)
| WCommentRangeEnd (id : string)            (* w:commentRangeEnd *)
| WPOther (tag : string).                   (* w:pPr, bookmarks, ... *)

Definition Paragraph : Type := list PChild.

(** A [w:comment] element of the comments part: its attributes and the
    text of its paragraph. *)
Record Comment : Type := {
  comment_id : option string;
  comment_author : option string;
  comment_initials : option string;
  comment_text : string
}.

Record Document : Type := {
  paragraphs : list Paragraph;
  comments_part : option (list Comment)
}.

(** [run.text] of python-docx. *)
Definition run_child_text (c : RunChild) : string :=
  match c with
  | WT t => t
  | WTab => String (ascii_of_N 9) EmptyString
  | WBr | WCr => String nl EmptyString
  | WNoBreakHyphen => "-"
  | WCommentReference _ | WRunOther _ => EmptyString
  end.

Definition run_text (r : list RunChild) : string :=
  String.concat EmptyString (map run_child_text r).

(** [paragraph.text] of python-docx: the text of the runs and of the
    hyperlinks, in document order. *)
Definition pchild_text (c : PChild) : string :=
  match c with
  | WR r => run_text r
  | WHyperlink rs => String.concat EmptyString (map run_text rs)
  | WCommentRangeStart _ | WCommentRangeEnd _ | WPOther _ => EmptyString
  end.

Definition paragraph_text (p : Paragraph) : string :=
  String.concat EmptyString (map pchild_text p).

(** *** [int(s)] on an attribute value *)

(** Underscores are allowed between digits only. *)
Fixpoint drop_underscores (after_digit : bool) (s : string) : option string :=
  match s with
  | EmptyString => if after_digit then Some EmptyString else None
  | String c s' =>
      if is_code 95 c then
        if after_digit then drop_underscores false s' else None
      else option_map (String c) (drop_underscores true s')
  end.

(** [int(s)]: surrounding whitespace, an optional sign, decimal digits.
    [None] stands for [ValueError]. *)
Definition py_int (s : string) : option Z :=
  let t := strip_with is_int_space s in
  let '(negative, body) :=
    match t with
    | String c r =>
        if is_code 43 c then (false, r)
        else if is_code 45 c then (true, r)
        else (false, t)
    | EmptyString => (false, t)
    end in
  match drop_underscores false body with
  | None => None
  | Some digits =>
      match NilEmpty.uint_of_string digits with
      | Some d => Some (Z.of_int (if negative then Decimal.Neg d else Decimal.Pos d))
      | None => None
      end
  end.

(** *** The helper functions *)

(** The comments root of the document, created empty when the package has
    no comments part. *)
Definition _get_or_add_comments_part (doc : Document) : list Comment :=
  match comments_part doc with
  | Some comments_xml => comments_xml
  | None => []
  end.

(** The integer ids of the [w:comment] children: an absent attribute and
    a value [int] rejects are skipped. *)
Definition comment_ids (comments_xml : list Comment) : list Z :=
  omap (fun c => match comment_id c with
                 | Some cid => py_int cid
                 | None => None
                 end) comments_xml.

(** [max(ids)] for a non-empty list. *)
Definition py_max_list (x : Z) (xs : list Z) : Z := fold_left Z.max xs x.

Definition _next_comment_id (comments_xml : list Comment) : Z :=
  match comment_ids comments_xml with
  | [] => 0
  | x :: xs => py_max_list x xs + 1
  end.

(** What [add_comment_to_paragraph] does to the paragraph element: the
    range start is inserted first, the range end and a run holding the
    reference are appended. *)
Definition anchor_comment (cid : Z) (p : Paragraph) : Paragraph :=
  let start := WCommentRangeStart (str_of_Z cid) in
  let end_ := WCommentRangeEnd (str_of_Z cid) in
  let ref_r := WR [WCommentReference (str_of_Z cid)] in
  (start :: p) ++ [end_] ++ [ref_r].

(** [add_comment_to_paragraph(doc, paragraph, comment_text)], where
    [paragraph] is [doc.paragraphs[i]]. *)
Definition add_comment_to_paragraph (doc : Document) (i : nat) (comment_text : string)
    (author initials : string) : Document :=
  let comments_xml := _get_or_add_comments_part doc in
  let cid := _next_comment_id comments_xml in
  let comment_el :=
    {| comment_id := Some (str_of_Z cid);
       comment_author := Some author;
       comment_initials := Some initials;
       comment_text := comment_text |} in
  let comments_xml := comments_xml ++ [comment_el] in
  {| paragraphs := alter (anchor_comment cid) i (paragraphs doc);
     comments_part := Some comments_xml |}.

(** The body of the comment of one issue. *)
Definition comment_body_of (i : Issue) : string :=
  let issue_text := issue i in
  let suggestion := default EmptyString (suggestion i) in
  let comment_body := issue_text in
  let comment_body :=
    if truthy suggestion
    then comment_body +:+ String nl "Suggestion: " +:+ suggestion
    else comment_body in
  match citation i with
  | Some (CitDict c) =>
      match llm_summary c with
      | SummaryDict cit exc =>
          let comment_body :=
            comment_body +:+ String nl "Citation: " +:+ default EmptyString cit in
          match exc with
          | Some e => if truthy e then comment_body +:+ String nl "Excerpt: " +:+ e
                      else comment_body
          | None => comment_body
          end
      | SummaryOther => comment_body
      end
  | Some (CitOther true repr) => comment_body +:+ String nl "Citation: " +:+ repr
  | Some (CitOther false _) | None => comment_body
  end.

(** [[w for w in issue_text.split() if len(w) > 3][:6]] *)
Definition keywords_of (issue_text : string) : list string :=
  firstn 6 (filter (fun w => (3 < String.length w)%nat) (split_ws issue_text)).

(** Whether some keyword occurs in the text of the paragraph, both in
    lower case. *)
Definition paragraph_matches (keywords : list string) (p : Paragraph) : bool :=
  let ptext := paragraph_text p in
  existsb (fun kw => contains (lower kw) (lower ptext)) keywords.

(** The index of the first element that satisfies [f]. *)
Fixpoint find_index {A} (f : A -> bool) (l : list A) : option nat :=
  match l with
  | [] => None
  | x :: l' => if f x then Some 0%nat else option_map S (find_index f l')
  end.

(** One iteration of the loop over the issues. *)
Definition annotate_issue (doc : Document) (i : Issue) : result Document :=
  let comment_body := comment_body_of i in
  let keywords := keywords_of (issue i) in
  match find_index (paragraph_matches keywords) (paragraphs doc) with
  | Some k => Ok (add_comment_to_paragraph doc k comment_body "Reviewer" "RV")
  | None =>
      (* last_p = doc.paragraphs[-1] *)
      match length (paragraphs doc) with
      | O => Raise (IndexError "list index out of range")
      | S k => Ok (add_comment_to_paragraph doc k comment_body "Reviewer" "RV")
      end
  end.

(** The loop of [annotate_docx_with_comments] on the opened document: the
    document after the last issue, or the exception that stopped it. *)
Fixpoint annotate_document (doc : Document) (issues : list Issue) : result Document :=
  match issues with
  | [] => Ok doc
  | i :: issues' =>
      match annotate_issue doc i with
      | Ok doc' => annotate_document doc' issues'
      | Raise e => Raise e
      end
  end.

(** The files of the run: the documents that can be opened, by path, and
    the paths that can be written. *)
Record Files : Type := {
  docs : gmap string Document;
  writable : string -> bool
}.

(** [Document(path)] *)
Definition open_document (fs : Files) (path : string) : result Document :=
  match docs fs !! path with
  | Some doc => Ok doc
  | None => Raise (IOError ("Package not found at '" +:+ path +:+ "'"))
  end.

(** [doc.save(path)] *)
Definition save_document (fs : Files) (path : string) (doc : Document) : result Files :=
  if writable fs path
  then Ok {| docs := <[path := doc]> (docs fs); writable := writable fs |}
  else Raise (IOError ("Permission denied: '" +:+ path +:+ "'")).

Definition annotate_docx_with_comments (fs : Files)
    (input_docx_path output_docx_path : string) (issues : list Issue) : result Files :=
  match open_document fs input_docx_path with
  | Raise e => Raise e
  | Ok doc =>
      match annotate_document doc issues with
      | Raise e => Raise e
      | Ok doc' => save_document fs output_docx_path doc'
      end
  end.

End CommentHelper.

(* ===================================================================== *)
(** ** src/utils/reporter.py and src/processor/docx_processor.py *)
(* ===================================================================== *)

Module DocxProcessor.
Import PyStr PyFloat Data CommentHelper.

(** The report dictionary of [build_report]. *)
Record Report : Type := {
  process : string;
  documents_uploaded : nat;
  required_documents : nat;
  missing_document : option (list string);
  issues_found : list Issue
}.

Definition build_report (process : string) (documents_uploaded required_documents : nat)
    (missing_document : option (list string)) (issues_found : list Issue) : Report :=
  {| process := process;
     documents_uploaded := documents_uploaded;
     required_documents := required_documents;
     missing_document := missing_document;
     issues_found := issues_found |}.

(** The dictionary [PROCESS_CHECKLISTS], in insertion order. *)
Definition PROCESS_CHECKLISTS : list (string * list string) := [
  ("Company Incorporation",
   ["Articles of Association"; "Memorandum of Association";
    "Incorporation Application"; "UBO Declaration";
    "Register of Members and Directors"]);
  ("Commercial Licensing",
   ["Commercial License Application"; "Business Plan"; "Lease Agreement";
    "Financial Projections"]);
  ("Employment Documentation",
   ["Employment Contract"; "Job Description"; "Salary Certificate"])
].

(** [PROCESS_CHECKLISTS[process]], when [process in PROCESS_CHECKLISTS]. *)
Definition checklist_of (process : string) : option (list string) :=
  snd <$> find (fun '(name, _) => String.eqb name process) PROCESS_CHECKLISTS.

(** The vector index: its vectors, in insertion order. *)
Definition Index : Type := list (list float).

(** The world a run lives in: the document files, the other paths that
    exist, the directories that can be created, the retrieval services,
    and the reports written so far. *)
Record World : Type := {
  files : Files;
  path_exists : string -> bool;
  can_mkdir : string -> bool;
  services : Rag.Services Index;
  reports : gmap string Report
}.

Definition with_files (w : World) (fs : Files) : World :=
  {| files := fs; path_exists := path_exists w; can_mkdir := can_mkdir w;
     services := services w; reports := reports w |}.

(** [os.path.basename] and [os.path.join] (POSIX). *)
Definition basename (path : string) : string :=
  List.last (split_char "/" path) EmptyString.

Definition path_join (a b : string) : string :=
  if startswith b "/" then b
  else if negb (truthy a) || endswith a "/" then a +:+ b
  else a +:+ "/" +:+ b.

(** *** class RAGRetriever *)

Record RAGRetriever : Type := {
  index_path : string;
  meta_path : string;
  available : bool
}.

(** [RAGRetriever.__init__] *)
Definition RAGRetriever_init (w : World) (index_path meta_path : string) : RAGRetriever :=
  {| index_path := index_path;
     meta_path := meta_path;
     available := path_exists w index_path && path_exists w meta_path |}.

(** [RAGRetriever.get_citation_for_issue]: [None] is Python's [None]. *)
Definition RAGRetriever_get_citation_for_issue (self : RAGRetriever) (w : World)
    (issue : string) : option Citation :=
  if negb (available self) then None
  else
    match Rag.get_citation_for_issue (services w) issue
            (index_path self) (meta_path self) 3 with
    | Ok c => Some c
    | Raise e => None
    end.

(** *** Process inference *)

(** [overlap >= max(2, len(required_docs) * 0.4)] *)
Definition enough_overlap (overlap : nat) (required_docs : list string) : bool :=
  py_ge (PyFloat.of_nat overlap)
        (py_max 2%float (PyFloat.of_nat (length required_docs) * 0.4)%float).

(** The loop of [infer_process_from_types] over the checklists. *)
Fixpoint infer_loop (types_set : gset string) (checklists : list (string * list string))
    : string :=
  match checklists with
  | [] => "Unknown"
  | (process_name, required_docs) :: rest =>
      let required_set : gset string := list_to_set required_docs in
      let overlap := size (types_set ∩ required_set) in
      (* If we have at least 40% of required docs, likely this process *)
      if enough_overlap overlap required_docs then process_name
      else infer_loop types_set rest
  end.

Definition infer_process_from_types (detected_types_list : list string) : string :=
  let types_set : gset string := list_to_set detected_types_list in
  infer_loop types_set PROCESS_CHECKLISTS.

(** *** Single-document analysis *)

Definition document_text (doc : Document) : string :=
  join (String nl EmptyString)
    (filter (fun t => truthy (strip t)) (map paragraph_text (paragraphs doc))).

(** The dictionaries built outside the checks: two or three keys. *)
Definition bare_issue (i : string) (doc : option string) : Issue :=
  {| issue := i; severity := High; suggestion := None; section := None;
     document := doc; citation := None |}.

(** [issue['document'] = doc_name; issue['section'] = issue.get('section', 'General')] *)
Definition tag_issue (doc_name : string) (i : Issue) : Issue :=
  {| issue := issue i; severity := severity i; suggestion := suggestion i;
     section := Some (default "General" (section i));
     document := Some doc_name; citation := citation i |}.

Definition analyze_single_document (w : World) (doc_path : string)
    : list string * list Issue :=
  match open_document (files w) doc_path with
  | Ok doc =>
      let text := document_text doc in
      if negb (truthy (strip text)) then
        (["Unknown"], [bare_issue "Document appears to be empty" None])
      else
        (* Detect document types *)
        let doc_types := TypeDetector.detect_doc_type text in
        (* Run red flag checks *)
        let issues := RedflagRules.run_redflag_checks text None in
        (* Add document name to issues *)
        let doc_name := basename doc_path in
        (doc_types, map (tag_issue doc_name) issues)
  | Raise e =>
      (["Unknown"],
       [bare_issue ("Error reading document: " +:+ str_of_exn e)
          (Some (basename doc_path))])
  end.

(** *** Batch processing *)

(** The first loop: every document analysed, types and issues pooled. *)
Definition analyze_all (w : World) (paths : list string) : list string * list Issue :=
  fold_left
    (fun '(all_detected_types, all_issues) doc_path =>
       let '(doc_types, doc_issues) := analyze_single_document w doc_path in
       (all_detected_types ++ doc_types, all_issues ++ doc_issues))
    paths ([], []).

(** The missing-document check: the number of required documents and the
    required documents that are not among the detected types. *)
Definition check_missing (process : string) (all_detected_types : list string)
    : nat * list string :=
  match checklist_of process with
  | Some required =>
      let present_types : gset string := list_to_set all_detected_types in
      (length required,
       filter (fun doc => negb (bool_decide (doc ∈ present_types))) required)
  | None => (0%nat, [])
  end.

(** The citation loop: a citation found is stored in the issue. *)
Definition add_citations (rag_retriever : option RAGRetriever) (w : World)
    (all_issues : list Issue) : list Issue :=
  match rag_retriever with
  | Some r =>
      if available r then
        map (fun i =>
               match RAGRetriever_get_citation_for_issue r w (issue i) with
               | Some c =>
                   {| issue := issue i; severity := severity i;
                      suggestion := suggestion i; section := section i;
                      document := document i; citation := Some (CitDict c) |}
               | None => i
               end) all_issues
      else all_issues
  | None => all_issues
  end.

(** [issue.get('document') == doc_name] *)
Definition issue_of_document (doc_name : string) (i : Issue) : bool :=
  match document i with
  | Some d => String.eqb d doc_name
  | None => false
  end.

(** The annotation loop: one slot per path, the output path or [None],
    and the files after the documents written. *)
Definition annotate_all (fs : Files) (output_dir : string) (all_issues : list Issue)
    (paths : list string) : list (option string) * Files :=
  fold_left
    (fun '(saved_files, fs) doc_path =>
       let doc_name := basename doc_path in
       let output_path := path_join output_dir ("reviewed_" +:+ doc_name) in
       (* Get issues for this specific document *)
       let doc_issues := filter (issue_of_document doc_name) all_issues in
       match annotate_docx_with_comments fs doc_path output_path doc_issues with
       | Ok fs' => (saved_files ++ [Some output_path], fs')
       | Raise e => (saved_files ++ [None], fs)
       end)
    paths ([], fs).

(** [save_report_json(report, path)] *)
Definition save_report_json (w : World) (report : Report) (path : string) : result World :=
  if writable (files w) path
  then Ok {| files := files w; path_exists := path_exists w; can_mkdir := can_mkdir w;
             services := services w; reports := <[path := report]> (reports w) |}
  else Raise (IOError ("Permission denied: '" +:+ path +:+ "'")).

Definition process_multiple_docx (w : World) (paths : list string) (output_dir : string)
    (rag_retriever : option RAGRetriever) : result (Report * list string) * World :=
  (* os.makedirs(output_dir, exist_ok=True) *)
  if negb (can_mkdir w output_dir)
  then (Raise (IOError ("Permission denied: '" +:+ output_dir +:+ "'")), w)
  else
    (* Analyze each document *)
    let '(all_detected_types, all_issues) := analyze_all w paths in
    (* Infer the legal process *)
    let process := infer_process_from_types all_detected_types in
    (* Check for missing documents *)
    let '(required_count, missing_docs) := check_missing process all_detected_types in
    (* Enhance issues with citations if RAG is available *)
    let all_issues := add_citations rag_retriever w all_issues in
    (* Create annotated documents *)
    let '(saved_files, fs) := annotate_all (files w) output_dir all_issues paths in
    let w := with_files w fs in
    (* Build consolidated report *)
    let report :=
      build_report process (length paths) required_count
        (match missing_docs with [] => None | _ => Some missing_docs end)
        all_issues in
    (* Save JSON report *)
    let report_path := path_join output_dir "consolidated_report.json" in
    match save_report_json w report report_path with
    | Raise e => (Raise e, w)
    | Ok w' => (Ok (report, omap id saved_files), w')
    end.


(** *** Single-file wrapper *)

(** [os.path.dirname] (POSIX): the part before the last slash, without
    its trailing slashes unless it consists of slashes only. *)
Fixpoint through_last_slash (rev_chars : list ascii) : list ascii :=
  match rev_chars with
  | [] => []
  | c :: rest => if is_code 47 c then rev_chars else through_last_slash rest
  end.

Definition dirname (p : string) : string :=
  let head :=
    String.string_of_list_ascii
      (rev (through_last_slash (rev (String.list_ascii_of_string p)))) in
  if truthy head && negb (forallb (is_code 47) (String.list_ascii_of_string head))
  then rstrip_with (is_code 47) head
  else head.

(** [shutil.move(src, dst)] for a document [src] and a [dst] that is no
    directory. *)
Definition move (fs : Files) (src dst : string) : result Files :=
  match docs fs !! src with
  | None => Raise (IOError ("[Errno 2] No such file or directory: '" +:+ src +:+ "'"))
  | Some doc =>
      if String.eqb src dst then Ok fs
      else if writable fs dst
      then Ok {| docs := <[dst := doc]> (delete src (docs fs)); writable := writable fs |}
      else Raise (IOError ("[Errno 13] Permission denied: '" +:+ dst +:+ "'"))
  end.

(** [shutil.copy2(src, dst)]: a document is copied as a document, another
    existing file as a file that is no document. *)
Definition copy2 (w : World) (src dst : string) : result World :=
  match docs (files w) !! src with
  | Some doc =>
      if String.eqb src dst
      then Raise (OtherError ("'" +:+ src +:+ "' and '" +:+ dst +:+ "' are the same file"))
      else if writable (files w) dst
      then Ok (with_files w {| docs := <[dst := doc]> (docs (files w));
                               writable := writable (files w) |})
      else Raise (IOError ("[Errno 13] Permission denied: '" +:+ dst +:+ "'"))
  | None =>
      if negb (path_exists w src)
      then Raise (IOError ("[Errno 2] No such file or directory: '" +:+ src +:+ "'"))
      else if String.eqb src dst
      then Raise (OtherError ("'" +:+ src +:+ "' and '" +:+ dst +:+ "' are the same file"))
      else if writable (files w) dst
      then Ok {| files := {| docs := delete dst (docs (files w));
                             writable := writable (files w) |};
                 path_exists := fun p => String.eqb p dst || path_exists w p;
                 can_mkdir := can_mkdir w;
                 services := services w; reports := reports w |}
      else Raise (IOError ("[Errno 13] Permission denied: '" +:+ dst +:+ "'"))
  end.

(** The dictionary of the [except] branch: a report with the extra key
    ['error']. *)
Definition error_report (input_path : string) (e : exn) : Report * option string :=
  ({| process := "Error";
      documents_uploaded := 1;
      required_documents := 0;
      missing_document := None;
      issues_found :=
        [bare_issue ("Processing error: " +:+ str_of_exn e) (Some (basename input_path))] |},
   Some (str_of_exn e)).

(** [process_docx(input_path, output_path, rag_retriever)]: the report,
    the value under ['error'] when that key is there, and the world
    afterwards. *)
Definition process_docx (w : World) (input_path output_path : string)
    (rag_retriever : option RAGRetriever) : (Report * option string) * World :=
  (* Create temporary output directory *)
  let temp_dir := dirname output_path in
  let temp_dir := if negb (truthy temp_dir) then "/tmp" else temp_dir in
  (* Process using multi-file processor *)
  match process_multiple_docx w [input_path] temp_dir rag_retriever with
  | (Raise e, w') => (error_report input_path e, w')
  | (Ok (report, saved), w') =>
      match saved with
      | first :: _ =>
          (* Move the processed file to expected location *)
          match move (files w') first output_path with
          | Ok fs => ((report, None), with_files w' fs)
          | Raise e => (error_report input_path e, w')
          end
      | [] =>
          (* Create a placeholder if processing failed *)
          match copy2 w' input_path output_path with
          | Ok w'' => ((report, None), w'')
          | Raise e => (error_report input_path e, w')
          end
      end
  end.

(** [process_documents(input_paths, output_dir)] *)
Definition process_documents (w : World) (input_paths : list string) (output_dir : string)
    : result (Report * list string) * World :=
  let rag_retriever :=
    RAGRetriever_init w "resources/adgm_index.faiss" "resources/adgm_meta.json" in
  process_multiple_docx w input_paths output_dir (Some rag_retriever).

End DocxProcessor.

(* ===================================================================== *)
(** ** src/processor/rag.py: building the index *)
(* ===================================================================== *)

Module RagIndexing.
Import PyStr Data Rag DocxProcessor.

(** A dictionary of the list [docs]; the key ['_id'] is set once all the
    records are collected. *)
Record ChunkRecord : Type := {
  rec_source : string;
  rec_page : option nat;
  rec_chunk_index : nat;
  rec_text : string;
  rec_id : option nat
}.

(** What the index is built from and with: the directory tree as
    [os.walk] lists it (a root and its file names), the text of the pages
    of a PDF as [pdfplumber] extracts it, the content of a text file, the
    embedding service, numpy and faiss up to the written index file, and
    whether the metadata file can be written. *)
Record Corpus : Type := {
  os_walk : string -> list (string * list string);
  pdf_pages : string -> result (list (option string));
  read_text : string -> result string;
  create_embeddings : list string -> result (list (list float));
  write_index : list (list float) -> string -> result unit;
  meta_writable : string -> bool
}.

(** [_read_pdf_text(path)]: the pages, numbered from 1, a page without
    text as the empty string. *)
Definition _read_pdf_text (c : Corpus) (path : string) : result (list (nat * string)) :=
  match pdf_pages c path with
  | Raise e => Raise e
  | Ok pages => Ok (imap (fun i text => (S i, default EmptyString text)) pages)
  end.

(** The records of the chunks of one text.  [None] means that the
    chunking loop reached its bound. *)
Definition chunk_records (full : string) (page : option nat) (text : string)
    (chunk_size overlap : Z) : option (list ChunkRecord) :=
  match _chunk_text text chunk_size overlap with
  | None => None
  | Some chunks =>
      Some (imap (fun ci ch =>
                    {| rec_source := full; rec_page := page; rec_chunk_index := ci;
                       rec_text := ch; rec_id := None |}) chunks)
  end.

(** The loop over the pages of a PDF. *)
Definition collect_pages (full : string) (chunk_size overlap : Z)
    (pages : list (nat * string)) (docs : list ChunkRecord) : option (list ChunkRecord) :=
  fold_left
    (fun acc '(page_no, page_text) =>
       match acc with
       | None => None
       | Some docs =>
           if truthy page_text && truthy (strip page_text) then
             match chunk_records full (Some page_no) page_text chunk_size overlap with
             | Some records => Some (docs ++ records)
             | None => None
             end
           else Some docs
       end)
    pages (Some docs).

(** The body of the loop over the file names of a directory. *)
Definition collect_file (c : Corpus) (root : string) (chunk_size overlap : Z)
    (docs : list ChunkRecord) (fname : string) : option (result (list ChunkRecord)) :=
  if endswith (lower fname) ".pdf" || endswith (lower fname) ".txt" then
    let full := path_join root fname in
    if endswith (lower fname) ".pdf" then
      match _read_pdf_text c full with
      | Raise e => Some (Raise e)
      | Ok pages =>
          match collect_pages full chunk_size overlap pages docs with
          | Some docs => Some (Ok docs)
          | None => None
          end
      end
    else
      match read_text c full with
      | Raise e => Some (Raise e)
      | Ok txt =>
          match chunk_records full None txt chunk_size overlap with
          | Some records => Some (Ok (docs ++ records))
          | None => None
          end
      end
  else Some (Ok docs).

(** The loop over [os.walk(corpus_dir)]: the records collected, or the
    exception that stopped the walk. *)
Definition collect_corpus (c : Corpus) (corpus_dir : string) (chunk_size overlap : Z)
    : option (result (list ChunkRecord)) :=
  fold_left
    (fun acc '(root, files) =>
       fold_left
         (fun acc fname =>
            match acc with
            | Some (Ok docs) => collect_file c root chunk_size overlap docs fname
            | stopped => stopped
            end)
         files acc)
    (os_walk c corpus_dir) (Some (Ok [])).

(** [dmeta["_id"] = i] *)
Definition set_id (i : nat) (d : ChunkRecord) : ChunkRecord :=
  {| rec_source := rec_source d; rec_page := rec_page d;
     rec_chunk_index := rec_chunk_index d; rec_text := rec_text d; rec_id := Some i |}.

(** [build_index_from_corpus(corpus_dir, index_path, meta_path,
    chunk_size, overlap)]: the vectors put into the index and the records
    dumped as metadata, or the exception raised.  [None] means that a
    chunking loop reached its bound. *)
Definition build_index_from_corpus {Index} (sv : Services Index) (c : Corpus)
    (corpus_dir index_path meta_path : string) (chunk_size overlap : Z)
    : option (result (list (list float) * list ChunkRecord)) :=
  match collect_corpus c corpus_dir chunk_size overlap with
  | None => None
  | Some (Raise e) => Some (Raise e)
  | Some (Ok docs) =>
      match docs with
      | [] =>
          (* ValueError *)
          Some (Raise (OtherError ("No documents found in corpus_dir: " +:+ corpus_dir)))
      | _ =>
          let texts := map rec_text docs in
          match _embed_texts sv (create_embeddings c) texts with
          | Raise e => Some (Raise e)
          | Ok embeddings =>
              match write_index c embeddings index_path with
              | Raise e => Some (Raise e)
              | Ok _ =>
                  let docs := imap set_id docs in
                  if meta_writable c meta_path
                  then Some (Ok (embeddings, docs))
                  else Some (Raise (IOError ("[Errno 13] Permission denied: '" +:+ meta_path +:+ "'")))
              end
          end
      end
  end.

End RagIndexing.

(* ===================================================================== *)
(** * The vocabulary of the properties *)
(* ===================================================================== *)

Import PyStr PyFloat Data TypeDetector RedflagRules Rag CommentHelper DocxProcessor.

(** ** Confidences *)

(** [x == x] holds of every float but NaN. *)
Definition is_number (x : float) : Prop := PrimFloat.eqb x x = true.

(** [n] additions, and [n] subtractions, of [w]. *)
Definition add_times (w : float) (n : nat) (x : float) : float :=
  Nat.iter n (fun s => (s + w)%float) x.

Definition sub_times (w : float) (n : nat) (x : float) : float :=
  Nat.iter n (fun s => (s - w)%float) x.

(** The number of the keywords that occur in the text. *)
Definition hits (text : string) (keywords : list string) : nat :=
  length (List.filter (fun kw => contains kw text) keywords).

(** The confidence from the numbers of keywords and of keywords found. *)
Definition confidence_of_counts (lp ls lt np ns nt ne : nat) : float :=
  let score := add_times 0.5 np 0 in
  let total := add_times 0.5 lp 0 in
  let score := if (1 <? np)%nat then (score + 0.1)%float else score in
  let score := add_times 0.1 ns score in
  let total := add_times 0.1 ls total in
  let score := add_times 0.15 nt score in
  let total := add_times 0.15 lt total in
  let score := sub_times 0.2 ne score in
  py_max (if PrimFloat.ltb 0 total then py_min (score / total)%float 1%float
          else 0%float) 0%float.

(** The counts [0], ..., [n]. *)
Definition upto (n : nat) : list nat := seq 0 (S n).

(** Every count up to the number of keywords gives a number. *)
Definition counts_give_numbers (p : Patterns) : bool :=
  let lp := length (primary_keywords p) in
  let ls := length (secondary_keywords p) in
  let lt := length (structure_indicators p) in
  let le := length (exclusion_keywords p) in
  forallb (fun np => forallb (fun ns => forallb (fun nt => forallb (fun ne =>
    let c := confidence_of_counts lp ls lt np ns nt ne in PrimFloat.eqb c c)
    (upto le)) (upto lt)) (upto ls)) (upto lp).

(** [a] is listed before [b]: the confidence of [a] is at least that of [b]. *)
Definition conf_ge (a b : string * float) : Prop := py_ge (snd a) (snd b) = true.

(** ** The scenarios *)

(** The three phrases of scenario A and nothing else. *)
Definition scenario_a_text : string :=
  "ARTICLES OF ASSOCIATION share capital director".

(** The text of [test_articles_of_association_detection]. *)
Definition test_articles_text : string :=
  join (String nl EmptyString)
    [ EmptyString;
      "        ARTICLES OF ASSOCIATION";
      "        of";
      "        DemoCorp LLC";
      "        ";
      "        1. COMPANY NAME";
      "        The name of the company is DemoCorp LLC.";
      "        ";
      "        2. SHARE CAPITAL";
      "        The authorized share capital is AED 150,000.";
      "        ";
      "        3. DIRECTORS";
      "        The company shall have at least one director.";
      "        " ].

(** The sentence of scenario B. *)
Definition scenario_b_text : string :=
  "This agreement shall be governed by UAE Federal Courts.".

(** An issue of High severity about missing directors provisions. *)
Definition is_missing_directors (i : Issue) : bool :=
  match severity i with
  | High => contains "directors" (lower (issue i)) && contains "missing" (lower (issue i))
  | _ => false
  end.

(** A High-severity issue whose description names the UAE Federal Courts. *)
Definition is_federal_courts_issue (i : Issue) : bool :=
  match severity i with
  | High => contains "UAE Federal Courts" (issue i)
  | _ => false
  end.

(** The entry of Articles of Association in [DOCUMENT_PATTERNS]. *)
Definition articles_patterns : Patterns :=
  {| primary_keywords := ["articles of association"; "articles of incorporation"];
     secondary_keywords := ["share capital"; "directors"; "shareholders"; "company constitution"];
     exclusion_keywords := ["memorandum"];
     structure_indicators := ["article 1"; "article 2"; "clause"];
     confidence_threshold := 0.6 |}.

(** ** The rule engine *)

(** The type-specific family of checks: the one selected by [doc_type], or
    the four known ones when no type is given. *)
Definition type_specific_checks (text : string) (doc_type : option string) : list Issue :=
  match doc_type_given doc_type with
  | Some d => _check_document_specific_issues text (lower text) d
  | None =>
      _check_articles_of_association text (lower text)
      ++ _check_memorandum_of_association text (lower text)
      ++ _check_ubo_declaration text (lower text)
      ++ _check_incorporation_application text (lower text)
  end.

(** ** Chunks *)

(** [c[n:]] *)
Definition drop_prefix (n : nat) (c : string) : string := substr n (String.length c) c.

(** The chunks put together again, in the order of their index: the first
    chunk, then every later chunk without its first [overlap] characters. *)
Definition reassemble (overlap : nat) (chunks : list string) : string :=
  match chunks with
  | [] => EmptyString
  | c :: cs => c +:+ String.concat EmptyString (map (drop_prefix overlap) cs)
  end.

(** The distance between the starts of two successive chunks. *)
Definition chunk_step (chunk_size overlap : Z) : nat :=
  Z.to_nat (Z.max (chunk_size - overlap) 1).

(** Character [i] of [text] lies in some chunk: the chunk of index [k] is
    the window of [text] that starts at [k * step], and [i] falls in it. *)
Definition covered (text : string) (chunk_size overlap : Z) (chunks : list string)
    (i : nat) : Prop :=
  exists k c,
    chunks !! k = Some c
    /\ c = slice text (Z.of_nat (k * chunk_step chunk_size overlap))
                 (Z.of_nat (k * chunk_step chunk_size overlap) + chunk_size)
    /\ (k * chunk_step chunk_size overlap <= i
        < k * chunk_step chunk_size overlap + String.length c)%nat.

(** ** Process inference *)

(** The rule in the words of the specification: the number of distinct
    required documents found among the pooled types, and the threshold
    [max(2, 0.4 * required_count)], in exact arithmetic
    ([0.4 * n <= k] is [2 * n <= 5 * k]). *)
Definition required_present (types required : list string) : nat :=
  length (filter (fun r => r ∈ types) (remove_dups required)).

(** At least [max(2, 0.4 * required_count)] required documents are present. *)
Definition meets_threshold (types required : list string) : bool :=
  let k := required_present types required in
  (2 <=? k)%nat && (2 * length required <=? 5 * k)%nat.

(** The first process, in the order of declaration, that meets the
    threshold. *)
Definition first_process_meeting (types : list string) : string :=
  match find (fun '(_, required) => meets_threshold types required) PROCESS_CHECKLISTS with
  | Some (process_name, _) => process_name
  | None => "Unknown"
  end.

(** The pooled types of scenario C. *)
Definition scenario_c_types : list string :=
  ["Articles of Association"; "Memorandum of Association"; "UBO Declaration"].

(** ** Annotated documents *)



(** The sequence of the paragraph texts of a document. *)
Definition paragraph_texts (doc : Document) : list string :=
  map paragraph_text (paragraphs doc).

(** The integer ids of the comments of a document. *)
Definition document_comment_ids (doc : Document) : list Z :=
  comment_ids (_get_or_add_comments_part doc).

(** The id the next comment gets, given the ids in the comments part. *)
Definition next_id_after (ids : list Z) : Z :=
  match ids with
  | [] => 0
  | x :: xs => py_max_list x xs + 1
  end.


(** ** Batches *)

(** The annotation loop, step by step: a document whose annotation
    succeeds fills its slot with the output path and updates the files; a
    document whose annotation raises leaves [None] in its slot and the
    files as they were; the loop goes on with the next path either way. *)
Inductive annotation_trace (output_dir : string) (all_issues : list Issue)
    : Files -> list string -> list (option string) -> Files -> Prop :=
| trace_done fs :
    annotation_trace output_dir all_issues fs [] [] fs
| trace_saved fs fs1 fs' doc_path rest slots :
    annotate_docx_with_comments fs doc_path
      (path_join output_dir ("reviewed_" +:+ basename doc_path))
      (filter (issue_of_document (basename doc_path)) all_issues) = Ok fs1 ->
    annotation_trace output_dir all_issues fs1 rest slots fs' ->
    annotation_trace output_dir all_issues fs (doc_path :: rest)
      (Some (path_join output_dir ("reviewed_" +:+ basename doc_path)) :: slots) fs'
| trace_failed fs fs' e doc_path rest slots :
    annotate_docx_with_comments fs doc_path
      (path_join output_dir ("reviewed_" +:+ basename doc_path))
      (filter (issue_of_document (basename doc_path)) all_issues) = Raise e ->
    annotation_trace output_dir all_issues fs rest slots fs' ->
    annotation_trace output_dir all_issues fs (doc_path :: rest) (None :: slots) fs'.

(** The issues of the documents, one document after the other. *)
Definition pooled_issues (w : World) (paths : list string) : list Issue :=
  flat_map (fun p => snd (analyze_single_document w p)) paths.

(** The types of the documents, one document after the other. *)
Definition pooled_types (w : World) (paths : list string) : list string :=
  flat_map (fun p => fst (analyze_single_document w p)) paths.

(** ** A sample world *)

(** A document of two paragraphs that already has two comments, one of
    which has no integer id. *)
Definition sample_doc : Document :=
  {| paragraphs :=
       [ [WPOther "w:pPr"; WR [WT "Governing law and jurisdiction"; WTab; WT "UAE"]];
         [WR [WT "Signed by the parties"]; WHyperlink [[WT " (see annex)"]]] ];
     comments_part :=
       Some [ {| comment_id := Some "7"; comment_author := Some "Counsel";
                 comment_initials := Some "C"; comment_text := "Check the seat." |};
              {| comment_id := Some "draft"; comment_author := None;
                 comment_initials := None; comment_text := EmptyString |} ] |}.

(** Two readable documents; the reviewed copy of the second one cannot be
    written. *)
Definition sample_files : Files :=
  {| docs := {[ "in.docx" := sample_doc; "locked.docx" := sample_doc ]};
     writable := fun path => negb (String.eqb path "out/reviewed_locked.docx") |}.

(** No API key, no index, no service. *)
Definition no_services : Rag.Services Index :=
  {| Rag.api_key_set := false;
     Rag.load_index_and_meta := fun _ _ => Raise (IOError "No such file or directory");
     Rag.embed_query := fun _ => Raise (OtherError "connection refused");
     Rag.index_search := fun _ _ _ => [];
     Rag.chat_completion := fun _ => Raise (OtherError "connection refused");
     Rag.json_loads := fun _ => Raise (OtherError "Expecting value") |}.

(** A world without index files. *)
Definition sample_world : World :=
  {| files := sample_files;
     path_exists := fun _ => false;
     can_mkdir := fun _ => true;
     services := no_services;
     reports := ∅ |}.

(** The same world once the index files exist (the API key is still
    missing). *)
Definition indexed_world : World :=
  {| files := sample_files;
     path_exists := fun _ => true;
     can_mkdir := fun _ => true;
     services := no_services;
     reports := ∅ |}.

(** Two issues of the document [in.docx]. *)
Definition jurisdiction_issue : Issue :=
  {| issue := "Jurisdiction clause present but does not specify ADGM Courts";
     severity := High;
     suggestion := Some "Specify ADGM Courts as the governing jurisdiction";
     section := Some "General"; document := Some "in.docx"; citation := None |}.

Definition signature_issue : Issue :=
  {| issue := "Missing signature block or execution clause";
     severity := High;
     suggestion := Some "Add proper signature block with name, title, and date fields";
     section := Some "End of document"; document := Some "in.docx"; citation := None |}.

(** The files after a first and after a second annotation. *)
Definition files_of (r : result Files) : Files :=
  match r with Ok fs => fs | Raise _ => sample_files end.

Definition annotated_once : Files :=
  files_of (annotate_docx_with_comments sample_files "in.docx" "out1.docx"
              [jurisdiction_issue; signature_issue]).

Definition annotated_twice : Files :=
  files_of (annotate_docx_with_comments annotated_once "out1.docx" "out2.docx"
              [signature_issue]).

(** A readable document, a path that does not exist, and the document
    whose reviewed copy cannot be written. *)
Definition sample_paths : list string := ["in.docx"; "missing.docx"; "locked.docx"].

Import RagIndexing.

(** ** Severities *)

Definition is_severity (sev : Severity) (i : Issue) : bool :=
  match severity i, sev with
  | High, High | Medium, Medium | Low, Low => true
  | _, _ => false
  end.

(** The number of the issues of a severity. *)
Definition count_severity_of (sev : Severity) (issues : list Issue) : nat :=
  length (List.filter (is_severity sev) issues).

(** ** Sections *)

(** The sections whose name does not occur in the text, whatever the
    case of the letters. *)
Definition missing_sections (text : string) (sections : list string) : list string :=
  List.filter (fun sect => negb (contains (lower sect) (lower text))) sections.

(** The issue dictionary has the four keys of a check and no other. *)
Definition is_check_issue (i : Issue) : Prop :=
  suggestion i <> None /\ section i <> None /\ document i = None /\ citation i = None.

(** The issue of [check_cross_references] for the reference [ref]. *)
Definition is_broken_reference (text : string) (i : Issue) : Prop :=
  exists ref,
    i = mk_issue ("Potential broken cross-reference: " +:+ ref) Medium
          ("Verify that " +:+ ref +:+ " exists in the document")
          (_find_section_with_text text ref)
    /\ contains ref text = true
    /\ contains "clause" (lower ref) = true
    /\ contains (lower ref) (replace_first (lower ref) EmptyString (lower text)) = false.

(** ** Classification *)

(** A confidence between 0 and 1. *)
Definition in_unit_interval (c : float) : Prop :=
  PrimFloat.leb 0 c = true /\ PrimFloat.leb c 1 = true.

(** The names of the table of patterns. *)
Definition pattern_types : list string := map fst DOCUMENT_PATTERNS.

(** For every number of keywords found, the confidence lies between 0 and
    1, and when it reaches the threshold it is at least 0.5. *)
Definition counts_in_range (p : Patterns) : bool :=
  let lp := length (primary_keywords p) in
  let ls := length (secondary_keywords p) in
  let lt := length (structure_indicators p) in
  let le := length (exclusion_keywords p) in
  forallb (fun np => forallb (fun ns => forallb (fun nt => forallb (fun ne =>
    let c := confidence_of_counts lp ls lt np ns nt ne in
    PrimFloat.leb 0 c && PrimFloat.leb c 1
    && implb (py_ge c (confidence_threshold p))
         (PrimFloat.leb 0.5 c && negb (PrimFloat.ltb c 0.5)))
    (upto le)) (upto lt)) (upto ls)) (upto lp).

(** The names the fallback can answer. *)
Definition fallback_types : list string :=
  map (fun '(_, doc_type) => "General " +:+ doc_type) legal_indicators
  ++ ["Short Form/Notice"; "Complex Legal Document"; "Standard Business Document"].

(** [any(indicator in text_lower for indicator in signature_indicators)] *)
Definition has_signature_indicator (text : string) : bool :=
  existsb (fun indicator => contains indicator (lower text)) signature_indicators.


(** No type of the table reaches its threshold on the text. *)
Definition no_pattern_type (text : string) : Prop :=
  is_blank text = true
  \/ matching_types DOCUMENT_PATTERNS (normalize_ws (lower text)) = [].

(** ** Retrieval *)

(** Services with an API key whose index, embedding and completion
    answer: an index of two vectors, a store of one record. *)
Definition answering_services : Rag.Services Index :=
  {| Rag.api_key_set := true;
     Rag.load_index_and_meta := fun _ _ =>
       Ok ([[0%float]; [1%float]],
           [{| meta_source := "adgm/companies_regulations.pdf"; meta_page := Some 4%Z;
               meta_chunk_index := Some 0%Z;
               meta_text := Some "A company shall have a registered office." |}]);
     Rag.embed_query := fun _ => Ok [0%float];
     Rag.index_search := fun _ _ _ => [(0%float, 0%Z); (1%float, (-1)%Z); (2%float, 1%Z)];
     Rag.chat_completion := fun _ => Ok " see the regulations ";
     Rag.json_loads := fun _ => Raise (OtherError "Expecting value") |}.

(** The position of a hit lies inside the metadata store. *)
Definition valid_hit (meta : list Meta) (hit : float * Z) : bool :=
  ((0 <=? snd hit) && (snd hit <? Z.of_nat (length meta)))%Z.

(** The passage made of a record of the store and a score. *)
Definition passage_of (score : float) (m : Meta) : Passage :=
  {| Data.score := score; source := meta_source m; page := meta_page m;
     chunk_index := meta_chunk_index m; passage_text := meta_text m |}.

(** An embedding service that answers one vector per text. *)
Definition length_embedding (batch : list string) : result (list (list float)) :=
  Ok (map (fun t => [PyFloat.of_nat (String.length t)]) batch).

(** ** Comments *)




(** ** Single-file processing *)

(** The directory [process_docx] works in. *)
Definition temp_dir_of (output_path : string) : string :=
  if negb (truthy (dirname output_path)) then "/tmp" else dirname output_path.

(** The reviewed copy the batch processor writes for a document. *)
Definition reviewed_path (output_dir doc_path : string) : string :=
  path_join output_dir ("reviewed_" +:+ basename doc_path).

(** The report of the batch processor for the given paths. *)
Definition batch_report (w : World) (paths : list string)
    (rag_retriever : option RAGRetriever) : Report :=
  let process := infer_process_from_types (pooled_types w paths) in
  build_report process (length paths)
    (fst (check_missing process (pooled_types w paths)))
    (let missing := snd (check_missing process (pooled_types w paths)) in
     match missing with
     | [] => None
     | _ => Some missing
     end)
    (add_citations rag_retriever w (pooled_issues w paths)).

(** ** Index building *)

(** [fname.lower().endswith(".pdf") or fname.lower().endswith(".txt")] *)
Definition is_corpus_file (fname : string) : bool :=
  endswith (lower fname) ".pdf" || endswith (lower fname) ".txt".

(** A corpus of one directory with a text file, a PDF of three pages of
    which two are blank, and a file that is neither; everything can be
    written. *)
Definition sample_corpus : Corpus :=
  {| os_walk := fun _ => [("corpus", ["a.txt"; "b.PDF"; "notes.md"])];
     pdf_pages := fun _ => Ok [Some "page one"; None; Some "  "];
     read_text := fun _ => Ok "hello";
     create_embeddings := length_embedding;
     write_index := fun _ _ => Ok tt;
     meta_writable := fun _ => true |}.

(** A corpus without any file. *)
Definition empty_corpus : Corpus :=
  {| os_walk := fun _ => [("corpus", ["notes.md"])];
     pdf_pages := fun _ => Ok [];
     read_text := fun _ => Ok EmptyString;
     create_embeddings := length_embedding;
     write_index := fun _ _ => Ok tt;
     meta_writable := fun _ => true |}.

(** ** Monotone scoring *)

(** Whatever the numbers of keywords found, finding more keywords and
    fewer exclusion keywords does not lower the confidence. *)
Definition counts_monotone (p : Patterns) : bool :=
  let lp := length (primary_keywords p) in
  let ls := length (secondary_keywords p) in
  let lt := length (structure_indicators p) in
  let le := length (exclusion_keywords p) in
  forallb (fun np => forallb (fun np' =>
  forallb (fun ns => forallb (fun ns' =>
  forallb (fun nt => forallb (fun nt' =>
  forallb (fun ne => forallb (fun ne' =>
    implb ((np <=? np')%nat && (ns <=? ns')%nat && (nt <=? nt')%nat && (ne' <=? ne)%nat)
      (PrimFloat.leb (confidence_of_counts lp ls lt np ns nt ne)
                     (confidence_of_counts lp ls lt np' ns' nt' ne')))
    (upto le)) (upto le)) (upto lt)) (upto lt)) (upto ls)) (upto ls)) (upto lp)) (upto lp).

(** A text of three lines with a blank line between them. *)
Definition blank_line_text : string :=
  String "a" (String nl (String nl (String nl (String "b" (String " " EmptyString))))).

(* ===================================================================== *)
(** * Properties *)
(* ===================================================================== *)

(** ** Floats that are numbers are totally preordered *)

Section FloatOrder.

Lemma SFcompare_nan_free (x y : spec_float) :
  SFeqb x x = true -> SFeqb y y = true -> SFcompare x y <> None.
Proof.
  unfold SFeqb. destruct x, y; simpl; congruence.
Qed.

Lemma SFcompare_antisym (x y : spec_float) :
  SFcompare y x = option_map CompOpp (SFcompare x y).
Proof.
  destruct x as [sx|sx| |sx mx ex], y as [sy|sy| |sy my ey]; simpl;
    try reflexivity;
    try (destruct sx; reflexivity); try (destruct sy; reflexivity);
    try (destruct sx, sy; reflexivity).
  destruct sx, sy; simpl; try reflexivity;
    rewrite (Z.compare_antisym ex ey);
    destruct (ex ?= ey)%Z; simpl; try reflexivity;
    change (Pos.compare_cont Eq my mx) with (my ?= mx)%positive;
    change (Pos.compare_cont Eq mx my) with (mx ?= my)%positive;
    rewrite (Pos.compare_antisym mx my);
    destruct (mx ?= my)%positive; reflexivity.
Qed.

Lemma float_ltb_false_leb (a b : float) :
  is_number a -> is_number b ->
  PrimFloat.ltb a b = false -> PrimFloat.leb b a = true.
Proof.
  unfold is_number. rewrite !FloatAxioms.eqb_spec, FloatAxioms.ltb_spec, FloatAxioms.leb_spec.
  intros Ha Hb. unfold SFltb, SFleb.
  pose proof (SFcompare_nan_free _ _ Ha Hb) as Hn.
  rewrite (SFcompare_antisym (Prim2SF a) (Prim2SF b)).
  destruct (SFcompare (Prim2SF a) (Prim2SF b)) as [[]|]; simpl; congruence.
Qed.

Lemma float_ltb_leb (a b : float) :
  PrimFloat.ltb a b = true -> PrimFloat.leb a b = true.
Proof.
  rewrite FloatAxioms.ltb_spec, FloatAxioms.leb_spec. unfold SFltb, SFleb.
  destruct (SFcompare (Prim2SF a) (Prim2SF b)) as [[]|]; congruence.
Qed.

End FloatOrder.

(** ** TypeDetector: the confidence is a function of the hit counts *)

Section Confidence.

Lemma add_times_shift w n x : add_times w n (x + w)%float = add_times w (S n) x.
Proof.
  unfold add_times. induction n as [|n IH]; simpl; [reflexivity|].
  rewrite IH. reflexivity.
Qed.

Lemma sub_times_shift w n x : sub_times w n (x - w)%float = sub_times w (S n) x.
Proof.
  unfold sub_times. induction n as [|n IH]; simpl; [reflexivity|].
  rewrite IH. reflexivity.
Qed.

Lemma hits_le text keywords : (hits text keywords <= length keywords)%nat.
Proof. unfold hits. apply List.filter_length_le. Qed.

Lemma weighted_scan_counts w text keywords score total found :
  weighted_scan w text keywords (score, total, found) =
  (add_times w (hits text keywords) score,
   add_times w (length keywords) total,
   (found + hits text keywords)%nat).
Proof.
  unfold weighted_scan, hits.
  revert score total found.
  induction keywords as [|kw kws IH]; intros score total found; simpl.
  - rewrite Nat.add_0_r. reflexivity.
  - destruct (contains kw text); simpl; rewrite IH, !add_times_shift.
    + f_equal. lia.
    + reflexivity.
Qed.

Lemma exclusion_scan_counts w text keywords score :
  exclusion_scan w text keywords score = sub_times w (hits text keywords) score.
Proof.
  unfold exclusion_scan, hits. revert score.
  induction keywords as [|kw kws IH]; intros score; simpl; [reflexivity|].
  destruct (contains kw text); simpl; rewrite IH; [apply sub_times_shift|reflexivity].
Qed.

Lemma calculate_confidence_counts text p :
  _calculate_confidence text p =
  confidence_of_counts
    (length (primary_keywords p)) (length (secondary_keywords p))
    (length (structure_indicators p))
    (hits text (primary_keywords p)) (hits text (secondary_keywords p))
    (hits text (structure_indicators p)) (hits text (exclusion_keywords p)).
Proof.
  unfold _calculate_confidence, confidence_of_counts.
  rewrite !weighted_scan_counts. cbn zeta iota beta.
  rewrite exclusion_scan_counts. reflexivity.
Qed.

Lemma forallb_upto (f : nat -> bool) (n k : nat) :
  forallb f (upto n) = true -> (k <= n)%nat -> f k = true.
Proof.
  intros H Hk. rewrite forallb_forall in H. apply H.
  unfold upto. apply in_seq. lia.
Qed.

Lemma table_gives_numbers :
  forallb (fun '(_, p) => counts_give_numbers p) DOCUMENT_PATTERNS = true.
Proof. vm_compute. reflexivity. Qed.

Lemma calculate_confidence_is_number text name p :
  In (name, p) DOCUMENT_PATTERNS -> is_number (_calculate_confidence text p).
Proof.
  intros Hin. pose proof table_gives_numbers as H.
  rewrite forallb_forall in H. specialize (H _ Hin). cbn beta iota in H.
  unfold counts_give_numbers in H. rewrite calculate_confidence_counts.
  unfold is_number.
  eapply forallb_upto in H; [|apply (hits_le text (primary_keywords p))].
  eapply forallb_upto in H; [|apply (hits_le text (secondary_keywords p))].
  eapply forallb_upto in H; [|apply (hits_le text (structure_indicators p))].
  eapply forallb_upto in H; [|apply (hits_le text (exclusion_keywords p))].
  exact H.
Qed.

End Confidence.

(** ** TypeDetector: the classifier's answer *)

Section Classifier.

Lemma insert_desc_not_nil {A} (key : A -> float) x l : insert_desc key x l <> [].
Proof. destruct l; simpl; [|destruct (PrimFloat.ltb _ _)]; discriminate. Qed.

Lemma insert_desc_Forall {A} (key : A -> float) (P : A -> Prop) x l :
  P x -> Forall P l -> Forall P (insert_desc key x l).
Proof.
  intros Hx Hl. induction Hl as [|y l Hy Hl IH]; simpl.
  - repeat constructor; assumption.
  - destruct (PrimFloat.ltb _ _); repeat constructor; assumption.
Qed.

Lemma sort_desc_Forall {A} (key : A -> float) (P : A -> Prop) l :
  Forall P l -> Forall P (sort_desc key l).
Proof.
  unfold sort_desc. induction 1; simpl; [constructor|].
  apply insert_desc_Forall; assumption.
Qed.

Lemma insert_desc_HdRel (x y : string * float) l :
  conf_ge y x -> HdRel conf_ge y l -> HdRel conf_ge y (insert_desc snd x l).
Proof.
  intros Hyx Hl. destruct l as [|z l]; simpl.
  - constructor. exact Hyx.
  - destruct (PrimFloat.ltb (snd x) (snd z)).
    + constructor. inversion Hl; assumption.
    + constructor. exact Hyx.
Qed.

Lemma insert_desc_Sorted (x : string * float) l :
  is_number (snd x) -> Forall (fun y => is_number (snd y)) l ->
  Sorted conf_ge l -> Sorted conf_ge (insert_desc snd x l).
Proof.
  intros Hx Hl Hs. induction Hs as [|y l Hs IH Hhd]; simpl.
  - repeat constructor.
  - inversion Hl as [|? ? Hy Hl']; subst.
    destruct (PrimFloat.ltb (snd x) (snd y)) eqn:E.
    + constructor; [apply IH; assumption|].
      apply insert_desc_HdRel; [|assumption].
      unfold conf_ge, py_ge. apply float_ltb_leb. exact E.
    + constructor; [constructor; assumption|].
      constructor. unfold conf_ge, py_ge.
      apply float_ltb_false_leb; assumption.
Qed.

Lemma sort_desc_Sorted (l : list (string * float)) :
  Forall (fun y => is_number (snd y)) l -> Sorted conf_ge (sort_desc snd l).
Proof.
  unfold sort_desc. induction 1 as [|x l Hx Hl IH]; simpl; [constructor|].
  apply insert_desc_Sorted; [assumption| |assumption].
  apply (sort_desc_Forall snd (fun y => is_number (snd y))). assumption.
Qed.

(** What the loop over the table collects carries the confidence computed
    for an entry of the table. *)
Lemma matching_types_from_table table text :
  Forall (fun x => exists name p, In (name, p) table /\
                                   snd x = _calculate_confidence text p)
         (matching_types table text).
Proof.
  unfold matching_types.
  assert (G : forall tbl acc,
             (forall e, In e tbl -> In e table) ->
             Forall (fun x => exists name p, In (name, p) table /\
                                snd x = _calculate_confidence text p) acc ->
             Forall (fun x => exists name p, In (name, p) table /\
                                snd x = _calculate_confidence text p)
               (fold_left
                  (fun detected_types '(doc_type, patterns) =>
                     let confidence := _calculate_confidence text patterns in
                     if py_ge confidence (confidence_threshold patterns)
                     then detected_types ++ [(doc_type, confidence)]
                     else detected_types) tbl acc)).
  { induction tbl as [|[name p] tbl IH]; intros acc Hsub Hacc; simpl; [assumption|].
    apply IH; [intros e He; apply Hsub; right; exact He|].
    destruct (py_ge _ _); [|assumption].
    apply Forall_app. split; [assumption|].
    constructor; [|constructor].
    exists name, p. split; [apply Hsub; left; reflexivity|reflexivity]. }
  apply G; [auto|constructor].
Qed.

Lemma matching_types_numbers text :
  Forall (fun y => is_number (snd y)) (matching_types DOCUMENT_PATTERNS text).
Proof.
  eapply List.Forall_impl; [|apply matching_types_from_table].
  intros x (name & p & Hin & ->).
  eapply calculate_confidence_is_number; eassumption.
Qed.

(** Blank inputs: [not text or not text.strip()] holds exactly of the
    texts made of whitespace only. *)
Lemma lstrip_spaces sp s :
  forallb sp (String.list_ascii_of_string s) = true -> lstrip_with sp s = EmptyString.
Proof.
  induction s as [|c s IH]; simpl; [reflexivity|].
  intros H. apply andb_true_iff in H as [Hc Hs]. rewrite Hc. auto.
Qed.

Lemma rstrip_not_empty sp s :
  forallb sp (String.list_ascii_of_string s) = false -> rstrip_with sp s <> EmptyString.
Proof.
  induction s as [|c s IH]; simpl; [discriminate|].
  intros H. destruct (rstrip_with sp s) eqn:E; [|discriminate].
  destruct (sp c); simpl in H; [|discriminate].
  exfalso. apply IH; auto.
Qed.

Lemma lstrip_not_spaces sp s :
  forallb sp (String.list_ascii_of_string s) = false ->
  forallb sp (String.list_ascii_of_string (lstrip_with sp s)) = false.
Proof.
  induction s as [|c s IH]; simpl; [discriminate|].
  destruct (sp c) eqn:E; simpl; [exact IH|].
  intros _. rewrite E. reflexivity.
Qed.

Lemma is_blank_spaces text :
  is_blank text = forallb isspace_char (String.list_ascii_of_string text).
Proof.
  unfold is_blank, strip, strip_with.
  destruct (forallb isspace_char (String.list_ascii_of_string text)) eqn:E.
  - rewrite (lstrip_spaces _ _ E). simpl. apply orb_true_r.
  - pose proof (rstrip_not_empty _ _ (lstrip_not_spaces _ _ E)) as H.
    assert (H1 : truthy text = true) by (destruct text; [discriminate E|reflexivity]).
    assert (H2 : truthy (rstrip_with isspace_char (lstrip_with isspace_char text)) = true)
      by (destruct (rstrip_with isspace_char (lstrip_with isspace_char text));
          [congruence|reflexivity]).
    rewrite H1, H2. reflexivity.
Qed.

End Classifier.

Section ClassifierTheorems.

(** C2. For every text the classifier called with [return_confidence=True]
    answers a non-empty list whose confidences never increase from one
    entry to the next; and for a text that is empty or made of whitespace
    only the answer is exactly [[("Unknown", 0.0)]], whatever the table of
    patterns (no pattern is consulted). *)
Theorem detect_doc_type_scored_ordered (text : string) :
  detect_doc_type_scored text <> []
  /\ Sorted conf_ge (detect_doc_type_scored text)
  /\ (Forall (fun c => isspace_char c = true) (String.list_ascii_of_string text) ->
      forall table, detect_doc_type_scored_in table text = [("Unknown", 0%float)]).
Proof.
  unfold detect_doc_type_scored, detect_doc_type_scored_in.
  split; [|split].
  - destruct (is_blank text); [discriminate|].
    destruct (matching_types _ _) as [|x l] eqn:E; [discriminate|].
    pose proof (insert_desc_not_nil snd x (sort_desc snd l)) as H.
    change (sort_desc snd (x :: l)) with (insert_desc snd x (sort_desc snd l)).
    destruct (insert_desc snd x (sort_desc snd l)); [congruence|discriminate].
  - destruct (is_blank text); [repeat constructor|].
    pose proof (matching_types_numbers (normalize_ws (lower text))) as Hn.
    destruct (matching_types _ _) as [|x l] eqn:E; [repeat constructor|].
    pose proof (sort_desc_Sorted _ Hn) as Hs.
    pose proof (insert_desc_not_nil snd x (sort_desc snd l)) as H.
    change (sort_desc snd (x :: l)) with (insert_desc snd x (sort_desc snd l)) in *.
    destruct (insert_desc snd x (sort_desc snd l)); [congruence|exact Hs].
  - intros Hsp table. rewrite is_blank_spaces.
    rewrite List.Forall_forall in Hsp.
    rewrite (proj2 (forallb_forall _ _) Hsp). reflexivity.
Qed.

(** A whitespace-only text, with the answer it gets. *)
Lemma detect_doc_type_scored_ordered_witness :
  Forall (fun c => isspace_char c = true)
         (String.list_ascii_of_string (String " " (String nl EmptyString)))
  /\ detect_doc_type_scored (String " " (String nl EmptyString)) = [("Unknown", 0%float)].
Proof.
  assert (H : Forall (fun c => isspace_char c = true)
                (String.list_ascii_of_string (String " " (String nl EmptyString))))
    by (repeat constructor).
  split; [exact H|].
  exact (proj2 (proj2 (detect_doc_type_scored_ordered _)) H DOCUMENT_PATTERNS).
Defined.

End ClassifierTheorems.

(** ** End-to-end scenarios A and B on the code *)

Section Scenarios.

(** C3 on the code. The text holds the three phrases of scenario A; the
    confidence computed for Articles of Association is 0.6/1.85, below the
    threshold 0.6, and the classifier answers the fallback type with
    confidence 0.3.  The rule engine reports no missing directors. *)
Theorem scenario_a_not_classified :
  contains "ARTICLES OF ASSOCIATION" scenario_a_text = true
  /\ contains "share capital" scenario_a_text = true
  /\ contains "director" scenario_a_text = true
  /\ In ("Articles of Association", articles_patterns) DOCUMENT_PATTERNS
  /\ _calculate_confidence (normalize_ws (lower scenario_a_text)) articles_patterns
     = 0.32432432432432429%float
  /\ py_ge 0.32432432432432429%float (confidence_threshold articles_patterns) = false
  /\ detect_doc_type_scored scenario_a_text = [("Short Form/Notice", 0.3%float)]
  /\ existsb is_missing_directors (run_redflag_checks scenario_a_text None) = false.
Proof.
  repeat split; try (vm_compute; reflexivity).
  left. reflexivity.
Qed.

(** The text of the repository's test [test_confidence_scoring], which
    expects a confidence above 0.5. *)
Lemma test_confidence_scoring_text :
  detect_doc_type_scored
    "ARTICLES OF ASSOCIATION with share capital and directors provisions"
  = [("Short Form/Notice", 0.3%float)].
Proof. vm_compute. reflexivity. Qed.

(** The text of the repository's test [test_articles_of_association_detection],
    which expects "Articles of Association" among the detected types. *)
Lemma test_articles_detection_text :
  TypeDetector.detect_doc_type test_articles_text = ["Short Form/Notice"].
Proof. vm_compute. reflexivity. Qed.

(** C4 on the code. On the text of scenario B the pattern for the federal
    courts does not match (the word boundary after "court" fails before
    the plural "s"): the engine reports a missing signature block and a
    missing ADGM reference, and no issue that names the UAE Federal
    Courts. *)
Theorem scenario_b_no_jurisdiction_issue :
  map (fun i => (issue i, severity i)) (run_redflag_checks scenario_b_text None)
  = [("Missing signature block or execution clause", High);
     ("Document does not reference ADGM jurisdiction", Medium)]
  /\ existsb is_federal_courts_issue (run_redflag_checks scenario_b_text None) = false
  /\ _check_jurisdiction scenario_b_text (lower scenario_b_text) = [].
Proof. repeat split; vm_compute; reflexivity. Qed.

(** The same sentence with the singular "Court" is flagged. *)
Lemma singular_court_is_flagged :
  map (fun i => (issue i, severity i))
    (_check_jurisdiction "This agreement shall be governed by UAE Federal Court."
       (lower "This agreement shall be governed by UAE Federal Court."))
  = [("References UAE Federal Courts instead of ADGM Courts", High)].
Proof. vm_compute. reflexivity. Qed.

End Scenarios.

(** ** RedflagRules: no missing-directors issue when "director" occurs *)

Section Directors.

Lemma startswith_lower s p :
  startswith s p = true -> startswith (lower s) (lower p) = true.
Proof.
  revert s. induction p as [|a p IH]; intros [|b s]; simpl; try congruence.
  intros H. apply andb_true_iff in H as [Hab Hs].
  apply Ascii.eqb_eq in Hab as ->. rewrite Ascii.eqb_refl. simpl. auto.
Qed.

Lemma contains_lower needle hay :
  contains needle hay = true -> contains (lower needle) (lower hay) = true.
Proof.
  induction hay as [|c hay IH]; simpl; intros H.
  - rewrite orb_false_r in *. apply (startswith_lower EmptyString needle H).
  - apply orb_true_iff in H as [H|H].
    + apply (startswith_lower (String c hay) needle) in H. simpl in H.
      rewrite H. reflexivity.
    + rewrite (IH H). apply orb_true_r.
Qed.

Lemma run_redflag_checks_sequence (text : string) (doc_type : option string) :
  run_redflag_checks text doc_type
  = _check_jurisdiction text (lower text)
    ++ _check_signatures text (lower text)
    ++ type_specific_checks text doc_type
    ++ _check_adgm_compliance text (lower text)
    ++ _check_language_and_formatting text (lower text).
Proof.
  unfold run_redflag_checks, type_specific_checks, extend.
  destruct (doc_type_given doc_type); simpl; rewrite <- ?app_assoc; reflexivity.
Qed.

(** Every outcome of the conditions of a check, one after the other. *)
Ltac each_outcome :=
  unfold append_if; cbn [fold_left];
  repeat match goal with
         | |- context [if ?b then _ else _] => destruct b
         | |- context [match find ?f ?l with _ => _ end] => destruct (find f l) as [[? ?]|]
         end;
  reflexivity.

Lemma jurisdiction_not_directors text tl :
  existsb is_missing_directors (_check_jurisdiction text tl) = false.
Proof. unfold _check_jurisdiction. each_outcome. Qed.

Lemma signatures_not_directors text tl :
  existsb is_missing_directors (_check_signatures text tl) = false.
Proof. unfold _check_signatures. each_outcome. Qed.

Lemma articles_not_directors text tl :
  contains "director" tl = true ->
  existsb is_missing_directors (_check_articles_of_association text tl) = false.
Proof.
  intros H. unfold _check_articles_of_association. rewrite H. cbn [negb]. each_outcome.
Qed.

Lemma memorandum_not_directors text tl :
  existsb is_missing_directors (_check_memorandum_of_association text tl) = false.
Proof. unfold _check_memorandum_of_association. each_outcome. Qed.

Lemma ubo_not_directors text tl :
  existsb is_missing_directors (_check_ubo_declaration text tl) = false.
Proof. unfold _check_ubo_declaration. each_outcome. Qed.

Lemma incorporation_not_directors text tl :
  existsb is_missing_directors (_check_incorporation_application text tl) = false.
Proof. unfold _check_incorporation_application. each_outcome. Qed.

Lemma adgm_not_directors text tl :
  existsb is_missing_directors (_check_adgm_compliance text tl) = false.
Proof. unfold _check_adgm_compliance. each_outcome. Qed.

Lemma language_not_directors text tl :
  existsb is_missing_directors (_check_language_and_formatting text tl) = false.
Proof. unfold _check_language_and_formatting. each_outcome. Qed.

(** The half of scenario A that holds of the code: a text in which
    "director" occurs gets no High-severity issue about missing directors
    provisions, with or without a document type. *)
Lemma director_text_has_no_missing_directors_issue text doc_type :
  contains "director" text = true ->
  existsb is_missing_directors (run_redflag_checks text doc_type) = false.
Proof.
  intros H. apply contains_lower in H. change (lower "director") with "director" in H.
  rewrite run_redflag_checks_sequence, !existsb_app.
  rewrite jurisdiction_not_directors, signatures_not_directors,
    adgm_not_directors, language_not_directors. simpl.
  rewrite orb_false_r. unfold type_specific_checks.
  destruct (doc_type_given doc_type) as [d|].
  - unfold _check_document_specific_issues.
    repeat match goal with |- context [if ?b then _ else _] => destruct b end;
      auto using articles_not_directors, memorandum_not_directors,
        ubo_not_directors, incorporation_not_directors.
  - rewrite !existsb_app, (articles_not_directors _ _ H), memorandum_not_directors,
      ubo_not_directors, incorporation_not_directors. reflexivity.
Qed.

End Directors.

(** ** RedflagRules: the checks run in a fixed sequence *)

Section RuleEngine.


End RuleEngine.

(** ** Rag: chunking *)

Section Chunking.

Local Abbreviation chars := String.list_ascii_of_string.
Local Abbreviation of_chars := String.string_of_list_ascii.

Lemma chars_of_chars l : chars (of_chars l) = l.
Proof. apply String.list_ascii_of_string_of_list_ascii. Qed.

Lemma of_chars_chars s : of_chars (chars s) = s.
Proof. apply String.string_of_list_ascii_of_string. Qed.

Lemma length_chars s : length (chars s) = String.length s.
Proof. induction s as [|c s IH]; simpl; [reflexivity|]. rewrite IH. reflexivity. Qed.

Lemma chars_append s t : chars (s +:+ t) = chars s ++ chars t.
Proof. induction s as [|c s IH]; simpl; [reflexivity|]. rewrite IH. reflexivity. Qed.

Lemma chars_concat l :
  chars (String.concat EmptyString l) = List.concat (map chars l).
Proof.
  induction l as [|s l IH]; [reflexivity|].
  destruct l as [|t l].
  - simpl. rewrite app_nil_r. reflexivity.
  - change (String.concat EmptyString (s :: t :: l))
      with (s +:+ EmptyString +:+ String.concat EmptyString (t :: l)).
    rewrite chars_append.
    change (EmptyString +:+ String.concat EmptyString (t :: l))
      with (String.concat EmptyString (t :: l)).
    rewrite IH. reflexivity.
Qed.

Lemma chars_slice text (a b : nat) :
  chars (slice text (Z.of_nat a) (Z.of_nat b)) = firstn (b - a) (skipn a (chars text)).
Proof.
  unfold slice, substr, clamp_index. rewrite chars_of_chars.
  pose proof (length_chars text) as HL.
  set (L := String.length text) in *.
  destruct (Z.ltb_spec (Z.of_nat a) 0); [lia|].
  destruct (Z.ltb_spec (Z.of_nat b) 0); [lia|].
  replace (Z.to_nat (Z.max 0 (Z.min (Z.of_nat L) (Z.of_nat a)))) with (Nat.min L a) by lia.
  replace (Z.to_nat (Z.max 0 (Z.min (Z.of_nat L) (Z.of_nat b)))) with (Nat.min L b) by lia.
  destruct (Nat.le_gt_cases L a) as [Ha|Ha].
  - rewrite !(skipn_all2 (chars text)) by lia. rewrite !firstn_nil. reflexivity.
  - replace (Nat.min L a) with a by lia.
    destruct (Nat.le_gt_cases b L) as [Hb|Hb].
    + replace (Nat.min L b) with b by lia. reflexivity.
    + replace (Nat.min L b) with L by lia.
      rewrite !firstn_all2; [reflexivity| |]; rewrite length_skipn; lia.
Qed.

Lemma chars_drop_prefix n c : chars (drop_prefix n c) = skipn n (chars c).
Proof.
  unfold drop_prefix, substr. rewrite chars_of_chars.
  apply firstn_all2. rewrite length_skipn, length_chars. lia.
Qed.

Lemma chars_reassemble e c cs :
  chars (reassemble e (c :: cs))
  = chars c ++ List.concat (map (fun x => skipn e (chars x)) cs).
Proof.
  unfold reassemble. rewrite chars_append, chars_concat, map_map.
  f_equal. f_equal. apply map_ext. intros x. apply chars_drop_prefix.
Qed.

(** A window without its first [e] characters, then what follows the
    window: the text from [e] on. *)
Lemma window_then_rest (m : list ascii) (s e : nat) :
  (e <= s)%nat -> skipn e (firstn s m) ++ skipn s m = skipn e m.
Proof.
  intros He. rewrite <- (firstn_skipn s m) at 3.
  rewrite skipn_app. f_equal.
  destruct (Nat.le_gt_cases s (length m)) as [Hs|Hs].
  - rewrite length_firstn. replace (e - Nat.min s (length m))%nat with 0%nat by lia.
    reflexivity.
  - rewrite !(skipn_all2 m) by lia. symmetry. apply skipn_nil.
Qed.

Section Loop.
Variables (text : string) (chunk_size overlap : Z).
Hypothesis size_pos : (1 <= chunk_size)%Z.
Hypothesis overlap_nonneg : (0 <= overlap)%Z.

Let L := String.length text.
Let s := Z.to_nat chunk_size.
Let step := chunk_step chunk_size overlap.
Let e := Z.to_nat (Z.min overlap (chunk_size - 1)).

Lemma step_bounds : (1 <= step <= s)%nat /\ (step + e = s)%nat.
Proof. unfold step, chunk_step, s, e. lia. Qed.

Lemma chunk_loop_unfold fuel (a : nat) acc :
  (a < L)%nat ->
  chunk_loop (S fuel) text chunk_size overlap (Z.of_nat a) acc
  = chunk_loop fuel text chunk_size overlap (Z.of_nat (a + step))
      (acc ++ [slice text (Z.of_nat a) (Z.of_nat (a + s))]).
Proof.
  intros Ha. cbn [chunk_loop]. fold L.
  destruct (Z.ltb_spec (Z.of_nat a) (Z.of_nat L)); [|lia].
  f_equal.
  - unfold step, chunk_step. lia.
  - do 3 f_equal. unfold s. lia.
Qed.

Lemma chunk_loop_done fuel (a : nat) acc :
  (L <= a)%nat -> chunk_loop fuel text chunk_size overlap (Z.of_nat a) acc = Some acc.
Proof.
  intros Ha. destruct fuel; cbn [chunk_loop]; fold L;
    destruct (Z.ltb_spec (Z.of_nat a) (Z.of_nat L)); try lia; reflexivity.
Qed.

(** The loop started at the chunk of index [k0]: it ends within the fuel,
    appends chunks whose tails tile the rest of the text, and every
    position from [k0 * step] on falls in one of them. *)
Lemma chunk_loop_spec fuel :
  forall (k0 : nat) acc,
    (L - k0 * step <= fuel)%nat ->
    exists cs,
      chunk_loop fuel text chunk_size overlap (Z.of_nat (k0 * step)) acc = Some (acc ++ cs)
      /\ List.concat (map (fun x => skipn e (chars x)) cs)
         = skipn (k0 * step + e) (chars text)
      /\ forall i, (k0 * step <= i < L)%nat ->
           exists j c,
             cs !! j = Some c
             /\ c = slice text (Z.of_nat ((k0 + j) * step))
                          (Z.of_nat ((k0 + j) * step) + chunk_size)
             /\ ((k0 + j) * step <= i < (k0 + j) * step + String.length c)%nat.
Proof.
  pose proof step_bounds as [[Hs1 Hs2] Hse].
  induction fuel as [|fuel IH]; intros k0 acc Hfuel.
  - exists []. rewrite chunk_loop_done by lia. rewrite app_nil_r.
    split; [reflexivity|]. split.
    + simpl. rewrite skipn_all2; [reflexivity|rewrite length_chars; fold L; lia].
    + intros i Hi. lia.
  - destruct (Nat.le_gt_cases L (k0 * step)) as [Hdone|Hgo].
    + exists []. rewrite chunk_loop_done by lia. rewrite app_nil_r.
      split; [reflexivity|]. split.
      * simpl. rewrite skipn_all2; [reflexivity|rewrite length_chars; fold L; lia].
      * intros i Hi. lia.
    + rewrite chunk_loop_unfold by exact Hgo.
      set (c0 := slice text (Z.of_nat (k0 * step)) (Z.of_nat (k0 * step + s))).
      replace (k0 * step + step)%nat with (S k0 * step)%nat by lia.
      destruct (IH (S k0) (acc ++ [c0])) as (cs & Hrun & Htile & Hcov); [lia|].
      assert (Hc0 : chars c0 = firstn s (skipn (k0 * step) (chars text))).
      { unfold c0. rewrite chars_slice. f_equal. lia. }
      exists (c0 :: cs). split; [|split].
      * rewrite Hrun, <- app_assoc. reflexivity.
      * cbn [map List.concat]. rewrite Htile, Hc0.
        replace (S k0 * step + e)%nat with (s + k0 * step)%nat by lia.
        rewrite <- (skipn_skipn s (k0 * step)), window_then_rest by lia.
        rewrite skipn_skipn. f_equal. lia.
      * intros i Hi.
        assert (Hlen : String.length c0 = Nat.min s (L - k0 * step)).
        { rewrite <- length_chars, Hc0, length_firstn, length_skipn, length_chars.
          reflexivity. }
        destruct (Nat.lt_ge_cases i (k0 * step + String.length c0)) as [Hin|Hout].
        -- exists 0%nat, c0. rewrite Nat.add_0_r. split; [reflexivity|].
           split; [|lia]. unfold c0. f_equal. unfold s. lia.
        -- destruct (Hcov i) as (j & c & Hj & Hc & Hij); [lia|].
           exists (S j), c. replace (k0 + S j)%nat with (S k0 + j)%nat by lia.
           split; [exact Hj|]. split; assumption.
Qed.

End Loop.
End Chunking.

Section ChunkingTheorems.

Local Abbreviation chars := String.list_ascii_of_string.

Lemma chars_slice_window text (a : nat) (n : Z) :
  (0 <= n)%Z ->
  chars (slice text (Z.of_nat a) (Z.of_nat a + n))
  = firstn (Z.to_nat n) (skipn a (chars text)).
Proof.
  intros Hn. replace (Z.of_nat a + n)%Z with (Z.of_nat (a + Z.to_nat n)) by lia.
  rewrite chars_slice. f_equal. lia.
Qed.

Lemma slice_whole text (n : Z) :
  (Z.of_nat (String.length text) <= n)%Z -> slice text 0 (0 + n) = text.
Proof.
  intros Hn. rewrite <- (of_chars_chars (slice text 0 (0 + n))).
  rewrite <- (of_chars_chars text) at 2. f_equal.
  change (slice text 0 (0 + n)) with (slice text (Z.of_nat 0) (Z.of_nat 0 + n)).
  rewrite (chars_slice_window text 0 n) by lia. cbn [skipn].
  apply firstn_all2. rewrite length_chars. lia.
Qed.

Lemma reassemble_single e c : reassemble e [c] = c.
Proof.
  rewrite <- (of_chars_chars (reassemble e [c])), chars_reassemble.
  cbn [map List.concat]. rewrite app_nil_r. apply of_chars_chars.
Qed.

(** C6, as the code has it. For a chunk size of at least one and an
    overlap that is not negative, [_chunk_text] returns a list of chunks;
    every character of the cleaned text lies in a chunk; the first chunk
    followed by the later chunks, each without its first [min(overlap,
    chunk_size - 1)] characters, is the cleaned text; and a cleaned text
    of at most [chunk_size] characters is the only chunk. *)
Theorem chunk_text_covers_and_reassembles (text : string) (chunk_size overlap : Z) :
  (1 <= chunk_size)%Z -> (0 <= overlap)%Z ->
  exists chunks,
    _chunk_text text chunk_size overlap = Some chunks
    /\ (forall i, (i < String.length (_clean_text text))%nat ->
          covered (_clean_text text) chunk_size overlap chunks i)
    /\ reassemble (Z.to_nat (Z.min overlap (chunk_size - 1))) chunks = _clean_text text
    /\ ((Z.of_nat (String.length (_clean_text text)) <= chunk_size)%Z ->
        chunks = [_clean_text text]).
Proof.
  intros Hs Ho. unfold _chunk_text.
  set (cleaned := _clean_text text).
  destruct (Z.leb_spec (Z.of_nat (String.length cleaned)) chunk_size) as [Hle|Hgt].
  - exists [cleaned]. split; [reflexivity|]. split; [|split].
    + intros i Hi. exists 0%nat, cleaned. split; [reflexivity|].
      split; [|simpl; lia].
      cbn [Nat.mul Z.of_nat]. symmetry. apply slice_whole. exact Hle.
    + apply reassemble_single.
    + reflexivity.
  - destruct (chunk_loop_spec cleaned chunk_size overlap Hs Ho
                (String.length cleaned) 0 [])
      as (cs & Hrun & Htile & Hcov); [simpl; lia|].
    cbn [Nat.mul Z.of_nat app Nat.add] in Hrun, Htile, Hcov.
    exists cs. split; [exact Hrun|]. split; [|split].
    + intros i Hi. destruct (Hcov i) as (j & c & Hj & Hc & Hij); [lia|].
      exists j, c. auto.
    + pose proof (step_bounds cleaned chunk_size overlap Hs Ho) as [[Hs1 Hs2] Hse].
      destruct (Hcov 0%nat) as (j & c & Hj & Hc & Hij); [lia|].
      assert (j = 0%nat) as -> by nia.
      destruct cs as [|c0 cs']; [discriminate Hj|].
      injection Hj as ->.
      assert (Hc0 : chars c = firstn (Z.to_nat chunk_size) (chars cleaned)).
      { rewrite Hc, chars_slice_window by lia. reflexivity. }
      cbn [map List.concat] in Htile. rewrite Hc0 in Htile.
      rewrite <- (window_then_rest (chars cleaned) (Z.to_nat chunk_size)) in Htile by lia.
      apply app_inv_head in Htile.
      rewrite <- (of_chars_chars (reassemble _ _)), chars_reassemble.
      rewrite Htile, Hc0, firstn_skipn. apply of_chars_chars.
    + intros Hle. lia.
Qed.

(** Eight characters in windows of five that overlap by two. *)
Lemma chunk_text_covers_and_reassembles_witness :
  exists chunks,
    _chunk_text "abcdefgh" 5 2 = Some chunks
    /\ (forall i, (i < String.length (_clean_text "abcdefgh"))%nat ->
          covered (_clean_text "abcdefgh") 5 2 chunks i)
    /\ reassemble (Z.to_nat (Z.min 2 (5 - 1))) chunks = _clean_text "abcdefgh"
    /\ ((Z.of_nat (String.length (_clean_text "abcdefgh")) <= 5)%Z ->
        chunks = [_clean_text "abcdefgh"]).
Proof.
  apply (chunk_text_covers_and_reassembles "abcdefgh" 5 2); lia.
Defined.

(** The chunks of that text. *)
Lemma chunk_text_example :
  _chunk_text "abcdefgh" 5 2 = Some ["abcde"; "defgh"; "gh"].
Proof. vm_compute. reflexivity. Qed.

(** C6 as stated fails outside these bounds. With an overlap as large as
    the chunk size the loop advances by one character, and removing the
    configured overlap from the later chunks loses text; with a negative
    overlap the windows leave gaps (no chunk holds the third character);
    with a chunk size of zero the chunks are empty. *)
Lemma chunk_text_overlap_as_large_as_size :
  (_chunk_text "abc" 2 2 = Some ["ab"; "bc"; "c"]
   /\ reassemble 2 ["ab"; "bc"; "c"] = "ab"
   /\ reassemble 2 ["ab"; "bc"; "c"] <> _clean_text "abc")
  /\ (_chunk_text "abcd" 2 (-1) = Some ["ab"; "d"]
      /\ contains "c" (_clean_text "abcd") = true
      /\ existsb (contains "c") ["ab"; "d"] = false)
  /\ _chunk_text "ab" 0 0 = Some [EmptyString; EmptyString].
Proof.
  repeat split; try (vm_compute; reflexivity).
  vm_compute. discriminate.
Qed.

End ChunkingTheorems.

(** ** DocxProcessor: process inference *)

Section ProcessInference.

Lemma overlap_required_present (types required : list string) :
  size ((list_to_set types : gset string) ∩ list_to_set required)
  = required_present types required.
Proof.
  unfold required_present.
  rewrite <- (size_list_to_set (C := gset string)
                (filter (fun r => r ∈ types) (remove_dups required))).
  - f_equal. apply set_eq. intros x.
    rewrite elem_of_intersection, !elem_of_list_to_set, list_elem_of_filter,
      elem_of_remove_dups. tauto.
  - apply NoDup_filter, NoDup_remove_dups.
Qed.

Lemma remove_dups_length_le (l : list string) : (length (remove_dups l) <= length l)%nat.
Proof.
  induction l as [|x l IH]; simpl; [lia|].
  destruct (decide_rel elem_of x l); simpl; lia.
Qed.

Lemma required_present_le types required :
  (required_present types required <= length required)%nat.
Proof.
  unfold required_present.
  etransitivity; [apply length_filter|]. apply remove_dups_length_le.
Qed.

(** On the three checklists the float comparison of the code agrees with
    the exact threshold. *)
Lemma enough_overlap_exact name required (k : nat) :
  In (name, required) PROCESS_CHECKLISTS -> (k <= length required)%nat ->
  enough_overlap k required = (2 <=? k)%nat && (2 * length required <=? 5 * k)%nat.
Proof.
  intros Hin Hk. simpl in Hin.
  destruct Hin as [E|[E|[E|[]]]]; injection E as <- <-; simpl in Hk;
    do 6 (destruct k as [|k]; [vm_compute; reflexivity|]); lia.
Qed.

Lemma infer_loop_find types checklists :
  (forall e, In e checklists -> In e PROCESS_CHECKLISTS) ->
  infer_loop (list_to_set types) checklists
  = match find (fun '(_, required) => meets_threshold types required) checklists with
    | Some (process_name, _) => process_name
    | None => "Unknown"
    end.
Proof.
  induction checklists as [|[name required] rest IH]; intros Hsub; [reflexivity|].
  cbn [infer_loop find]. rewrite overlap_required_present.
  rewrite (enough_overlap_exact name required);
    [|apply Hsub; left; reflexivity|apply required_present_le].
  fold (meets_threshold types required).
  destruct (meets_threshold types required); [reflexivity|].
  apply IH. intros e He. apply Hsub. right. exact He.
Qed.

(** C7. Process inference answers the first process, in the order of
    declaration, whose required documents are found among the pooled
    types at least [max(2, 0.4 * required_count)] times, and "Unknown"
    when there is none; without a process no missing document is
    computed; and pooled types that are exactly Articles of Association,
    Memorandum of Association and UBO Declaration give Company
    Incorporation, five required documents, and the missing documents
    Incorporation Application and Register of Members and Directors. *)
Theorem infer_process_first_match (types : list string) :
  infer_process_from_types types = first_process_meeting types
  /\ (infer_process_from_types types = "Unknown" ->
      check_missing (infer_process_from_types types) types = (0%nat, []))
  /\ ((forall x, x ∈ types <-> x ∈ scenario_c_types) ->
      infer_process_from_types types = "Company Incorporation"
      /\ check_missing (infer_process_from_types types) types
         = (5%nat, ["Incorporation Application"; "Register of Members and Directors"])).
Proof.
  split; [|split].
  - unfold infer_process_from_types, first_process_meeting.
    apply infer_loop_find. auto.
  - intros ->. reflexivity.
  - intros Hsame.
    assert (Hset : (list_to_set types : gset string) = list_to_set scenario_c_types).
    { apply set_eq. intros x. rewrite !elem_of_list_to_set. apply Hsame. }
    assert (Hinfer : infer_process_from_types types = "Company Incorporation").
    { unfold infer_process_from_types. rewrite Hset. vm_compute. reflexivity. }
    split; [exact Hinfer|]. rewrite Hinfer.
    unfold check_missing. cbn [checklist_of]. 
    change (checklist_of "Company Incorporation")
      with (Some ["Articles of Association"; "Memorandum of Association";
                  "Incorporation Application"; "UBO Declaration";
                  "Register of Members and Directors"]).
    cbv beta iota. rewrite Hset. vm_compute. reflexivity.
Qed.

(** The pooled types of scenario C, in the order of the test. *)
Lemma infer_process_first_match_witness :
  (forall x, x ∈ scenario_c_types <-> x ∈ scenario_c_types)
  /\ infer_process_from_types scenario_c_types = "Company Incorporation"
  /\ check_missing (infer_process_from_types scenario_c_types) scenario_c_types
     = (5%nat, ["Incorporation Application"; "Register of Members and Directors"]).
Proof.
  assert (H : forall x, x ∈ scenario_c_types <-> x ∈ scenario_c_types)
    by (intros x; reflexivity).
  split; [exact H|].
  exact (proj2 (proj2 (infer_process_first_match scenario_c_types)) H).
Defined.

(** Two documents of the same type do not count twice, and "Unknown" is
    not a process with a checklist. *)
Lemma infer_process_examples :
  infer_process_from_types ["Employment Contract"; "Employment Contract"] = "Unknown"
  /\ infer_process_from_types ["Lease Agreement"; "Business Plan"] = "Commercial Licensing"
  /\ checklist_of "Unknown" = None.
Proof. repeat split; vm_compute; reflexivity. Qed.

End ProcessInference.

(** ** CommentHelper: [int(str(n))] is [n] *)

Section IntOfStr.

Local Abbreviation chars := String.list_ascii_of_string.










End IntOfStr.

(** ** CommentHelper: annotation adds anchors and nothing else *)

Section Annotation.


Lemma text_append_empty_r (s : string) : s +:+ EmptyString = s.
Proof.
  rewrite <- (of_chars_chars (s +:+ EmptyString)), chars_append.
  simpl. rewrite app_nil_r. apply of_chars_chars.
Qed.









End Annotation.

(** ** CommentHelper: comment ids *)

Section CommentIds.



Lemma next_comment_id_after comments_xml :
  _next_comment_id comments_xml = next_id_after (comment_ids comments_xml).
Proof. reflexivity. Qed.







End CommentIds.

(** ** DocxProcessor: failures local to a document are data *)

Section Batch.

Lemma analyze_all_pooled w paths :
  analyze_all w paths = (pooled_types w paths, pooled_issues w paths).
Proof.
  unfold analyze_all, pooled_types, pooled_issues.
  assert (G : forall ts is_,
             fold_left
               (fun '(all_detected_types, all_issues) doc_path =>
                  let '(doc_types, doc_issues) := analyze_single_document w doc_path in
                  (all_detected_types ++ doc_types, all_issues ++ doc_issues))
               paths (ts, is_)
             = (ts ++ flat_map (fun p => fst (analyze_single_document w p)) paths,
                is_ ++ flat_map (fun p => snd (analyze_single_document w p)) paths)).
  { induction paths as [|p paths IH]; intros ts is_; simpl.
    - rewrite !app_nil_r. reflexivity.
    - destruct (analyze_single_document w p) as [t i]. rewrite IH, <- !app_assoc.
      reflexivity. }
  apply (G [] []).
Qed.

Lemma save_document_writable fs path doc fs' :
  save_document fs path doc = Ok fs' -> writable fs' = writable fs.
Proof.
  unfold save_document. destruct (writable fs path); [|discriminate].
  intros H. injection H as <-. reflexivity.
Qed.

Lemma annotate_docx_writable fs input output issues fs' :
  annotate_docx_with_comments fs input output issues = Ok fs' ->
  writable fs' = writable fs.
Proof.
  unfold annotate_docx_with_comments.
  destruct (open_document fs input); [|discriminate].
  destruct (annotate_document _ _); [|discriminate].
  apply save_document_writable.
Qed.

Lemma annotate_all_trace output_dir all_issues paths :
  forall fs acc,
    exists slots fs',
      fold_left
        (fun '(saved_files, fs) doc_path =>
           let doc_name := basename doc_path in
           let output_path := path_join output_dir ("reviewed_" +:+ doc_name) in
           let doc_issues := filter (issue_of_document doc_name) all_issues in
           match annotate_docx_with_comments fs doc_path output_path doc_issues with
           | Ok fs' => (saved_files ++ [Some output_path], fs')
           | Raise e => (saved_files ++ [None], fs)
           end)
        paths (acc, fs)
      = (acc ++ slots, fs')
      /\ annotation_trace output_dir all_issues fs paths slots fs'
      /\ writable fs' = writable fs.
Proof.
  match goal with |- context [fold_left ?f] => set (F := f) end.
  induction paths as [|p paths IH]; intros fs acc; cbn [fold_left].
  - exists [], fs. rewrite app_nil_r. repeat split. constructor.
  - assert (HF : F (acc, fs) p
                 = match annotate_docx_with_comments fs p
                           (path_join output_dir ("reviewed_" +:+ basename p))
                           (filter (issue_of_document (basename p)) all_issues) with
                   | Ok fs' =>
                       (acc ++ [Some (path_join output_dir ("reviewed_" +:+ basename p))], fs')
                   | Raise e => (acc ++ [None], fs)
                   end) by reflexivity.
    rewrite HF. clear HF.
    destruct (annotate_docx_with_comments fs p _ _) as [fs1|e] eqn:E.
    + destruct (IH fs1 (acc ++ [Some (path_join output_dir ("reviewed_" +:+ basename p))]))
        as (slots & fs' & Hrun & Htr & Hw).
      exists (Some (path_join output_dir ("reviewed_" +:+ basename p)) :: slots), fs'.
      rewrite Hrun, <- app_assoc. split; [reflexivity|]. split.
      * eapply trace_saved; eassumption.
      * rewrite Hw. eapply annotate_docx_writable. exact E.
    + destruct (IH fs (acc ++ [None])) as (slots & fs' & Hrun & Htr & Hw).
      exists (None :: slots), fs'.
      rewrite Hrun, <- app_assoc. split; [reflexivity|]. split; [|exact Hw].
      eapply trace_failed; eassumption.
Qed.

Lemma annotate_all_spec fs output_dir all_issues paths :
  exists slots fs',
    annotate_all fs output_dir all_issues paths = (slots, fs')
    /\ annotation_trace output_dir all_issues fs paths slots fs'
    /\ writable fs' = writable fs.
Proof. apply (annotate_all_trace output_dir all_issues paths fs []). Qed.

Lemma annotation_trace_length output_dir all_issues fs paths slots fs' :
  annotation_trace output_dir all_issues fs paths slots fs' ->
  length slots = length paths.
Proof. induction 1; simpl; congruence. Qed.

(** A document that cannot be opened: one issue, of High severity, that
    carries the name of the document. *)
Lemma analyze_unreadable w doc_path :
  docs (files w) !! doc_path = None ->
  exists i,
    analyze_single_document w doc_path = (["Unknown"], [i])
    /\ severity i = High
    /\ document i = Some (basename doc_path)
    /\ startswith (issue i) "Error reading document: " = true.
Proof.
  intros H. unfold analyze_single_document, open_document. rewrite H.
  eexists. split; [reflexivity|]. repeat split.
Qed.

(** C9. With an output directory that can be created and a report file
    that can be written, batch processing of [N] paths returns a report
    and writes it; the report counts [N] documents and holds the issues
    of all the documents; a document that cannot be read contributes one
    issue of High severity under its name; every path has an output slot,
    [None] exactly when its annotation raised, and the paths returned are
    the slots that are not [None]. *)
Theorem batch_always_reports
    (w : World) (paths : list string) (output_dir : string)
    (rag_retriever : option RAGRetriever) :
  can_mkdir w output_dir = true ->
  writable (files w) (path_join output_dir "consolidated_report.json") = true ->
  exists report slots w',
    process_multiple_docx w paths output_dir rag_retriever
    = (Ok (report, omap id slots), w')
    /\ documents_uploaded report = length paths
    /\ reports w' !! path_join output_dir "consolidated_report.json" = Some report
    /\ issues_found report = add_citations rag_retriever w (pooled_issues w paths)
    /\ (forall doc_path, In doc_path paths -> docs (files w) !! doc_path = None ->
          exists i, snd (analyze_single_document w doc_path) = [i]
                    /\ severity i = High
                    /\ document i = Some (basename doc_path))
    /\ length slots = length paths
    /\ annotation_trace output_dir (issues_found report) (files w) paths slots (files w').
Proof.
  intros Hdir Hrep. unfold process_multiple_docx. rewrite Hdir. cbn [negb].
  rewrite analyze_all_pooled.
  destruct (check_missing _ _) as [required_count missing_docs].
  cbv zeta.
  destruct (annotate_all_spec (files w) output_dir
              (add_citations rag_retriever w (pooled_issues w paths)) paths)
    as (slots & fs' & Hrun & Htr & Hw).
  rewrite Hrun.
  unfold save_report_json, with_files. cbn [files].
  rewrite Hw, Hrep.
  eexists _, slots, _. split; [reflexivity|].
  cbn [build_report documents_uploaded reports issues_found files].
  rewrite lookup_insert_eq. repeat split; try reflexivity.
  - intros doc_path _ Hnone.
    destruct (analyze_unreadable w doc_path Hnone) as (i & Hi & Hs & Hd & _).
    exists i. rewrite Hi. auto.
  - eapply annotation_trace_length. exact Htr.
  - exact Htr.
Qed.

End Batch.

(** ** DocxProcessor: the retriever gives a citation or [None] *)

Section Retriever.

(** C10. A retriever built when the index or the metadata file is absent
    answers [None] to every query, whatever the world has become since;
    a retriever whose retrieval call raises answers [None]; otherwise it
    answers the citation retrieved.  The answer is a value in every case,
    and the pipeline leaves the issues without citation when the
    retriever is not available. *)
Theorem retriever_none_on_failure
    (w0 w : World) (index_path meta_path query : string) :
  (path_exists w0 index_path && path_exists w0 meta_path = false ->
   RAGRetriever_get_citation_for_issue (RAGRetriever_init w0 index_path meta_path) w query
   = None
   /\ forall issues,
        add_citations (Some (RAGRetriever_init w0 index_path meta_path)) w issues = issues)
  /\ (forall e,
        Rag.get_citation_for_issue (services w) query index_path meta_path 3 = Raise e ->
        RAGRetriever_get_citation_for_issue (RAGRetriever_init w0 index_path meta_path) w query
        = None)
  /\ (forall c,
        path_exists w0 index_path && path_exists w0 meta_path = true ->
        Rag.get_citation_for_issue (services w) query index_path meta_path 3 = Ok c ->
        RAGRetriever_get_citation_for_issue (RAGRetriever_init w0 index_path meta_path) w query
        = Some c).
Proof.
  unfold RAGRetriever_get_citation_for_issue, RAGRetriever_init, add_citations.
  cbn [available DocxProcessor.index_path DocxProcessor.meta_path].
  split; [|split].
  - intros ->. split; [reflexivity|]. intros issues. reflexivity.
  - intros e ->. destruct (_ && _); reflexivity.
  - intros c -> ->. reflexivity.
Qed.

(** Without the API key the retrieval call raises. *)
Lemma retrieval_raises_without_key (sv : Rag.Services Index)
    (query index_path meta_path : string) :
  Rag.api_key_set sv = false ->
  exists e, Rag.get_citation_for_issue sv query index_path meta_path 3 = Raise e.
Proof.
  intros H. unfold Rag.get_citation_for_issue, Rag._ensure_openai_key. rewrite H.
  eexists. reflexivity.
Qed.

End Retriever.

(** ** The sample world *)

Section SampleFacts.

(** The sample document annotated twice: the ids 8 and 9, then 10, after
    the id 7 it had; its paragraph texts unchanged. *)
Lemma sample_annotation :
  (document_comment_ids <$> (docs annotated_twice !! "out2.docx")) = Some [7; 8; 9; 10]%Z
  /\ (paragraph_texts <$> (docs annotated_twice !! "out2.docx"))
     = Some (paragraph_texts sample_doc)
  /\ (paragraphs <$> (docs annotated_once !! "out1.docx"))
     = Some [ [WCommentRangeStart "8"; WPOther "w:pPr";
               WR [WT "Governing law and jurisdiction"; WTab; WT "UAE"];
               WCommentRangeEnd "8"; WR [WCommentReference "8"]];
              [WCommentRangeStart "9"; WR [WT "Signed by the parties"];
               WHyperlink [[WT " (see annex)"]];
               WCommentRangeEnd "9"; WR [WCommentReference "9"]] ].
Proof. repeat split; vm_compute; reflexivity. Qed.


(** A document without paragraphs cannot be annotated with an issue. *)
Lemma annotate_without_paragraphs :
  annotate_document {| paragraphs := []; comments_part := None |} [signature_issue]
  = Raise (IndexError "list index out of range").
Proof. reflexivity. Qed.

Lemma batch_always_reports_witness :
  exists report slots w',
    process_multiple_docx sample_world sample_paths "out" None
    = (Ok (report, omap id slots), w')
    /\ documents_uploaded report = length sample_paths
    /\ reports w' !! path_join "out" "consolidated_report.json" = Some report
    /\ issues_found report = add_citations None sample_world
                               (pooled_issues sample_world sample_paths)
    /\ (forall doc_path, In doc_path sample_paths ->
          docs (files sample_world) !! doc_path = None ->
          exists i, snd (analyze_single_document sample_world doc_path) = [i]
                    /\ severity i = High
                    /\ document i = Some (basename doc_path))
    /\ length slots = length sample_paths
    /\ annotation_trace "out" (issues_found report) (files sample_world)
         sample_paths slots (files w').
Proof.
  apply (batch_always_reports sample_world sample_paths "out" None); reflexivity.
Defined.

(** The sample batch: one document annotated, one that cannot be read,
    one whose output cannot be written; three documents in the report. *)
Lemma sample_batch :
  match fst (process_multiple_docx sample_world sample_paths "out" None) with
  | Ok (report, saved) =>
      documents_uploaded report = 3%nat
      /\ saved = ["out/reviewed_in.docx"]
      /\ map (fun i => (issue i, severity i))
           (filter (issue_of_document "missing.docx") (issues_found report))
         = [("Error reading document: Package not found at 'missing.docx'", High)]
  | Raise _ => False
  end.
Proof. vm_compute. repeat split. Qed.

Lemma retriever_none_on_failure_witness :
  RAGRetriever_get_citation_for_issue
    (RAGRetriever_init sample_world "resources/adgm_index.faiss" "resources/adgm_meta.json")
    indexed_world "Missing signature block or execution clause" = None
  /\ RAGRetriever_get_citation_for_issue
       (RAGRetriever_init indexed_world "resources/adgm_index.faiss" "resources/adgm_meta.json")
       indexed_world "Missing signature block or execution clause" = None.
Proof.
  split.
  - exact (proj1 (proj1 (retriever_none_on_failure sample_world indexed_world
                           "resources/adgm_index.faiss" "resources/adgm_meta.json"
                           "Missing signature block or execution clause") eq_refl)).
  - exact (proj1 (proj2 (retriever_none_on_failure indexed_world indexed_world
                           "resources/adgm_index.faiss" "resources/adgm_meta.json"
                           "Missing signature block or execution clause")) _ eq_refl).
Defined.

End SampleFacts.

(** ** Strings: occurrences and letter case *)

Section Occurrences.

Lemma append_nil_l (b : string) : EmptyString +:+ b = b.
Proof. reflexivity. Qed.

Lemma append_cons (c : ascii) (a b : string) : String c a +:+ b = String c (a +:+ b).
Proof. reflexivity. Qed.

Lemma append_assoc (a b c : string) : (a +:+ b) +:+ c = a +:+ (b +:+ c).
Proof.
  induction a as [|x a IH]; [reflexivity|].
  rewrite !append_cons, IH. reflexivity.
Qed.

Lemma contains_unfold (needle : string) (c : ascii) (hay : string) :
  contains needle (String c hay) = startswith (String c hay) needle || contains needle hay.
Proof. reflexivity. Qed.

Lemma startswith_app (p r : string) : startswith (p +:+ r) p = true.
Proof.
  induction p as [|a p IH]; [destruct r; reflexivity|].
  rewrite append_cons. simpl. rewrite Ascii.eqb_refl. exact IH.
Qed.

Lemma startswith_split (s p : string) :
  startswith s p = true -> exists r, s = p +:+ r.
Proof.
  revert s. induction p as [|a p IH]; intros s H.
  - exists s. reflexivity.
  - destruct s as [|b s]; [discriminate|]. simpl in H.
    apply andb_true_iff in H as [Hab Hp]. apply Ascii.eqb_eq in Hab. subst b.
    destruct (IH s Hp) as [r ->]. exists r. reflexivity.
Qed.

Lemma contains_prefix (needle hay : string) :
  startswith hay needle = true -> contains needle hay = true.
Proof.
  intros H. destruct hay as [|c hay].
  - change (startswith EmptyString needle || false = true). rewrite H. reflexivity.
  - rewrite contains_unfold, H. reflexivity.
Qed.

Lemma contains_split (needle hay : string) :
  contains needle hay = true -> exists a b, hay = a +:+ needle +:+ b.
Proof.
  induction hay as [|c hay IH]; intros H.
  - change (startswith EmptyString needle || false = true) in H.
    rewrite orb_false_r in H. apply startswith_split in H as [r Hr].
    exists EmptyString, r. exact Hr.
  - rewrite contains_unfold in H. apply orb_true_iff in H as [H|H].
    + apply startswith_split in H as [r Hr]. exists EmptyString, r. exact Hr.
    + destruct (IH H) as (a & b & ->). exists (String c a), b. reflexivity.
Qed.

Lemma contains_app (a needle b : string) : contains needle (a +:+ needle +:+ b) = true.
Proof.
  induction a as [|c a IH].
  - rewrite append_nil_l. apply contains_prefix, startswith_app.
  - rewrite append_cons, contains_unfold, IH. apply orb_true_r.
Qed.

Lemma contains_trans (a b c : string) :
  contains a b = true -> contains b c = true -> contains a c = true.
Proof.
  intros Hab Hbc.
  apply contains_split in Hab as (p & q & ->).
  apply contains_split in Hbc as (r & s & ->).
  replace (r +:+ (p +:+ a +:+ q) +:+ s) with ((r +:+ p) +:+ a +:+ (q +:+ s)).
  - apply contains_app.
  - rewrite !append_assoc. reflexivity.
Qed.

Lemma contains_refl (s : string) : contains s s = true.
Proof.
  pose proof (contains_app EmptyString s EmptyString) as H.
  rewrite append_nil_l, text_append_empty_r in H. exact H.
Qed.

Lemma contains_empty (s : string) : contains EmptyString s = true.
Proof. destruct s; reflexivity. Qed.

Lemma lower_char_idem (c : ascii) : lower_char (lower_char c) = lower_char c.
Proof.
  destruct c as [[] [] [] [] [] [] [] []]; vm_compute; reflexivity.
Qed.

Lemma lower_idem (s : string) : lower (lower s) = lower s.
Proof.
  induction s as [|c s IH]; simpl; [reflexivity|].
  now rewrite lower_char_idem, IH.
Qed.

Lemma lower_app (a b : string) : lower (a +:+ b) = lower a +:+ lower b.
Proof.
  induction a as [|c a IH]; [reflexivity|].
  rewrite append_cons. simpl. rewrite IH. reflexivity.
Qed.

Lemma lower_char_space (c : ascii) : isspace_char (lower_char c) = isspace_char c.
Proof.
  destruct c as [[] [] [] [] [] [] [] []]; vm_compute; reflexivity.
Qed.

Lemma of_chars_snoc (l : list ascii) (c : ascii) (s : string) :
  String.string_of_list_ascii (l ++ [c]) +:+ s
  = String.string_of_list_ascii l +:+ String c s.
Proof.
  induction l as [|x l IH]; [reflexivity|].
  simpl. rewrite !append_cons, IH. reflexivity.
Qed.

(** Every field of a split occurs in the string split. *)
Lemma split_char_aux_fields sep (s : string) :
  forall cur line,
    In line (split_char_aux sep cur s) ->
    contains line (String.string_of_list_ascii (rev cur) +:+ s) = true.
Proof.
  induction s as [|c s IH]; intros cur line Hin; simpl in Hin.
  - destruct Hin as [<-|[]].
    exact (contains_app EmptyString (String.string_of_list_ascii (rev cur)) EmptyString).
  - destruct (Ascii.eqb c sep).
    + destruct Hin as [<-|Hin].
      * exact (contains_app EmptyString _ (String c s)).
      * apply IH in Hin. simpl in Hin. rewrite append_nil_l in Hin.
        apply contains_split in Hin as (a & b & E).
        replace (String.string_of_list_ascii (rev cur) +:+ String c s)
          with ((String.string_of_list_ascii (rev cur) +:+ String c a) +:+ line +:+ b).
        -- apply contains_app.
        -- rewrite append_assoc, append_cons, <- E. reflexivity.
    + apply IH in Hin. simpl in Hin. rewrite of_chars_snoc in Hin. exact Hin.
Qed.

Lemma split_char_fields sep (s line : string) :
  In line (split_char sep s) -> contains line s = true.
Proof. intros H. apply split_char_aux_fields in H. exact H. Qed.

Lemma split_char_aux_not_nil sep (s : string) cur : split_char_aux sep cur s <> [].
Proof.
  revert cur. induction s as [|c s IH]; intros cur; simpl; [discriminate|].
  destruct (Ascii.eqb c sep); [discriminate|apply IH].
Qed.

End Occurrences.

(** ** RedflagRules: scoring *)

Section Scoring.

Lemma severity_fold_counts (issues : list Issue) :
  forall t c,
    fold_left
      (fun '(total_score, severity_counts) i =>
         let sev := severity i in
         let severity_counts := count_severity sev severity_counts in
         ((total_score + severity_weight sev)%nat, severity_counts))
      issues (t, c)
    = ((t + 3 * count_severity_of High issues + 2 * count_severity_of Medium issues
        + count_severity_of Low issues)%nat,
       {| high_count := high_count c + count_severity_of High issues;
          medium_count := medium_count c + count_severity_of Medium issues;
          low_count := low_count c + count_severity_of Low issues |}).
Proof.
  induction issues as [|i issues IH]; intros t c.
  - cbn. destruct c; cbn. f_equal; [lia|]. f_equal; lia.
  - cbn [fold_left]. cbv zeta. rewrite IH.
    unfold count_severity_of, is_severity. cbn [List.filter].
    destruct (severity i); cbn [length count_severity severity_weight
                                 high_count medium_count low_count];
      (f_equal; [lia|]); f_equal; lia.
Qed.

Lemma count_severity_total (issues : list Issue) :
  (count_severity_of High issues + count_severity_of Medium issues
   + count_severity_of Low issues = length issues)%nat.
Proof.
  unfold count_severity_of, is_severity.
  induction issues as [|i issues IH]; cbn; [reflexivity|].
  destruct (severity i); cbn; lia.
Qed.

Lemma count_severity_positive sev (issues : list Issue) :
  (0 < count_severity_of sev issues)%nat <-> exists i, In i issues /\ severity i = sev.
Proof.
  unfold count_severity_of. split.
  - destruct (List.filter (is_severity sev) issues) as [|i l] eqn:E; cbn; [lia|].
    intros _. assert (H : In i (List.filter (is_severity sev) issues))
      by (rewrite E; left; reflexivity).
    apply filter_In in H as [Hin Hs]. exists i. split; [exact Hin|].
    unfold is_severity in Hs. destruct (severity i), sev; congruence.
  - intros (i & Hin & Hs).
    assert (H : In i (List.filter (is_severity sev) issues)).
    { apply filter_In. split; [exact Hin|]. unfold is_severity. rewrite Hs.
      destruct sev; reflexivity. }
    destruct (List.filter (is_severity sev) issues); [destruct H|cbn; lia].
Qed.

(** X1 (get_severity_score): the counts are the numbers of the issues of
    each severity and add up to the number of issues; the total is three
    points per High issue, two per Medium one and one per Low one; the
    priority is the highest severity present, and Low when there is no
    issue. *)
Theorem severity_score_weights (issues : list Issue) :
  let s := get_severity_score issues in
  let h := count_severity_of High issues in
  let m := count_severity_of Medium issues in
  let l := count_severity_of Low issues in
  severity_counts s = {| high_count := h; medium_count := m; low_count := l |}
  /\ (h + m + l = length issues)%nat
  /\ total_score s = (3 * h + 2 * m + l)%nat
  /\ (priority s = High <-> exists i, In i issues /\ severity i = High)
  /\ (priority s = Medium <->
      (exists i, In i issues /\ severity i = Medium)
      /\ forall i, In i issues -> severity i <> High)
  /\ (priority s = Low <-> forall i, In i issues -> severity i = Low).
Proof.
  cbv zeta. unfold get_severity_score. rewrite severity_fold_counts.
  cbn [total_score severity_counts priority high_count medium_count low_count Nat.add].
  pose proof (count_severity_total issues) as Htot.
  pose proof (count_severity_positive High issues) as HH.
  pose proof (count_severity_positive Medium issues) as HM.
  split; [reflexivity|]. split; [exact Htot|]. split; [lia|].
  destruct (Nat.ltb_spec 0 (count_severity_of High issues)) as [Hh|Hh];
    [|destruct (Nat.ltb_spec 0 (count_severity_of Medium issues)) as [Hm|Hm]].
  - apply HH in Hh as Hex. split; [tauto|]. split.
    + split; [discriminate|]. intros [_ Hno]. destruct Hex as (i & Hin & Hs).
      exfalso. exact (Hno i Hin Hs).
    + split; [discriminate|]. intros Hall. destruct Hex as (i & Hin & Hs).
      rewrite (Hall i Hin) in Hs. discriminate.
  - assert (Hno : forall i, In i issues -> severity i <> High).
    { intros i Hin Hs. assert (0 < count_severity_of High issues)%nat; [|lia].
      apply HH. exists i. tauto. }
    apply HM in Hm as Hex. split.
    + split; [discriminate|]. intros (i & Hin & Hs). exfalso. exact (Hno i Hin Hs).
    + split; [tauto|]. split; [discriminate|]. intros Hall.
      destruct Hex as (i & Hin & Hs). rewrite (Hall i Hin) in Hs. discriminate.
  - assert (Hall : forall i, In i issues -> severity i = Low).
    { intros i Hin. destruct (severity i) eqn:Hs; [| |reflexivity].
      - assert (0 < count_severity_of High issues)%nat; [|lia].
        apply HH. exists i. tauto.
      - assert (0 < count_severity_of Medium issues)%nat; [|lia].
        apply HM. exists i. tauto. }
    split.
    + split; [discriminate|]. intros (i & Hin & Hs). rewrite (Hall i Hin) in Hs.
      discriminate.
    + split; [|tauto]. split; [discriminate|]. intros [(i & Hin & Hs) _].
      rewrite (Hall i Hin) in Hs. discriminate.
Qed.

End Scoring.

(** ** RedflagRules: the completeness helper *)

Section Completeness.

Lemma validate_fold (text_lower : string) (sections : list string) :
  forall acc,
    fold_left
      (fun issues sect =>
         append_if (negb (contains (lower sect) text_lower))
           (mk_issue ("Missing required section: " +:+ sect) High
              ("Add " +:+ sect +:+ " section to the document") sect) issues)
      sections acc
    = acc ++ map (fun sect =>
                    mk_issue ("Missing required section: " +:+ sect) High
                      ("Add " +:+ sect +:+ " section to the document") sect)
               (List.filter (fun sect => negb (contains (lower sect) text_lower)) sections).
Proof.
  induction sections as [|s sections IH]; intros acc; cbn [fold_left List.filter map].
  - now rewrite app_nil_r.
  - rewrite IH. unfold append_if.
    destruct (negb (contains (lower s) text_lower)); cbn [map].
    + now rewrite <- app_assoc.
    + reflexivity.
Qed.

(** X2 (validate_document_completeness): one High issue per required
    section whose name does not occur in the text (letter case ignored),
    in the order of the requirements, each naming its section; no issue
    at all exactly when every required section occurs. *)
Theorem validate_document_completeness_missing (text : string) (required : list string) :
  map section (validate_document_completeness text required)
  = map Some (missing_sections text required)
  /\ map issue (validate_document_completeness text required)
     = map (fun sect => "Missing required section: " +:+ sect) (missing_sections text required)
  /\ Forall (fun i => severity i = High /\ is_check_issue i)
       (validate_document_completeness text required)
  /\ (validate_document_completeness text required = [] <->
      forall sect, In sect required -> contains (lower sect) (lower text) = true).
Proof.
  unfold validate_document_completeness. cbv zeta. rewrite validate_fold.
  cbn [app]. fold (missing_sections text required).
  split; [|split; [|split]].
  - rewrite map_map. reflexivity.
  - rewrite map_map. reflexivity.
  - apply Forall_map. apply Forall_forall. intros x _. cbn.
    unfold is_check_issue. cbn. repeat split; congruence.
  - unfold missing_sections. split.
    + intros H sect Hin.
      destruct (contains (lower sect) (lower text)) eqn:E; [reflexivity|].
      assert (Hf : In sect (List.filter
                    (fun sect => negb (contains (lower sect) (lower text))) required)).
      { apply filter_In. rewrite E. split; [exact Hin|reflexivity]. }
      destruct (List.filter _ required); [destruct Hf|discriminate].
    + intros H.
      replace (List.filter (fun sect => negb (contains (lower sect) (lower text))) required)
        with (@nil string); [reflexivity|].
      symmetry. induction required as [|s r IH]; [reflexivity|].
      cbn [List.filter]. rewrite (H s (or_introl eq_refl)). cbn [negb].
      apply IH. intros sect Hin. apply H. right. exact Hin.
Qed.

End Completeness.

(** ** RedflagRules: what every run of the checks keeps *)

Section RunInvariants.

Lemma mk_issue_check i sev sugg sect : is_check_issue (mk_issue i sev sugg sect).
Proof. unfold is_check_issue; cbn. repeat split; congruence. Qed.

Lemma append_if_Forall (P : Issue -> Prop) c x acc :
  P x -> Forall P acc -> Forall P (append_if c x acc).
Proof.
  intros Hx Hacc. unfold append_if. destruct c; [|exact Hacc].
  apply Forall_app. split; [exact Hacc|]. constructor; [exact Hx|constructor].
Qed.

Ltac check_issues :=
  cbv zeta; cbn [fold_left];
  repeat (apply append_if_Forall; [apply mk_issue_check|]);
  try apply List.Forall_nil.

Lemma jurisdiction_check_issues text tl :
  Forall is_check_issue (_check_jurisdiction text tl).
Proof. unfold _check_jurisdiction. check_issues. Qed.

Lemma signatures_check_issues text tl :
  Forall is_check_issue (_check_signatures text tl).
Proof. unfold _check_signatures. check_issues. Qed.

Lemma articles_check_issues text tl :
  Forall is_check_issue (_check_articles_of_association text tl).
Proof.
  unfold _check_articles_of_association. cbv zeta.
  destruct (negb _); [apply List.Forall_nil|]. check_issues.
Qed.

Lemma memorandum_check_issues text tl :
  Forall is_check_issue (_check_memorandum_of_association text tl).
Proof.
  unfold _check_memorandum_of_association. cbv zeta.
  destruct (negb (contains "memorandum of association" tl)); [apply List.Forall_nil|].
  check_issues.
Qed.

Lemma ubo_check_issues text tl :
  Forall is_check_issue (_check_ubo_declaration text tl).
Proof.
  unfold _check_ubo_declaration. cbv zeta.
  destruct (_ && _); [apply List.Forall_nil|]. check_issues.
Qed.

Lemma incorporation_check_issues text tl :
  Forall is_check_issue (_check_incorporation_application text tl).
Proof.
  unfold _check_incorporation_application. cbv zeta.
  destruct (_ && _); [apply List.Forall_nil|]. check_issues.
Qed.

Lemma adgm_check_issues text tl :
  Forall is_check_issue (_check_adgm_compliance text tl).
Proof. unfold _check_adgm_compliance. check_issues. Qed.

Lemma language_check_issues text tl :
  Forall is_check_issue (_check_language_and_formatting text tl).
Proof.
  unfold _check_language_and_formatting. cbv zeta.
  destruct (find _ date_patterns) as [[pt r]|].
  - apply Forall_app. split; [check_issues|].
    constructor; [apply mk_issue_check|constructor].
  - check_issues.
Qed.

Lemma specific_check_issues text tl d :
  Forall is_check_issue (_check_document_specific_issues text tl d).
Proof.
  unfold _check_document_specific_issues.
  repeat match goal with |- context [if ?c then _ else _] => destruct c end;
    auto using articles_check_issues, memorandum_check_issues, ubo_check_issues,
      incorporation_check_issues, List.Forall_nil.
Qed.

Lemma type_specific_sublist text doc_type :
  type_specific_checks text doc_type `sublist_of` type_specific_checks text None.
Proof.
  unfold type_specific_checks at 1.
  destruct (doc_type_given doc_type) as [d|]; [|reflexivity].
  unfold type_specific_checks. cbn [doc_type_given].
  unfold _check_document_specific_issues.
  destruct (contains "articles of association" (lower d)).
  { apply sublist_inserts_r. reflexivity. }
  destruct (contains "memorandum of association" (lower d)).
  { apply sublist_inserts_l, sublist_inserts_r. reflexivity. }
  destruct (contains "ubo" (lower d)).
  { apply sublist_inserts_l, sublist_inserts_l, sublist_inserts_r. reflexivity. }
  destruct (contains "incorporation" (lower d)).
  { apply sublist_inserts_l, sublist_inserts_l, sublist_inserts_l. reflexivity. }
  apply sublist_nil_l.
Qed.

Lemma redflag_check_issues (text : string) (doc_type : option string) :
  Forall is_check_issue (run_redflag_checks text doc_type).
Proof.
  rewrite run_redflag_checks_sequence.
  repeat (apply Forall_app; split);
    auto using jurisdiction_check_issues, signatures_check_issues,
      adgm_check_issues, language_check_issues.
  unfold type_specific_checks.
  destruct (doc_type_given doc_type); [apply specific_check_issues|].
  repeat (apply Forall_app; split);
    auto using articles_check_issues, memorandum_check_issues, ubo_check_issues,
      incorporation_check_issues.
Qed.

(** X3 (run_redflag_checks): every issue a run reports carries a
    suggestion and a section and neither a document name nor a citation,
    whatever the text and the document type. *)
Theorem run_redflag_checks_issue_keys (text : string) (doc_type : option string) :
  Forall is_check_issue (run_redflag_checks text doc_type).
Proof. apply redflag_check_issues. Qed.

(** X4 (run_redflag_checks): naming a document type never adds an issue.
    The issues of a run with a type are issues of the run without one,
    in the same order. *)
Theorem run_redflag_checks_typed_sublist (text : string) (doc_type : option string) :
  run_redflag_checks text doc_type `sublist_of` run_redflag_checks text None.
Proof.
  rewrite !run_redflag_checks_sequence.
  apply sublist_app; [reflexivity|]. apply sublist_app; [reflexivity|].
  apply sublist_app; [apply type_specific_sublist|reflexivity].
Qed.

End RunInvariants.

(** ** RedflagRules: locating an issue *)

Section Locating.

Lemma find_section_loop_absent lines term_lower :
  forall rest i,
    (forall line, In line rest -> contains term_lower (lower line) = false) ->
    find_section_loop lines term_lower i rest = "General".
Proof.
  induction rest as [|line rest IH]; intros i H; simpl; [reflexivity|].
  rewrite (H line (or_introl eq_refl)). apply IH.
  intros l Hl. apply H. right. exact Hl.
Qed.

Lemma find_section_loop_not_empty lines term_lower :
  forall rest i, find_section_loop lines term_lower i rest <> EmptyString.
Proof.
  induction rest as [|line rest IH]; intros i; simpl; [discriminate|].
  destruct (contains term_lower (lower line)); [|apply IH].
  destruct (header_above lines i) as [h|] eqn:E.
  - unfold header_above in E. apply find_some in E as [_ Hh].
    unfold is_header in Hh. apply andb_true_iff in Hh as [Ht _].
    destruct (strip h); [discriminate Ht|discriminate].
  - discriminate.
Qed.

Lemma find_section_absent (text search_term : string) :
  contains (lower search_term) (lower text) = false ->
  _find_section_with_text text search_term = "General".
Proof.
  intros H. unfold _find_section_with_text. cbv zeta.
  apply find_section_loop_absent. intros line Hin.
  destruct (contains (lower search_term) (lower line)) eqn:E; [|reflexivity].
  apply split_char_fields, contains_lower in Hin.
  rewrite (contains_trans _ _ _ E Hin) in H. discriminate.
Qed.

(** X5 (_find_section_with_text): a term that does not occur in the text
    (letter case ignored) is located in "General"; a term that occurs in
    the first line, as the empty term does, is located in "Line 1"; and
    the section is never the empty string. *)
Theorem find_section_with_text_edges (text search_term : string) :
  (contains (lower search_term) (lower text) = false ->
   _find_section_with_text text search_term = "General")
  /\ (forall first rest,
        split_char nl text = first :: rest ->
        contains (lower search_term) (lower first) = true ->
        _find_section_with_text text search_term = "Line 1")
  /\ _find_section_with_text text EmptyString = "Line 1"
  /\ _find_section_with_text text search_term <> EmptyString.
Proof.
  split; [apply find_section_absent|].
  unfold _find_section_with_text. cbv zeta. repeat split.
  - intros first rest E H. rewrite E. simpl. rewrite H. reflexivity.
  - destruct (split_char nl text) as [|first rest] eqn:E.
    + exfalso. exact (split_char_aux_not_nil _ _ _ E).
    + simpl. rewrite contains_empty. reflexivity.
  - apply find_section_loop_not_empty.
Qed.

Lemma find_section_with_text_edges_witness :
  contains (lower "USD") (lower "Fees are payable in AED") = false
  /\ _find_section_with_text "Fees are payable in AED" "USD" = "General"
  /\ _find_section_with_text "Fees are payable in usd" "USD" = "Line 1".
Proof.
  split; [reflexivity|]. split.
  - apply (find_section_with_text_edges "Fees are payable in AED" "USD"). reflexivity.
  - apply (proj1 (proj2 (find_section_with_text_edges "Fees are payable in usd" "USD"))
             "Fees are payable in usd" []); reflexivity.
Defined.

Lemma lower_char_backslash (c : ascii) :
  Ascii.eqb "\" (lower_char c) = Ascii.eqb "\" c.
Proof. destruct c as [[] [] [] [] [] [] [] []]; vm_compute; reflexivity. Qed.

Lemma contains_backslash_lower (s : string) : contains "\" (lower s) = contains "\" s.
Proof.
  induction s as [|c s IH]; [reflexivity|].
  simpl lower. rewrite !contains_unfold, IH. f_equal.
  change (Ascii.eqb "\" (lower_char c) && startswith (lower s) EmptyString
          = Ascii.eqb "\" c && startswith s EmptyString).
  replace (startswith (lower s) EmptyString) with true by (destruct s; reflexivity).
  replace (startswith s EmptyString) with true by (destruct s; reflexivity).
  rewrite lower_char_backslash. reflexivity.
Qed.

(** X6 (_check_language_and_formatting): the date issue is located by
    searching the text for the source of the date pattern, so in a text
    without a backslash its section is always "General". *)
Theorem date_issue_section_general (text : string) :
  contains "\" text = false ->
  Forall (fun i => issue i = "Date format may be ambiguous" -> section i = Some "General")
    (_check_language_and_formatting text (lower text)).
Proof.
  intros Hno.
  assert (Hsect : forall pattern_text,
             contains "\" (lower pattern_text) = true ->
             _find_section_with_text text pattern_text = "General").
  { intros p Hp. apply find_section_absent.
    destruct (contains (lower p) (lower text)) eqn:E; [|reflexivity].
    pose proof (contains_trans _ _ _ Hp E) as H.
    rewrite contains_backslash_lower, Hno in H. discriminate. }
  unfold _check_language_and_formatting. cbv zeta.
  assert (Hothers :
    Forall (fun i => issue i = "Date format may be ambiguous" -> section i = Some "General")
      (append_if
         (negb (contains "definition" (lower text)) && negb (contains "means" (lower text))
          && (500 <? length (split_ws text))%nat)
         (mk_issue "Long document may benefit from definitions section" Low
            "Consider adding a definitions section for key terms" "Structure")
         (append_if (negb (contains "shall" (lower text)) && contains "will" (lower text))
            (mk_issue
               ("Uses " +:+ dquote +:+ "will" +:+ dquote +:+ " instead of " +:+ dquote
                +:+ "shall" +:+ dquote +:+ " for obligations") Low
               ("Use " +:+ dquote +:+ "shall" +:+ dquote +:+ " for legal obligations and "
                +:+ dquote +:+ "will" +:+ dquote +:+ " for future actions") "General")
            (fold_left
               (fun (issues : list Issue) '(phrase, sugg) =>
                  append_if (contains phrase (lower text))
                    (mk_issue
                       ("Ambiguous language detected: " +:+ dquote +:+ phrase +:+ dquote)
                       Low sugg (_find_section_with_text text phrase)) issues)
               [("may or may not", "Use definitive language instead of ambiguous terms");
                ("as appropriate", "Specify exact conditions or requirements");
                ("if necessary", "Define when such necessity arises");
                ("reasonable", "Define what constitutes reasonable in this context")]
               [])))).
  { cbn [fold_left].
    repeat (apply append_if_Forall; [cbn [issue mk_issue]; intros H; vm_compute in H;
                                     discriminate H|]).
    constructor. }
  simpl find.
  destruct (Re.search (date_pattern "/") text).
  - apply Forall_app. split; [exact Hothers|].
    constructor; [|constructor]. intros _. cbn [section mk_issue]. f_equal.
    apply Hsect. reflexivity.
  - destruct (Re.search (date_pattern "-") text); [|exact Hothers].
    apply Forall_app. split; [exact Hothers|].
    constructor; [|constructor]. intros _. cbn [section mk_issue]. f_equal.
    apply Hsect. reflexivity.
Qed.

Lemma date_issue_section_general_witness :
  contains "\" "Signed on 01/02/2024" = false
  /\ Forall (fun i => issue i = "Date format may be ambiguous" -> section i = Some "General")
       (_check_language_and_formatting "Signed on 01/02/2024" (lower "Signed on 01/02/2024")).
Proof.
  split; [reflexivity|].
  apply (date_issue_section_general "Signed on 01/02/2024"). reflexivity.
Defined.

End Locating.

(** ** RedflagRules: cross-references *)

Section CrossReferences.

Lemma substring_prefix (n : nat) (s : string) :
  startswith s (String.substring 0 n s) = true.
Proof.
  revert s. induction n as [|n IH]; intros s.
  - destruct s; reflexivity.
  - destruct s as [|c s]; [reflexivity|].
    simpl. rewrite Ascii.eqb_refl. apply IH.
Qed.

Lemma finditer_from_occurs (r : Re.regex) (s : string) :
  forall skip prev x,
    In x (Re.finditer_from r skip prev s) -> contains x s = true.
Proof.
  induction s as [|c s IH]; intros skip prev x Hin; [destruct Hin|].
  assert (Hrest : forall skip' prev',
             In x (Re.finditer_from r skip' prev' s) -> contains x (String c s) = true).
  { intros skip' prev' H. rewrite contains_unfold, (IH _ _ _ H). apply orb_true_r. }
  destruct skip as [|k]; [|exact (Hrest _ _ Hin)].
  change (In x match Re.match_at r (prev, String c s) with
               | (_, rest) :: _ =>
                   let n := (String.length (String c s) - String.length rest)%nat in
                   match n with
                   | O => Re.finditer_from r 0 (Some c) s
                   | S k => String.substring 0 n (String c s)
                            :: Re.finditer_from r k (Some c) s
                   end
               | [] => Re.finditer_from r 0 (Some c) s
               end) in Hin.
  destruct (Re.match_at r (prev, String c s)) as [|[p rest] l]; [exact (Hrest _ _ Hin)|].
  cbv zeta in Hin.
  destruct (String.length (String c s) - String.length rest)%nat as [|n];
    [exact (Hrest _ _ Hin)|].
  destruct Hin as [<-|Hin]; [|exact (Hrest _ _ Hin)].
  apply contains_prefix. apply (substring_prefix (S n) (String c s)).
Qed.

Lemma cross_reference_refs (text : string) (P : Issue -> Prop) (refs : list string) :
  (forall ref,
     In ref refs ->
     contains "clause" (lower ref) = true ->
     contains (lower ref) (replace_first (lower ref) EmptyString (lower text)) = false ->
     P (mk_issue ("Potential broken cross-reference: " +:+ ref) Medium
          ("Verify that " +:+ ref +:+ " exists in the document")
          (_find_section_with_text text ref))) ->
  forall acc,
    Forall P acc ->
    Forall P
      (fold_left
         (fun issues ref =>
            append_if (contains "clause" (lower ref)
                       && negb (contains (lower ref)
                                  (replace_first (lower ref) EmptyString (lower text))))
              (mk_issue ("Potential broken cross-reference: " +:+ ref) Medium
                 ("Verify that " +:+ ref +:+ " exists in the document")
                 (_find_section_with_text text ref)) issues)
         refs acc).
Proof.
  induction refs as [|ref refs IH]; intros Hrefs acc Hacc; [exact Hacc|].
  cbn [fold_left]. apply IH.
  - intros ref' Hin. apply Hrefs. right. exact Hin.
  - unfold append_if.
    destruct (contains "clause" (lower ref)) eqn:E1; [|exact Hacc].
    destruct (contains (lower ref) (replace_first (lower ref) EmptyString (lower text)))
      eqn:E2; [exact Hacc|].
    cbn [andb negb]. apply Forall_app. split; [exact Hacc|].
    constructor; [|constructor]. apply Hrefs; [left; reflexivity|exact E1|exact E2].
Qed.

Lemma cross_reference_issues (text : string) :
  Forall (is_broken_reference text) (check_cross_references text).
Proof.
  unfold check_cross_references. cbv zeta.
  generalize (ref_patterns (String.length text)). intros patterns.
  assert (G : forall acc,
             Forall (is_broken_reference text) acc ->
             Forall (is_broken_reference text)
               (fold_left
                  (fun issues pattern =>
                     fold_left
                       (fun issues ref =>
                          append_if (contains "clause" (lower ref)
                                     && negb (contains (lower ref)
                                                (replace_first (lower ref) EmptyString
                                                   (lower text))))
                            (mk_issue ("Potential broken cross-reference: " +:+ ref) Medium
                               ("Verify that " +:+ ref +:+ " exists in the document")
                               (_find_section_with_text text ref)) issues)
                       (Re.finditer pattern text) issues)
                  patterns acc)).
  { induction patterns as [|p patterns IH]; intros acc Hacc; [exact Hacc|].
    cbn [fold_left]. apply IH. apply cross_reference_refs; [|exact Hacc].
    intros ref Hin E1 E2. exists ref. repeat split; try assumption.
    exact (finditer_from_occurs _ _ _ _ _ Hin). }
  apply G. constructor.
Qed.

(** X7 (check_cross_references): every issue reported is a Medium issue
    about a reference that occurs in the text, contains the word
    "clause" (letter case ignored) and is not found again once its first
    occurrence is taken out of the text; a text without the word "clause"
    gets no issue at all. *)
Theorem check_cross_references_only_clauses (text : string) :
  Forall (fun i => is_broken_reference text i /\ severity i = Medium /\ is_check_issue i)
    (check_cross_references text)
  /\ (contains "clause" (lower text) = false -> check_cross_references text = []).
Proof.
  pose proof (cross_reference_issues text) as H. split.
  - eapply List.Forall_impl; [|exact H].
    intros i Hi. split; [exact Hi|].
    destruct Hi as (ref & -> & _). split; [reflexivity|apply mk_issue_check].
  - intros Hno. destruct (check_cross_references text) as [|i l]; [reflexivity|].
    exfalso. apply Forall_inv in H. destruct H as (ref & _ & Hocc & Hc & _).
    apply contains_lower in Hocc.
    rewrite (contains_trans _ _ _ Hc Hocc) in Hno. discriminate.
Qed.

Lemma check_cross_references_only_clauses_witness :
  contains "clause" (lower "See Section 4 and Article 12 of Schedule 1") = false
  /\ check_cross_references "See Section 4 and Article 12 of Schedule 1" = [].
Proof.
  split; [reflexivity|].
  apply (check_cross_references_only_clauses "See Section 4 and Article 12 of Schedule 1").
  reflexivity.
Defined.

End CrossReferences.

(** ** TypeDetector: scores, names and letter case *)

Section Scores.

Lemma table_counts_in_range :
  forallb (fun '(_, p) => counts_in_range p) DOCUMENT_PATTERNS = true.
Proof. vm_compute. reflexivity. Qed.

Lemma calculate_confidence_range text name p :
  In (name, p) DOCUMENT_PATTERNS ->
  in_unit_interval (_calculate_confidence text p)
  /\ (py_ge (_calculate_confidence text p) (confidence_threshold p) = true ->
      PrimFloat.leb 0.5 (_calculate_confidence text p) = true
      /\ PrimFloat.ltb (_calculate_confidence text p) 0.5 = false).
Proof.
  intros Hin. pose proof table_counts_in_range as H.
  rewrite forallb_forall in H. specialize (H _ Hin). cbn beta iota in H.
  unfold counts_in_range in H. rewrite calculate_confidence_counts.
  eapply forallb_upto in H; [|apply (hits_le text (primary_keywords p))].
  eapply forallb_upto in H; [|apply (hits_le text (secondary_keywords p))].
  eapply forallb_upto in H; [|apply (hits_le text (structure_indicators p))].
  eapply forallb_upto in H; [|apply (hits_le text (exclusion_keywords p))].
  cbv zeta in H. apply andb_true_iff in H as [H Himp].
  apply andb_true_iff in H as [H0 H1]. split; [split; assumption|].
  intros Hge. rewrite Hge in Himp. cbn [implb] in Himp.
  apply andb_true_iff in Himp as [Ha Hb]. apply negb_true_iff in Hb. tauto.
Qed.

(** What the loop collects: an entry of the table, with its confidence,
    which reaches the threshold of the entry. *)
Lemma matching_types_matches table text :
  Forall (fun x => exists p, In (fst x, p) table
                             /\ snd x = _calculate_confidence text p
                             /\ py_ge (snd x) (confidence_threshold p) = true)
         (matching_types table text).
Proof.
  unfold matching_types.
  assert (G : forall tbl acc,
             (forall e, In e tbl -> In e table) ->
             Forall (fun x => exists p, In (fst x, p) table
                                /\ snd x = _calculate_confidence text p
                                /\ py_ge (snd x) (confidence_threshold p) = true) acc ->
             Forall (fun x => exists p, In (fst x, p) table
                                /\ snd x = _calculate_confidence text p
                                /\ py_ge (snd x) (confidence_threshold p) = true)
               (fold_left
                  (fun detected_types '(doc_type, patterns) =>
                     let confidence := _calculate_confidence text patterns in
                     if py_ge confidence (confidence_threshold patterns)
                     then detected_types ++ [(doc_type, confidence)]
                     else detected_types) tbl acc)).
  { induction tbl as [|[name p] tbl IH]; intros acc Hsub Hacc; simpl; [assumption|].
    apply IH; [intros e He; apply Hsub; right; exact He|].
    destruct (py_ge _ _) eqn:E; [|assumption].
    apply Forall_app. split; [assumption|].
    constructor; [|constructor].
    exists p. split; [apply Hsub; left; reflexivity|]. split; [reflexivity|exact E]. }
  apply G; [auto|constructor].
Qed.

(** The names collected are names of the table, in the order of the
    table. *)
Lemma matching_types_sublist table text :
  map fst (matching_types table text) `sublist_of` map fst table.
Proof.
  unfold matching_types.
  assert (G : forall tbl (acc : list (string * float)),
             map fst
               (fold_left
                  (fun detected_types '(doc_type, patterns) =>
                     let confidence := _calculate_confidence text patterns in
                     if py_ge confidence (confidence_threshold patterns)
                     then detected_types ++ [(doc_type, confidence)]
                     else detected_types) tbl acc)
             = map fst acc
               ++ map fst
                    (fold_left
                       (fun detected_types '(doc_type, patterns) =>
                          let confidence := _calculate_confidence text patterns in
                          if py_ge confidence (confidence_threshold patterns)
                          then detected_types ++ [(doc_type, confidence)]
                          else detected_types) tbl [])).
  { induction tbl as [|[name p] tbl IH]; intros acc; simpl.
    - now rewrite app_nil_r.
    - rewrite IH. symmetry. rewrite IH. symmetry.
      destruct (py_ge _ _); simpl.
      + rewrite map_app. simpl. rewrite <- app_assoc. reflexivity.
      + reflexivity. }
  induction table as [|[name p] table IH]; [reflexivity|].
  cbn [fold_left map]. rewrite G.
  destruct (py_ge _ _); simpl.
  - apply sublist_skip. exact IH.
  - apply sublist_cons. exact IH.
Qed.

Lemma fallback_detection_types text : In (_fallback_detection text) fallback_types.
Proof.
  unfold _fallback_detection, fallback_types.
  destruct (find _ legal_indicators) as [[indicator doc_type]|] eqn:E.
  - apply find_some in E as [Hin _]. apply in_or_app. left.
    apply (in_map (fun '(_, doc_type) => "General " +:+ doc_type) _ _ Hin).
  - apply in_or_app. right. cbv zeta.
    destruct (_ <? 100)%nat; [left; reflexivity|].
    destruct (2000 <? _)%nat; [right; left; reflexivity|right; right; left; reflexivity].
Qed.

Lemma insert_desc_perm {A} (key : A -> float) (x : A) (l : list A) :
  insert_desc key x l ≡ₚ x :: l.
Proof.
  induction l as [|y l IH]; simpl; [reflexivity|].
  destruct (PrimFloat.ltb _ _); [|reflexivity].
  rewrite IH. apply Permutation_swap.
Qed.

Lemma sort_desc_perm {A} (key : A -> float) (l : list A) : sort_desc key l ≡ₚ l.
Proof.
  unfold sort_desc. induction l as [|x l IH]; simpl; [reflexivity|].
  rewrite insert_desc_perm, IH. reflexivity.
Qed.

Lemma sort_desc_not_nil {A} (key : A -> float) (x : A) (l : list A) :
  sort_desc key (x :: l) <> [].
Proof. unfold sort_desc. simpl. apply insert_desc_not_nil. Qed.

(** The outcome of the scored classification, by cases. *)
Lemma detect_doc_type_scored_cases text :
  (is_blank text = true /\ detect_doc_type_scored text = [("Unknown", 0%float)])
  \/ (is_blank text = false
      /\ matching_types DOCUMENT_PATTERNS (normalize_ws (lower text)) = []
      /\ detect_doc_type_scored text
         = [(_fallback_detection (normalize_ws (lower text)), 0.3%float)])
  \/ (is_blank text = false
      /\ matching_types DOCUMENT_PATTERNS (normalize_ws (lower text)) <> []
      /\ detect_doc_type_scored text
         = sort_desc snd (matching_types DOCUMENT_PATTERNS (normalize_ws (lower text)))
      /\ detect_doc_type_scored text <> []).
Proof.
  unfold detect_doc_type_scored, detect_doc_type_scored_in.
  destruct (is_blank text); [left; auto|right]. cbv zeta.
  destruct (matching_types DOCUMENT_PATTERNS (normalize_ws (lower text))) as [|x l] eqn:E.
  - left. auto.
  - right. split; [reflexivity|]. split; [discriminate|].
    pose proof (sort_desc_not_nil snd x l) as Hne.
    destruct (sort_desc snd (x :: l)); [congruence|]. split; [reflexivity|discriminate].
Qed.

(** X8 (detect_doc_type, _calculate_confidence): every confidence
    reported lies between 0 and 1.  The answer is the single entry
    ("Unknown", 0.0), or the single fallback entry with confidence 0.3,
    whose name is none of the table, or a list of types of the table,
    each with a confidence of at least 0.5. *)
Theorem detect_doc_type_scored_scores (text : string) :
  Forall (fun x => in_unit_interval (snd x)) (detect_doc_type_scored text)
  /\ (detect_doc_type_scored text = [("Unknown", 0%float)]
      \/ (detect_doc_type_scored text
          = [(_fallback_detection (normalize_ws (lower text)), 0.3%float)]
          /\ ~ In (_fallback_detection (normalize_ws (lower text))) pattern_types)
      \/ Forall (fun x => In (fst x) pattern_types
                          /\ PrimFloat.leb 0.5 (snd x) = true
                          /\ PrimFloat.ltb (snd x) 0.5 = false)
           (detect_doc_type_scored text)).
Proof.
  destruct (detect_doc_type_scored_cases text)
    as [[_ ->]|[(_ & _ & ->)|(_ & _ & -> & _)]].
  - split; [repeat constructor|left; reflexivity].
  - split; [repeat constructor|]. right. left. split; [reflexivity|].
    pose proof (fallback_detection_types (normalize_ws (lower text))) as Hin.
    assert (Hall : forallb (fun t => negb (existsb (String.eqb t) pattern_types))
                     fallback_types = true) by (vm_compute; reflexivity).
    rewrite forallb_forall in Hall. specialize (Hall _ Hin).
    apply negb_true_iff in Hall. intros Habs.
    assert (Hex : existsb (String.eqb (_fallback_detection (normalize_ws (lower text))))
                    pattern_types = true).
    { apply existsb_exists. eexists. split; [exact Habs|apply String.eqb_refl]. }
    congruence.
  - pose proof (matching_types_matches DOCUMENT_PATTERNS (normalize_ws (lower text))) as H.
    split.
    + apply sort_desc_Forall. eapply List.Forall_impl; [|exact H].
      intros [name c] (p & Hin & Hc & Hge). cbn [fst snd] in *. subst c.
      apply (calculate_confidence_range _ name p Hin).
    + right. right. apply sort_desc_Forall. eapply List.Forall_impl; [|exact H].
      intros [name c] (p & Hin & Hc & Hge). cbn [fst snd] in *. subst c.
      destruct (calculate_confidence_range (normalize_ws (lower text)) name p Hin)
        as [_ Hhalf].
      split; [|apply Hhalf; exact Hge].
      unfold pattern_types. apply (in_map fst _ _ Hin).
Qed.

(** X9 (detect_doc_type): the plain classification names the types of
    the scored one, in the order of the table instead of the order of the
    confidences, and names no type twice. *)
Theorem detect_doc_type_same_types (text : string) :
  map fst (detect_doc_type_scored text) ≡ₚ TypeDetector.detect_doc_type text
  /\ NoDup (TypeDetector.detect_doc_type text)
  /\ (TypeDetector.detect_doc_type text `sublist_of` pattern_types
      \/ exists t, TypeDetector.detect_doc_type text = [t]).
Proof.
  pose proof (matching_types_sublist DOCUMENT_PATTERNS (normalize_ws (lower text))) as Hsub.
  unfold TypeDetector.detect_doc_type.
  destruct (detect_doc_type_scored_cases text)
    as [[Hb ->]|[(Hb & Hm & ->)|(Hb & Hm & -> & _)]]; rewrite Hb.
  - split; [reflexivity|]. split; [apply NoDup_singleton|]. right. eauto.
  - cbv zeta. rewrite Hm. simpl.
    split; [reflexivity|]. split; [apply NoDup_singleton|]. right. eauto.
  - cbv zeta.
    destruct (matching_types DOCUMENT_PATTERNS (normalize_ws (lower text))) as [|x l] eqn:E;
      [congruence|].
    cbn [map]. split; [|split].
    + rewrite (sort_desc_perm snd (x :: l)). reflexivity.
    + eapply sublist_NoDup; [|exact Hsub].
      apply (bool_decide_unpack _). vm_compute. exact I.
    + left. exact Hsub.
Qed.

End Scores.

(** ** TypeDetector: letter case, completeness and suggestions *)

Section SectionsAndSignatures.

Lemma is_blank_lower (text : string) : is_blank (lower text) = is_blank text.
Proof.
  rewrite !is_blank_spaces.
  induction text as [|c text IH]; [reflexivity|].
  simpl. rewrite lower_char_space, IH. reflexivity.
Qed.

(** X10 (type_detector.py): the letter case of the text plays no part.
    Two texts with the same lower-case form get the same types, the same
    scores, the same completeness analysis and the same suggestions. *)
Theorem detection_ignores_letter_case (text1 text2 : string) (doc_types : list string) :
  lower text1 = lower text2 ->
  TypeDetector.detect_doc_type text1 = TypeDetector.detect_doc_type text2
  /\ detect_doc_type_scored text1 = detect_doc_type_scored text2
  /\ analyze_document_completeness text1 doc_types
     = analyze_document_completeness text2 doc_types
  /\ get_document_type_suggestions text1 = get_document_type_suggestions text2.
Proof.
  intros H.
  assert (Hb : is_blank text1 = is_blank text2)
    by (rewrite <- (is_blank_lower text1), <- (is_blank_lower text2), H; reflexivity).
  assert (Hs : detect_doc_type_scored text1 = detect_doc_type_scored text2).
  { unfold detect_doc_type_scored, detect_doc_type_scored_in. rewrite Hb, H. reflexivity. }
  split; [|split; [exact Hs|split]].
  - unfold TypeDetector.detect_doc_type. rewrite Hb, H. reflexivity.
  - unfold analyze_document_completeness. rewrite H. reflexivity.
  - unfold get_document_type_suggestions. rewrite Hs, H. reflexivity.
Qed.

Lemma detection_ignores_letter_case_witness :
  lower "BOARD RESOLUTION: it was Resolved that" = lower "board resolution: it was resolved that"
  /\ TypeDetector.detect_doc_type "BOARD RESOLUTION: it was Resolved that"
     = TypeDetector.detect_doc_type "board resolution: it was resolved that".
Proof.
  split; [reflexivity|].
  apply (detection_ignores_letter_case
           "BOARD RESOLUTION: it was Resolved that"
           "board resolution: it was resolved that" []).
  reflexivity.
Defined.

Lemma check_sections_fold (text_lower : string) (sections : list string) :
  forall present missing count,
    fold_left
      (fun '(present_elements, missing_elements, present_count) sect =>
         if contains (lower sect) text_lower
         then (present_elements ++ [sect], missing_elements, S present_count)
         else (present_elements, missing_elements ++ [sect], present_count))
      sections (present, missing, count)
    = (present ++ List.filter (fun sect => contains (lower sect) text_lower) sections,
       missing ++ List.filter (fun sect => negb (contains (lower sect) text_lower)) sections,
       (count + length (List.filter (fun sect => contains (lower sect) text_lower)
                          sections))%nat).
Proof.
  induction sections as [|s sections IH]; intros present missing count.
  - simpl. rewrite !app_nil_r, Nat.add_0_r. reflexivity.
  - cbn [fold_left List.filter]. destruct (contains (lower s) text_lower); cbn [negb].
    + rewrite IH, <- app_assoc. cbn [app length]. f_equal. lia.
    + rewrite IH, <- app_assoc. reflexivity.
Qed.


Lemma filter_length_le {A} (f : A -> bool) (l : list A) :
  (length (List.filter f l) <= length l)%nat.
Proof.
  induction l as [|x l IH]; [reflexivity|].
  cbn [List.filter]. destruct (f x); cbn [length]; lia.
Qed.







End SectionsAndSignatures.

(** ** TypeDetector: suggestions *)

Section Suggestions.

Lemma fallback_not_in_table text :
  find (fun '(name, _) => String.eqb name (_fallback_detection text)) DOCUMENT_PATTERNS
  = None.
Proof.
  pose proof (fallback_detection_types text) as Hin.
  assert (Hall : forallb
                   (fun t => match find (fun '(name, _) => String.eqb name t)
                                     DOCUMENT_PATTERNS with
                             | None => true
                             | Some _ => false
                             end) fallback_types = true) by (vm_compute; reflexivity).
  rewrite forallb_forall in Hall. specialize (Hall _ Hin).
  destruct (find _ DOCUMENT_PATTERNS); [discriminate|reflexivity].
Qed.

Lemma matched_scores_half text :
  Forall (fun x => In (fst x) pattern_types /\ PrimFloat.ltb (snd x) 0.5 = false)
    (sort_desc snd (matching_types DOCUMENT_PATTERNS (normalize_ws (lower text)))).
Proof.
  apply sort_desc_Forall. eapply List.Forall_impl; [|apply matching_types_matches].
  intros [name c] (p & Hin & Hc & Hge). cbn [fst snd] in *. subst c.
  destruct (calculate_confidence_range (normalize_ws (lower text)) name p Hin)
    as [_ Hhalf].
  split; [|apply Hhalf; exact Hge].
  unfold pattern_types. apply (in_map fst _ _ Hin).
Qed.

Lemma combine_not_unclear (s : string) :
  "Document appears to combine multiple types: " +:+ s <> unclear_suggestion.
Proof. cbv [String.append unclear_suggestion]. discriminate. Qed.

Lemma key_terms_not_unclear (s : string) :
  "Consider adding key terms: " +:+ s <> unclear_suggestion.
Proof. cbv [String.append unclear_suggestion]. discriminate. Qed.

(** X12 (get_document_type_suggestions): when no type of the table
    reaches its threshold (a blank text included) the only suggestion is
    that the type is unclear; otherwise that suggestion is not made.
    There are never more than two suggestions. *)
Theorem suggestions_unclear_type (text : string) :
  (no_pattern_type text -> get_document_type_suggestions text = [unclear_suggestion])
  /\ (~ no_pattern_type text ->
      ~ In unclear_suggestion (get_document_type_suggestions text))
  /\ (length (get_document_type_suggestions text) <= 2)%nat.
Proof.
  assert (Hblank : detect_doc_type_scored text = [("Unknown", 0%float)] ->
                   get_document_type_suggestions text = [unclear_suggestion]).
  { intros E. unfold get_document_type_suggestions. rewrite E. reflexivity. }
  assert (Hfb : detect_doc_type_scored text
                = [(_fallback_detection (normalize_ws (lower text)), 0.3%float)] ->
                get_document_type_suggestions text = [unclear_suggestion]).
  { intros E. unfold get_document_type_suggestions. rewrite E. cbv zeta.
    rewrite fallback_not_in_table. reflexivity. }
  assert (Hmatch :
    is_blank text = false ->
    matching_types DOCUMENT_PATTERNS (normalize_ws (lower text)) <> [] ->
    ~ In unclear_suggestion (get_document_type_suggestions text)
    /\ (length (get_document_type_suggestions text) <= 2)%nat).
  { intros Hb Hm.
    destruct (detect_doc_type_scored_cases text)
      as [[Hb' _]|[(_ & Hm' & _)|(_ & _ & E & Hne)]]; [congruence|congruence|].
    pose proof (matched_scores_half text) as Hhalf. rewrite <- E in Hhalf.
    unfold get_document_type_suggestions.
    destruct (detect_doc_type_scored text) as [|[t c] rest]; [congruence|].
    apply Forall_inv in Hhalf. cbn [fst snd] in Hhalf. destruct Hhalf as [_ Hc].
    cbv zeta. rewrite Hc. cbn [app].
    destruct (1 <? _)%nat;
      (destruct (find _ DOCUMENT_PATTERNS) as [[name pats]|];
       [destruct (List.filter _ (primary_keywords pats))|]);
      cbn [app length In]; (split; [|lia]);
      intros Hin; repeat destruct Hin as [Hin|Hin];
      solve [ exact (combine_not_unclear _ Hin)
            | exact (key_terms_not_unclear _ Hin)
            | exact Hin ]. }
  split; [|split].
  - intros [Hb|Hm].
    + apply Hblank. unfold detect_doc_type_scored, detect_doc_type_scored_in.
      rewrite Hb. reflexivity.
    + destruct (detect_doc_type_scored_cases text)
        as [[_ E]|[(_ & _ & E)|(_ & Hm' & _)]]; [auto|auto|congruence].
  - intros Hno. apply Hmatch.
    + destruct (is_blank text) eqn:E; [|reflexivity]. exfalso. apply Hno. left. exact E.
    + intros E. apply Hno. right. exact E.
  - destruct (detect_doc_type_scored_cases text)
      as [[_ E]|[(_ & _ & E)|(Hb & Hm & _)]].
    + rewrite (Hblank E). cbn. lia.
    + rewrite (Hfb E). cbn. lia.
    + apply Hmatch; assumption.
Qed.

Lemma suggestions_unclear_type_witness :
  no_pattern_type "hello agreement"
  /\ get_document_type_suggestions "hello agreement" = [unclear_suggestion].
Proof.
  assert (H : no_pattern_type "hello agreement") by (right; vm_compute; reflexivity).
  split; [exact H|].
  exact (proj1 (suggestions_unclear_type "hello agreement") H).
Defined.

End Suggestions.

(** ** Rag: chunking on every input *)

Section ChunkingTotal.

Lemma of_chars_app (x y : list ascii) :
  String.string_of_list_ascii (x ++ y)
  = String.string_of_list_ascii x +:+ String.string_of_list_ascii y.
Proof.
  induction x as [|c x IH]; [reflexivity|].
  simpl. rewrite append_cons, IH. reflexivity.
Qed.

Lemma substr_occurs (a b : nat) (s : string) : contains (substr a b s) s = true.
Proof.
  unfold substr.
  remember (String.list_ascii_of_string s) as l eqn:Hl.
  assert (E : s = String.string_of_list_ascii (firstn a l)
                  +:+ String.string_of_list_ascii (firstn (b - a) (skipn a l))
                  +:+ String.string_of_list_ascii (skipn (b - a) (skipn a l))).
  { rewrite <- !of_chars_app, firstn_skipn, firstn_skipn. rewrite Hl.
    symmetry. apply of_chars_chars. }
  rewrite E. apply contains_app.
Qed.

Lemma slice_occurs (s : string) (a b : Z) : contains (slice s a b) s = true.
Proof. unfold slice. apply substr_occurs. Qed.

Lemma slice_window_length (text : string) (a n : Z) :
  (0 <= a)%Z -> (0 <= n)%Z ->
  (Z.of_nat (String.length (slice text a (a + n))) <= n)%Z.
Proof.
  intros Ha Hn. rewrite <- length_chars.
  replace a with (Z.of_nat (Z.to_nat a)) by lia.
  rewrite chars_slice_window by exact Hn.
  rewrite length_firstn. lia.
Qed.

Lemma chunk_loop_total (text : string) (chunk_size overlap : Z) (P : string -> Prop) :
  (forall a, (0 <= a)%Z -> P (slice text a (a + chunk_size))) ->
  forall fuel start acc,
    (0 <= start)%Z ->
    (Z.of_nat (String.length text) - start <= Z.of_nat fuel)%Z ->
    exists news,
      chunk_loop fuel text chunk_size overlap start acc = Some (acc ++ news)
      /\ (Z.of_nat (length news) <= Z.max 0 (Z.of_nat (String.length text) - start))%Z
      /\ ((start < Z.of_nat (String.length text))%Z -> news <> [])
      /\ Forall P news.
Proof.
  intros HP.
  induction fuel as [|fuel IH]; intros start acc Hs Hf.
  - exists []. unfold chunk_loop.
    destruct (Z.ltb_spec start (Z.of_nat (String.length text))); [lia|].
    rewrite app_nil_r. repeat split; [cbn; lia|lia|constructor].
  - cbn [chunk_loop]. cbv zeta.
    destruct (Z.ltb_spec start (Z.of_nat (String.length text))) as [Hlt|Hge].
    + destruct (IH (Z.max (start + chunk_size - overlap) (start + 1))
                  (acc ++ [slice text start (start + chunk_size)]))
        as (news & E & Hlen & _ & HF); [lia|lia|].
      exists (slice text start (start + chunk_size) :: news).
      rewrite E, <- app_assoc. split; [reflexivity|].
      split; [cbn [length]; lia|]. split; [discriminate|].
      constructor; [apply HP; exact Hs|exact HF].
    + exists []. rewrite app_nil_r. repeat split; [cbn; lia|lia|constructor].
Qed.

Lemma chunk_text_returns (text : string) (chunk_size overlap : Z) :
  exists chunks, _chunk_text text chunk_size overlap = Some chunks.
Proof.
  unfold _chunk_text. cbv zeta.
  destruct (Z.leb_spec (Z.of_nat (String.length (_clean_text text))) chunk_size);
    [eauto|].
  destruct (chunk_loop_total (_clean_text text) chunk_size overlap (fun _ => True)
              (fun _ _ => I) (String.length (_clean_text text)) 0%Z [])
    as (news & E & _); [lia|lia|].
  exists news. exact E.
Qed.

(** X13 (_chunk_text): the chunking returns on every input, also for a
    chunk size that is zero or negative and for any overlap.  It gives
    at most one chunk per character of the cleaned text (one chunk for
    an empty text), every chunk occurs in the cleaned text, no chunk is
    longer than a non-negative chunk size, and the list of chunks is
    empty only for an empty text with a negative chunk size. *)
Theorem chunk_text_total (text : string) (chunk_size overlap : Z) :
  exists chunks,
    _chunk_text text chunk_size overlap = Some chunks
    /\ (length chunks <= Nat.max 1 (String.length (_clean_text text)))%nat
    /\ Forall (fun c => contains c (_clean_text text) = true) chunks
    /\ (chunks = [] <-> _clean_text text = EmptyString /\ (chunk_size < 0)%Z)
    /\ ((0 <= chunk_size)%Z ->
        Forall (fun c => (Z.of_nat (String.length c) <= chunk_size)%Z) chunks).
Proof.
  unfold _chunk_text. cbv zeta.
  set (cleaned := _clean_text text).
  destruct (Z.leb_spec (Z.of_nat (String.length cleaned)) chunk_size) as [Hle|Hgt].
  - exists [cleaned]. split; [reflexivity|]. split; [cbn; lia|].
    split; [constructor; [apply contains_refl|constructor]|].
    split; [split; [discriminate|intros [_ Hneg]; lia]|].
    intros _. constructor; [exact Hle|constructor].
  - destruct (chunk_loop_total cleaned chunk_size overlap
                (fun c => contains c cleaned = true
                          /\ ((0 <= chunk_size)%Z ->
                              (Z.of_nat (String.length c) <= chunk_size)%Z))
                (fun a Ha => conj (slice_occurs cleaned a (a + chunk_size))
                               (fun Hn => slice_window_length cleaned a chunk_size Ha Hn))
                (String.length cleaned) 0%Z [])
      as (news & E & Hlen & Hne & HF); [lia|lia|].
    exists news. split; [exact E|]. split; [lia|].
    split; [eapply List.Forall_impl; [|exact HF]; intros c Hc; apply Hc|].
    split.
    + split.
      * intros ->. destruct cleaned as [|c s]; [split; [reflexivity|cbn in Hgt; lia]|].
        exfalso. apply Hne; [cbn; lia|reflexivity].
      * intros [Hc _]. rewrite Hc in Hlen. cbn in Hlen.
        destruct news; [reflexivity|cbn in Hlen; lia].
    + intros Hn. eapply List.Forall_impl; [|exact HF]. intros c Hc. apply Hc, Hn.
Qed.

Lemma chunk_text_total_witness :
  (0 <= 0)%Z
  /\ exists chunks,
       _chunk_text "ab" 0 5 = Some chunks
       /\ (length chunks <= Nat.max 1 (String.length (_clean_text "ab")))%nat
       /\ Forall (fun c => contains c (_clean_text "ab") = true) chunks
       /\ (chunks = [] <-> _clean_text "ab" = EmptyString /\ (0 < 0)%Z)
       /\ ((0 <= 0)%Z -> Forall (fun c => (Z.of_nat (String.length c) <= 0)%Z) chunks).
Proof. split; [lia|apply (chunk_text_total "ab" 0 5)]. Defined.

End ChunkingTotal.

(** ** Rag: embedding in batches, and the citation *)

Section Embedding.

Lemma firstn_next_batch {A} (l : list A) (i : nat) :
  firstn (i * 50) l ++ firstn 50 (skipn (i * 50) l) = firstn (S i * 50) l.
Proof.
  replace (S i * 50)%nat with (i * 50 + 50)%nat by lia.
  apply take_take_drop.
Qed.

Lemma embed_batches_fold (create : list string -> result (list (list float)))
    (f : string -> list float) (texts : list string) :
  (forall batch, (1 <= length batch <= 50)%nat -> create batch = Ok (map f batch)) ->
  forall k j,
    ((j + k) * 50 < length texts + 50)%nat ->
    fold_left
      (fun acc i =>
         match acc with
         | Raise e => Raise e
         | Ok embeddings =>
             let batch := firstn 50 (skipn i texts) in
             match create batch with
             | Raise e => Raise e
             | Ok data => Ok (embeddings ++ data)
             end
         end)
      (map (fun k => (k * 50)%nat) (seq j k)) (Ok (map f (firstn (j * 50) texts)))
    = Ok (map f (firstn ((j + k) * 50) texts)).
Proof.
  intros Hcreate. induction k as [|k IH]; intros j Hj.
  - rewrite Nat.add_0_r. reflexivity.
  - cbn [seq map fold_left]. cbv zeta.
    rewrite Hcreate.
    + rewrite <- map_app, firstn_next_batch.
      pose proof (IH (S j) ltac:(lia)) as E. cbv zeta in E. rewrite E.
      replace (S j + k)%nat with (j + S k)%nat by lia. reflexivity.
    + rewrite length_firstn, length_skipn. lia.
Qed.

Lemma embed_texts_elementwise (sv : Rag.Services Index)
    (create : list string -> result (list (list float)))
    (f : string -> list float) (texts : list string) :
  Rag.api_key_set sv = true ->
  (forall batch, (1 <= length batch <= 50)%nat -> create batch = Ok (map f batch)) ->
  _embed_texts sv create texts = Ok (map f texts).
Proof.
  unfold _embed_texts, _ensure_openai_key. intros Hkey Hcreate. rewrite Hkey.
  unfold batch_starts.
  pose proof (embed_batches_fold create f texts Hcreate
                ((length texts + 49) / 50) 0) as H.
  change (firstn (0 * 50) texts) with (@nil string) in H.
  change (map f []) with (@nil (list float)) in H.
  change (0 + (length texts + 49) / 50)%nat with ((length texts + 49) / 50)%nat in H.
  cbv zeta in H |- *. rewrite H.
  - rewrite firstn_all2; [reflexivity|].
    pose proof (Nat.div_mod_eq (length texts + 49) 50) as Hd.
    pose proof (Nat.mod_upper_bound (length texts + 49) 50) as Hm. lia.
  - pose proof (Nat.div_mod_eq (length texts + 49) 50) as Hd. lia.
Qed.

(** X14 (_embed_texts): without the API key the call raises before any
    request is made; with it, the texts are sent in batches of one to
    fifty texts, so a service that answers one embedding per text of
    such a batch gives the embeddings of all the texts, in their order. *)
Theorem embed_texts_in_batches (sv : Rag.Services Index)
    (create : list string -> result (list (list float)))
    (f : string -> list float) (texts : list string) :
  (Rag.api_key_set sv = false ->
   _embed_texts sv create texts
   = Raise (EnvironmentError
              "OPENAI_API_KEY env var not set. Please set it to use embeddings."))
  /\ (Rag.api_key_set sv = true ->
      (forall batch, (1 <= length batch <= 50)%nat -> create batch = Ok (map f batch)) ->
      _embed_texts sv create texts = Ok (map f texts)).
Proof.
  split; [|apply embed_texts_elementwise].
  unfold _embed_texts, _ensure_openai_key. intros Hkey. rewrite Hkey. reflexivity.
Qed.

Lemma embed_texts_in_batches_witness :
  Rag.api_key_set answering_services = true
  /\ (forall batch, (1 <= length batch <= 50)%nat ->
        length_embedding batch
        = Ok (map (fun t => [PyFloat.of_nat (String.length t)]) batch))
  /\ _embed_texts answering_services length_embedding (repeat "clause" 51)
     = Ok (map (fun t => [PyFloat.of_nat (String.length t)]) (repeat "clause" 51)).
Proof.
  split; [reflexivity|]. split; [reflexivity|].
  apply (embed_texts_in_batches answering_services length_embedding
           (fun t => [PyFloat.of_nat (String.length t)]) (repeat "clause" 51)).
  - reflexivity.
  - reflexivity.
Defined.

End Embedding.

Section CitationResults.

Lemma collect_results_valid (meta : list Meta) (hits : list (float * Z)) :
  Forall (fun r => exists s m, In m meta /\ r = passage_of s m) (collect_results meta hits)
  /\ length (collect_results meta hits) = length (List.filter (valid_hit meta) hits).
Proof.
  unfold collect_results. induction hits as [|[s idx] hits [IHF IHL]];
    [split; [constructor|reflexivity]|].
  cbn [flat_map List.filter]. unfold valid_hit at 1. cbn [snd].
  destruct (Z.ltb_spec idx 0) as [Hneg|Hpos]; cbn [orb].
  { replace (0 <=? idx)%Z with false by (symmetry; apply Z.leb_gt; lia).
    cbn [andb app]. split; assumption. }
  destruct (Z.leb_spec (Z.of_nat (length meta)) idx) as [Hbig|Hin].
  { replace (idx <? Z.of_nat (length meta))%Z with false
      by (symmetry; apply Z.ltb_ge; lia).
    rewrite andb_false_r. cbn [app]. split; assumption. }
  replace (0 <=? idx)%Z with true by (symmetry; apply Z.leb_le; lia).
  replace (idx <? Z.of_nat (length meta))%Z with true by (symmetry; apply Z.ltb_lt; lia).
  cbn [andb].
  destruct (nth_error meta (Z.to_nat idx)) as [m|] eqn:E.
  - cbn [app length]. split; [|f_equal; exact IHL].
    constructor; [|exact IHF]. exists s, m. split; [|reflexivity].
    eapply nth_error_In. exact E.
  - apply nth_error_None in E. lia.
Qed.

Lemma passage_texts_ok (rs : list Passage) (texts : list string) :
  passage_texts rs = Ok texts -> map passage_text rs = map Some texts.
Proof.
  revert texts. induction rs as [|r rs IH]; intros texts H; simpl in H.
  - injection H as <-. reflexivity.
  - destruct (passage_text r) as [t|] eqn:Et; [|discriminate].
    destruct (passage_texts rs) as [ts|e]; [|discriminate].
    injection H as <-. simpl. rewrite Et, (IH ts eq_refl). reflexivity.
Qed.

(** X15 (get_citation_for_issue): a citation is returned only when the
    key is set and the index, the embedding and the completion all
    succeed.  Its results are the hits whose position lies inside the
    metadata store, each a record of the store, all with a text; its
    summary is the parsed answer of the model, or, when the answer is no
    JSON, the stripped answer as the citation with an empty excerpt. *)
Theorem citation_when_returned (sv : Rag.Services Index)
    (query index_path meta_path : string) (top_k : Z) (c : Citation) :
  Rag.get_citation_for_issue sv query index_path meta_path top_k = Ok c ->
  Rag.api_key_set sv = true
  /\ exists index meta q_emb content,
       Rag.load_index_and_meta sv index_path meta_path = Ok (index, meta)
       /\ Rag.embed_query sv query = Ok q_emb
       /\ Data.query c = query
       /\ results c = collect_results meta (Rag.index_search sv index q_emb top_k)
       /\ length (results c)
          = length (List.filter (valid_hit meta) (Rag.index_search sv index q_emb top_k))
       /\ Forall (fun r => (exists s m, In m meta /\ r = passage_of s m)
                           /\ passage_text r <> None) (results c)
       /\ Rag.chat_completion sv
            (build_prompt query
               (join "\n\n---\n\n" (omap passage_text (results c)))) = Ok content
       /\ (Rag.json_loads sv (strip content) = Ok (llm_summary c)
           \/ ((exists e, Rag.json_loads sv (strip content) = Raise e)
               /\ llm_summary c = SummaryDict (Some (strip content)) (Some EmptyString))).
Proof.
  unfold Rag.get_citation_for_issue, _ensure_openai_key.
  destruct (Rag.api_key_set sv); [|discriminate].
  destruct (Rag.load_index_and_meta sv index_path meta_path) as [[index meta]|];
    [|discriminate].
  destruct (Rag.embed_query sv query) as [q_emb|]; [|discriminate].
  destruct (passage_texts _) as [texts|] eqn:Et; [|discriminate].
  destruct (Rag.chat_completion sv _) as [content|] eqn:Ec; [|discriminate].
  intros H. injection H as <-. split; [reflexivity|].
  exists index, meta, q_emb, content. cbn [Data.query results llm_summary].
  destruct (collect_results_valid meta (Rag.index_search sv index q_emb top_k))
    as [HF HL].
  pose proof (passage_texts_ok _ _ Et) as Hmap.
  repeat split; try reflexivity; try assumption.
  - rewrite List.Forall_forall in HF. apply List.Forall_forall. intros r Hr.
    split; [apply HF; exact Hr|].
    assert (Hin : In (passage_text r) (map Some texts))
      by (rewrite <- Hmap; apply in_map; exact Hr).
    apply in_map_iff in Hin as (t & <- & _). discriminate.
  - replace (omap passage_text
               (collect_results meta (Rag.index_search sv index q_emb top_k)))
      with texts; [exact Ec|].
    clear -Hmap. revert texts Hmap.
    induction (collect_results meta (Rag.index_search sv index q_emb top_k))
      as [|r rs IH]; intros [|t ts] Hmap; try discriminate; [reflexivity|].
    simpl in Hmap. injection Hmap as Hr Hrs. simpl. rewrite Hr. simpl.
    f_equal. apply IH. exact Hrs.
  - destruct (Rag.json_loads sv (strip content)) as [j|e]; [left; reflexivity|].
    right. split; [eexists; reflexivity|reflexivity].
Qed.

Lemma citation_when_returned_witness :
  exists c,
    Rag.get_citation_for_issue answering_services "registered office"
      "resources/adgm_index.faiss" "resources/adgm_meta.json" 3 = Ok c
    /\ length (results c) = 1%nat
    /\ llm_summary c = SummaryDict (Some "see the regulations") (Some EmptyString)
    /\ Rag.api_key_set answering_services = true.
Proof.
  eexists. split; [reflexivity|]. split; [reflexivity|]. split; [reflexivity|].
  exact (proj1 (citation_when_returned answering_services "registered office"
                  "resources/adgm_index.faiss" "resources/adgm_meta.json" 3 _ eq_refl)).
Defined.

End CitationResults.

(** ** Rag: building the index *)

Section IndexBuilding.

Lemma chunk_records_returns full page text chunk_size overlap :
  exists records, chunk_records full page text chunk_size overlap = Some records.
Proof.
  unfold chunk_records.
  destruct (chunk_text_returns text chunk_size overlap) as [chunks ->]. eauto.
Qed.

Lemma collect_pages_returns full chunk_size overlap pages :
  forall docs, exists docs', collect_pages full chunk_size overlap pages docs = Some docs'.
Proof.
  unfold collect_pages. induction pages as [|[page_no page_text] pages IH]; intros docs.
  - eauto.
  - cbn [fold_left]. destruct (truthy page_text && truthy (strip page_text)).
    + destruct (chunk_records_returns full (Some page_no) page_text chunk_size overlap)
        as [records ->]. apply IH.
    + apply IH.
Qed.

Lemma collect_file_returns c root chunk_size overlap docs fname :
  exists r, collect_file c root chunk_size overlap docs fname = Some r.
Proof.
  unfold collect_file. cbv zeta.
  destruct (endswith (lower fname) ".pdf" || endswith (lower fname) ".txt"); [|eauto].
  destruct (endswith (lower fname) ".pdf").
  - destruct (_read_pdf_text c (path_join root fname)) as [pages|e]; [|eauto].
    destruct (collect_pages_returns (path_join root fname) chunk_size overlap pages docs)
      as [docs' ->]. eauto.
  - destruct (read_text c (path_join root fname)) as [txt|e]; [|eauto].
    destruct (chunk_records_returns (path_join root fname) None txt chunk_size overlap)
      as [records ->]. eauto.
Qed.

Lemma collect_files_returns c root chunk_size overlap files :
  forall r,
    exists r',
      fold_left
        (fun acc fname =>
           match acc with
           | Some (Ok docs) => collect_file c root chunk_size overlap docs fname
           | stopped => stopped
           end)
        files (Some r) = Some r'.
Proof.
  induction files as [|fname files IH]; intros r; [eauto|].
  cbn [fold_left]. destruct r as [docs|e].
  - destruct (collect_file_returns c root chunk_size overlap docs fname) as [r' ->].
    apply IH.
  - apply IH.
Qed.

Lemma collect_corpus_returns c corpus_dir chunk_size overlap :
  exists r, collect_corpus c corpus_dir chunk_size overlap = Some r.
Proof.
  unfold collect_corpus. generalize (Ok (@nil ChunkRecord)).
  induction (os_walk c corpus_dir) as [|[root files] dirs IH]; intros r; [eauto|].
  cbn [fold_left].
  destruct (collect_files_returns c root chunk_size overlap files r) as [r' ->].
  apply IH.
Qed.

Lemma collect_files_skipped c root chunk_size overlap files :
  (forall fname, In fname files -> is_corpus_file fname = false) ->
  forall docs,
    fold_left
      (fun acc fname =>
         match acc with
         | Some (Ok docs) => collect_file c root chunk_size overlap docs fname
         | stopped => stopped
         end)
      files (Some (Ok docs)) = Some (Ok docs).
Proof.
  induction files as [|fname files IH]; intros Hskip docs; [reflexivity|].
  cbn [fold_left]. unfold collect_file at 2.
  pose proof (Hskip fname (or_introl eq_refl)) as Hf. unfold is_corpus_file in Hf.
  rewrite Hf. apply IH. intros f Hin. apply Hskip. right. exact Hin.
Qed.

(** X23 (build_index_from_corpus): building the index returns on every
    input, with the index data or an exception.  When the directory tree
    holds no file whose name ends in .pdf or .txt (letter case ignored)
    the exception is the one that says so, whether the API key is set or
    not. *)
Theorem build_index_returns (sv : Rag.Services Index) (c : Corpus)
    (corpus_dir index_path meta_path : string) (chunk_size overlap : Z) :
  (exists r,
     build_index_from_corpus sv c corpus_dir index_path meta_path chunk_size overlap
     = Some r)
  /\ ((forall root files fname,
         In (root, files) (os_walk c corpus_dir) -> In fname files ->
         is_corpus_file fname = false) ->
      build_index_from_corpus sv c corpus_dir index_path meta_path chunk_size overlap
      = Some (Raise (OtherError ("No documents found in corpus_dir: " +:+ corpus_dir)))).
Proof.
  split.
  - unfold build_index_from_corpus.
    destruct (collect_corpus_returns c corpus_dir chunk_size overlap) as [r ->].
    destruct r as [docs|e]; [|eauto].
    destruct docs as [|d docs]; [eauto|]. cbv zeta.
    destruct (_embed_texts _ _ _); [|eauto].
    destruct (write_index c _ _); [|eauto].
    destruct (meta_writable c meta_path); eauto.
  - intros Hskip. unfold build_index_from_corpus.
    assert (E : collect_corpus c corpus_dir chunk_size overlap = Some (Ok [])).
    { unfold collect_corpus.
      assert (G : forall dirs,
                 (forall root files, In (root, files) dirs ->
                    In (root, files) (os_walk c corpus_dir)) ->
                 fold_left
                   (fun acc '(root, files) =>
                      fold_left
                        (fun acc fname =>
                           match acc with
                           | Some (Ok docs) =>
                               collect_file c root chunk_size overlap docs fname
                           | stopped => stopped
                           end)
                        files acc)
                   dirs (Some (Ok [])) = Some (Ok [])).
      { induction dirs as [|[root files] dirs IH]; intros Hsub; [reflexivity|].
        cbn [fold_left]. rewrite collect_files_skipped.
        - apply IH. intros r f Hin. apply Hsub. right. exact Hin.
        - intros fname Hin. apply (Hskip root files fname); [|exact Hin].
          apply Hsub. left. reflexivity. }
      apply G. auto. }
    rewrite E. reflexivity.
Qed.

Lemma build_index_returns_witness :
  (forall root files fname,
     In (root, files) (os_walk empty_corpus "corpus") -> In fname files ->
     is_corpus_file fname = false)
  /\ build_index_from_corpus no_services empty_corpus "corpus"
       "resources/adgm_index.faiss" "resources/adgm_meta.json" 800 100
     = Some (Raise (OtherError "No documents found in corpus_dir: corpus")).
Proof.
  assert (H : forall root files fname,
             In (root, files) (os_walk empty_corpus "corpus") -> In fname files ->
             is_corpus_file fname = false).
  { intros root files fname [E|[]] Hin. injection E as <- <-.
    destruct Hin as [<-|[]]. reflexivity. }
  split; [exact H|].
  exact (proj2 (build_index_returns no_services empty_corpus "corpus"
                  "resources/adgm_index.faiss" "resources/adgm_meta.json" 800 100) H).
Defined.

Lemma imap_set_id_lookup (docs : list ChunkRecord) (i : nat) (d : ChunkRecord) :
  imap set_id docs !! i = Some d ->
  exists d0, docs !! i = Some d0 /\ d = set_id i d0.
Proof.
  rewrite list_lookup_imap. destruct (docs !! i) as [d0|]; [|discriminate].
  cbn. intros H. injection H as <-. eauto.
Qed.

(** X24 (build_index_from_corpus): when the index is built, vector [i] of
    the index is the embedding of the text of the record with ['_id']
    [i], which is record [i] of the metadata: the positions the search
    answers are positions of the metadata.  The records are the chunks
    collected from the corpus, in the order of the walk. *)
Theorem build_index_alignment (sv : Rag.Services Index) (c : Corpus)
    (corpus_dir index_path meta_path : string) (chunk_size overlap : Z)
    (f : string -> list float) (docs : list ChunkRecord) :
  Rag.api_key_set sv = true ->
  (forall batch, (1 <= length batch <= 50)%nat ->
     create_embeddings c batch = Ok (map f batch)) ->
  collect_corpus c corpus_dir chunk_size overlap = Some (Ok docs) ->
  docs <> [] ->
  write_index c (map f (map rec_text docs)) index_path = Ok tt ->
  meta_writable c meta_path = true ->
  exists vectors records,
    build_index_from_corpus sv c corpus_dir index_path meta_path chunk_size overlap
    = Some (Ok (vectors, records))
    /\ length vectors = length docs
    /\ length records = length docs
    /\ forall i d,
         records !! i = Some d ->
         rec_id d = Some i
         /\ vectors !! i = Some (f (rec_text d))
         /\ exists d0, docs !! i = Some d0 /\ d = set_id i d0.
Proof.
  intros Hkey Hcreate Hcollect Hne Hwrite Hmeta.
  unfold build_index_from_corpus. rewrite Hcollect.
  destruct docs as [|d0 docs0] eqn:Edocs; [congruence|]. rewrite <- Edocs in *.
  cbv zeta.
  rewrite (embed_texts_elementwise sv (create_embeddings c) f (map rec_text docs) Hkey
             Hcreate).
  rewrite Hwrite, Hmeta.
  eexists _, _. split; [reflexivity|].
  split; [rewrite !length_map; reflexivity|].
  split; [apply length_imap|].
  intros i d Hd. destruct (imap_set_id_lookup docs i d Hd) as (d1 & Hd1 & ->).
  split; [reflexivity|]. split; [|eauto].
  rewrite !list_lookup_fmap, Hd1. reflexivity.
Qed.

Lemma build_index_alignment_witness :
  exists vectors records,
    build_index_from_corpus answering_services sample_corpus "corpus"
      "resources/adgm_index.faiss" "resources/adgm_meta.json" 800 100
    = Some (Ok (vectors, records))
    /\ length vectors = 2%nat
    /\ length records = 2%nat
    /\ forall i d,
         records !! i = Some d ->
         rec_id d = Some i
         /\ vectors !! i = Some [PyFloat.of_nat (String.length (rec_text d))]
         /\ exists d0,
              [ {| rec_source := "corpus/a.txt"; rec_page := None; rec_chunk_index := 0;
                   rec_text := "hello"; rec_id := None |};
                {| rec_source := "corpus/b.PDF"; rec_page := Some 1%nat;
                   rec_chunk_index := 0; rec_text := "page one"; rec_id := None |} ]
              !! i = Some d0
              /\ d = set_id i d0.
Proof.
  apply (build_index_alignment answering_services sample_corpus "corpus"
           "resources/adgm_index.faiss" "resources/adgm_meta.json" 800 100
           (fun t => [PyFloat.of_nat (String.length t)])
           [ {| rec_source := "corpus/a.txt"; rec_page := None; rec_chunk_index := 0;
                rec_text := "hello"; rec_id := None |};
             {| rec_source := "corpus/b.PDF"; rec_page := Some 1%nat;
                rec_chunk_index := 0; rec_text := "page one"; rec_id := None |} ]).
  - reflexivity.
  - intros batch _. reflexivity.
  - vm_compute. reflexivity.
  - discriminate.
  - reflexivity.
  - reflexivity.
Defined.

End IndexBuilding.

(** ** CommentHelper: where the comments go and what they say *)

Section CommentContent.








End CommentContent.

(** ** DocxProcessor: what naming a process takes *)

Section ProcessEvidence.

Lemma infer_process_cases (types : list string) :
  infer_process_from_types types = "Unknown"
  \/ exists required,
       In (infer_process_from_types types, required) PROCESS_CHECKLISTS
       /\ meets_threshold types required = true.
Proof.
  unfold infer_process_from_types. rewrite infer_loop_find by auto.
  destruct (find _ PROCESS_CHECKLISTS) as [[name required]|] eqn:E; [|left; reflexivity].
  right. exists required. apply find_some in E. exact E.
Qed.

Lemma same_types_same_set (types types' : list string) :
  (forall x, x ∈ types <-> x ∈ types') ->
  (list_to_set types : gset string) = list_to_set types'.
Proof. intros H. apply set_eq. intros x. rewrite !elem_of_list_to_set. apply H. Qed.

Lemma present_missing_length (types l : list string) :
  (length (filter (fun r => r ∈ types) l)
   + length (filter (fun doc => negb (bool_decide (doc ∈ (list_to_set types : gset string))))
               l)
   = length l)%nat.
Proof.
  induction l as [|d l IH]; [reflexivity|].
  rewrite !filter_cons.
  destruct (decide (d ∈ types)) as [Hd|Hd].
  - rewrite bool_decide_true by (apply elem_of_list_to_set; exact Hd).
    cbn [negb]. rewrite decide_False by (intros []). cbn [length]. lia.
  - rewrite bool_decide_false by (rewrite elem_of_list_to_set; exact Hd).
    cbn [negb]. rewrite decide_True by exact I. cbn [length]. lia.
Qed.

Lemma checklists_have_no_duplicates name required :
  In (name, required) PROCESS_CHECKLISTS ->
  remove_dups required = required /\ checklist_of name = Some required.
Proof.
  intros Hin. simpl in Hin.
  destruct Hin as [E|[E|[E|[]]]]; injection E as <- <-; split; vm_compute; reflexivity.
Qed.

(** X17 (infer_process_from_types, process_multiple_docx): the process
    and the missing documents depend on the set of the detected types
    only, not on their order or number.  A process is named only on the
    evidence of at least two different documents of its checklist; the
    documents reported missing are then the documents of the checklist
    that are not among the types, and at least two documents of the
    checklist are not missing. *)
Theorem process_needs_two_documents (types : list string) :
  (forall types',
     (forall x, x ∈ types <-> x ∈ types') ->
     infer_process_from_types types' = infer_process_from_types types
     /\ check_missing (infer_process_from_types types') types'
        = check_missing (infer_process_from_types types) types)
  /\ (infer_process_from_types types <> "Unknown" ->
      exists required,
        checklist_of (infer_process_from_types types) = Some required
        /\ fst (check_missing (infer_process_from_types types) types) = length required
        /\ Forall (fun d => In d required /\ d ∉ types)
             (snd (check_missing (infer_process_from_types types) types))
        /\ (forall d, In d required ->
              d ∈ types
              \/ In d (snd (check_missing (infer_process_from_types types) types)))
        /\ (length (snd (check_missing (infer_process_from_types types) types)) + 2
            <= length required)%nat).
Proof.
  split.
  - intros types' Hsame.
    pose proof (same_types_same_set _ _ Hsame) as Hset.
    assert (Hinfer : infer_process_from_types types' = infer_process_from_types types)
      by (unfold infer_process_from_types; rewrite Hset; reflexivity).
    split; [exact Hinfer|]. rewrite Hinfer. unfold check_missing.
    destruct (checklist_of _); [|reflexivity]. cbv zeta. rewrite Hset. reflexivity.
  - intros Hknown.
    destruct (infer_process_cases types) as [Hu|(required & Hin & Hmeets)]; [congruence|].
    destruct (checklists_have_no_duplicates _ _ Hin) as [Hnd Hcl].
    exists required. split; [exact Hcl|].
    unfold check_missing. rewrite Hcl. cbv zeta. cbn [fst snd].
    split; [reflexivity|].
    unfold meets_threshold, required_present in Hmeets. cbv zeta in Hmeets.
    rewrite Hnd in Hmeets.
    apply andb_true_iff in Hmeets as [H2 _]. apply Nat.leb_le in H2.
    pose proof (present_missing_length types required) as Hsplit.
    split; [|split].
    + apply List.Forall_forall. intros d Hd.
      apply list_elem_of_In, list_elem_of_filter in Hd as [Hno Hd].
      split; [apply list_elem_of_In; exact Hd|].
      apply Is_true_true, negb_true_iff, bool_decide_eq_false in Hno.
      rewrite elem_of_list_to_set in Hno. exact Hno.
    + intros d Hd. destruct (decide (d ∈ types)) as [Ht|Ht]; [left; exact Ht|].
      right. apply list_elem_of_In, list_elem_of_filter.
      split; [|apply list_elem_of_In; exact Hd].
      apply Is_true_true, negb_true_iff, bool_decide_eq_false.
      rewrite elem_of_list_to_set. exact Ht.
    + lia.
Qed.

Lemma process_needs_two_documents_witness :
  infer_process_from_types scenario_c_types <> "Unknown"
  /\ exists required,
       checklist_of (infer_process_from_types scenario_c_types) = Some required
       /\ fst (check_missing (infer_process_from_types scenario_c_types) scenario_c_types)
          = length required
       /\ Forall (fun d => In d required /\ d ∉ scenario_c_types)
            (snd (check_missing (infer_process_from_types scenario_c_types)
                    scenario_c_types))
       /\ (forall d, In d required ->
             d ∈ scenario_c_types
             \/ In d (snd (check_missing (infer_process_from_types scenario_c_types)
                             scenario_c_types)))
       /\ (length (snd (check_missing (infer_process_from_types scenario_c_types)
                          scenario_c_types)) + 2
           <= length required)%nat.
Proof.
  assert (H : infer_process_from_types scenario_c_types <> "Unknown")
    by (vm_compute; discriminate).
  split; [exact H|].
  exact (proj2 (process_needs_two_documents scenario_c_types) H).
Defined.

End ProcessEvidence.

(** ** DocxProcessor: the batch run, its files and its citations *)

Section BatchRun.

(** The batch run, once the output directory exists. *)
Lemma process_multiple_docx_run (w : World) (paths : list string) (output_dir : string)
    (rag_retriever : option RAGRetriever) :
  can_mkdir w output_dir = true ->
  exists slots fs',
    annotation_trace output_dir (issues_found (batch_report w paths rag_retriever))
      (files w) paths slots fs'
    /\ writable fs' = writable (files w)
    /\ process_multiple_docx w paths output_dir rag_retriever
       = if writable (files w) (path_join output_dir "consolidated_report.json")
         then (Ok (batch_report w paths rag_retriever, omap id slots),
               {| files := fs'; path_exists := path_exists w; can_mkdir := can_mkdir w;
                  services := services w;
                  reports := <[path_join output_dir "consolidated_report.json"
                               := batch_report w paths rag_retriever]> (reports w) |})
         else (Raise (IOError ("Permission denied: '"
                               +:+ path_join output_dir "consolidated_report.json" +:+ "'")),
               with_files w fs').
Proof.
  intros Hdir. unfold process_multiple_docx, batch_report. rewrite Hdir. cbn [negb].
  rewrite analyze_all_pooled.
  destruct (check_missing _ _) as [required_count missing_docs].
  cbv zeta. cbn [fst snd].
  destruct (annotate_all_spec (files w) output_dir
              (add_citations rag_retriever w (pooled_issues w paths)) paths)
    as (slots & fs' & Hrun & Htr & Hw).
  rewrite Hrun. exists slots, fs'.
  unfold save_report_json, with_files. cbn [files issues_found build_report].
  split; [exact Htr|]. split; [exact Hw|].
  rewrite Hw. cbn [path_exists can_mkdir services reports].
  destruct (writable (files w) _); reflexivity.
Qed.





End BatchRun.

(** ** DocxProcessor: processing without retrieval *)

Section WithoutRetrieval.

Lemma analyzed_issues_no_citation (w : World) (doc_path : string) :
  Forall (fun i => citation i = None) (snd (analyze_single_document w doc_path)).
Proof.
  unfold analyze_single_document.
  destruct (open_document (files w) doc_path) as [doc|e];
    [|repeat constructor].
  destruct (negb (truthy (strip (document_text doc)))); [repeat constructor|].
  cbn [snd]. apply Forall_map.
  eapply List.Forall_impl; [|apply redflag_check_issues].
  intros i (_ & _ & _ & Hc). exact Hc.
Qed.

Lemma pooled_issues_no_citation (w : World) (paths : list string) :
  Forall (fun i => citation i = None) (pooled_issues w paths).
Proof.
  unfold pooled_issues. induction paths as [|p paths IH]; [constructor|].
  cbn [flat_map]. apply Forall_app. split; [apply analyzed_issues_no_citation|exact IH].
Qed.

Lemma add_citations_without_retrieval (w : World) (r : RAGRetriever) (issues : list Issue) :
  available r = false \/ Rag.api_key_set (services w) = false ->
  add_citations (Some r) w issues = issues.
Proof.
  intros H. unfold add_citations.
  destruct (available r) eqn:Ha; [|reflexivity].
  destruct H as [H|Hkey]; [discriminate|].
  rewrite <- (map_id issues) at 2. apply map_ext. intros i.
  unfold RAGRetriever_get_citation_for_issue, Rag.get_citation_for_issue,
    _ensure_openai_key.
  rewrite Ha, Hkey. reflexivity.
Qed.

(** X19 (process_documents, process_multiple_docx): the legacy entry
    point looks for the index files under resources/.  When one of them
    is missing, or when the API key is not set, it does what the batch
    processor does without a retriever, and no issue of its report
    carries a citation. *)
Theorem process_documents_without_retrieval (w : World) (input_paths : list string)
    (output_dir : string) :
  path_exists w "resources/adgm_index.faiss" && path_exists w "resources/adgm_meta.json"
  = false
  \/ Rag.api_key_set (services w) = false ->
  process_documents w input_paths output_dir
  = process_multiple_docx w input_paths output_dir None
  /\ forall report saved,
       fst (process_documents w input_paths output_dir) = Ok (report, saved) ->
       Forall (fun i => citation i = None) (issues_found report).
Proof.
  intros H.
  assert (Hadd : forall issues,
             add_citations
               (Some (RAGRetriever_init w "resources/adgm_index.faiss"
                        "resources/adgm_meta.json")) w issues
             = add_citations None w issues).
  { intros issues. apply add_citations_without_retrieval. exact H. }
  assert (Heq : process_documents w input_paths output_dir
                = process_multiple_docx w input_paths output_dir None).
  { unfold process_documents, process_multiple_docx. cbv zeta.
    destruct (negb (can_mkdir w output_dir)); [reflexivity|].
    destruct (analyze_all w input_paths) as [types issues].
    destruct (check_missing _ _) as [n missing].
    rewrite Hadd. reflexivity. }
  split; [exact Heq|].
  intros report saved Hrun. rewrite Heq in Hrun.
  destruct (can_mkdir w output_dir) eqn:Hdir.
  - destruct (process_multiple_docx_run w input_paths output_dir None Hdir)
      as (slots & fs' & _ & _ & E).
    rewrite E in Hrun. destruct (writable (files w) _); [|discriminate].
    cbn [fst] in Hrun. injection Hrun as <- _.
    unfold batch_report. cbn [issues_found build_report add_citations].
    apply pooled_issues_no_citation.
  - unfold process_multiple_docx in Hrun. rewrite Hdir in Hrun. discriminate.
Qed.

Lemma process_documents_without_retrieval_witness :
  (path_exists sample_world "resources/adgm_index.faiss"
   && path_exists sample_world "resources/adgm_meta.json" = false
   \/ Rag.api_key_set (services sample_world) = false)
  /\ process_documents sample_world sample_paths "out"
     = process_multiple_docx sample_world sample_paths "out" None.
Proof.
  assert (H : path_exists sample_world "resources/adgm_index.faiss"
              && path_exists sample_world "resources/adgm_meta.json" = false
              \/ Rag.api_key_set (services sample_world) = false)
    by (left; reflexivity).
  split; [exact H|].
  exact (proj1 (process_documents_without_retrieval sample_world sample_paths "out" H)).
Defined.

End WithoutRetrieval.

(** ** DocxProcessor: the single-file wrapper *)

Section SingleFile.

(** The batch run on one path, once the output directory exists. *)
Lemma process_multiple_docx_single (w : World) (p output_dir : string)
    (rag_retriever : option RAGRetriever) :
  can_mkdir w output_dir = true ->
  process_multiple_docx w [p] output_dir rag_retriever
  = match annotate_docx_with_comments (files w) p (reviewed_path output_dir p)
            (filter (issue_of_document (basename p))
               (issues_found (batch_report w [p] rag_retriever))) with
    | Ok fs' =>
        if writable fs' (path_join output_dir "consolidated_report.json")
        then (Ok (batch_report w [p] rag_retriever, [reviewed_path output_dir p]),
              {| files := fs'; path_exists := path_exists w; can_mkdir := can_mkdir w;
                 services := services w;
                 reports := <[path_join output_dir "consolidated_report.json"
                              := batch_report w [p] rag_retriever]> (reports w) |})
        else (Raise (IOError ("Permission denied: '"
                              +:+ path_join output_dir "consolidated_report.json" +:+ "'")),
              with_files w fs')
    | Raise _ =>
        if writable (files w) (path_join output_dir "consolidated_report.json")
        then (Ok (batch_report w [p] rag_retriever, []),
              {| files := files w; path_exists := path_exists w; can_mkdir := can_mkdir w;
                 services := services w;
                 reports := <[path_join output_dir "consolidated_report.json"
                              := batch_report w [p] rag_retriever]> (reports w) |})
        else (Raise (IOError ("Permission denied: '"
                              +:+ path_join output_dir "consolidated_report.json" +:+ "'")),
              with_files w (files w))
    end.
Proof.
  intros Hdir. unfold process_multiple_docx, batch_report, reviewed_path.
  rewrite Hdir. cbn [negb]. rewrite analyze_all_pooled.
  destruct (check_missing _ _) as [required_count missing_docs].
  cbv zeta. cbn [fst snd]. unfold annotate_all. cbn [fold_left issues_found build_report].
  destruct (annotate_docx_with_comments _ _ _ _) as [fs'|e];
    unfold save_report_json, with_files; cbn [files path_exists can_mkdir services reports];
    destruct (writable _ _); reflexivity.
Qed.

Lemma process_is_no_error (types : list string) :
  infer_process_from_types types <> "Error".
Proof.
  destruct (infer_process_cases types) as [->|(required & Hin & _)]; [discriminate|].
  simpl in Hin. destruct Hin as [E|[E|[E|[]]]]; injection E as <- _; discriminate.
Qed.

(** X20 (process_docx): the wrapper always answers a report for one
    document.  Either the report is the one of the batch processor and
    there is no 'error' key, or the process is "Error", the 'error' key
    holds the message and the only issue is a High issue that names the
    input file and quotes the message. *)
Theorem process_docx_report_shape (w : World) (input_path output_path : string)
    (rag_retriever : option RAGRetriever) :
  exists report error w',
    process_docx w input_path output_path rag_retriever = ((report, error), w')
    /\ documents_uploaded report = 1%nat
    /\ ((error = None
         /\ report = batch_report w [input_path] rag_retriever
         /\ DocxProcessor.process report <> "Error")
        \/ exists msg,
             error = Some msg
             /\ report
                = build_report "Error" 1 0 None
                    [bare_issue ("Processing error: " +:+ msg)
                       (Some (basename input_path))]).
Proof.
  assert (Herr : forall e (w' : World),
            exists report error w'',
              (error_report input_path e, w') = ((report, error), w'')
              /\ documents_uploaded report = 1%nat
              /\ ((error = None
                   /\ report = batch_report w [input_path] rag_retriever
                   /\ DocxProcessor.process report <> "Error")
                  \/ exists msg,
                       error = Some msg
                       /\ report
                          = build_report "Error" 1 0 None
                              [bare_issue ("Processing error: " +:+ msg)
                                 (Some (basename input_path))])).
  { intros e w'. eexists _, _, _. split; [reflexivity|]. split; [reflexivity|].
    right. exists (str_of_exn e). split; reflexivity. }
  assert (Hok : forall w' : World,
            exists report error w'',
              ((batch_report w [input_path] rag_retriever, @None string), w')
              = ((report, error), w'')
              /\ documents_uploaded report = 1%nat
              /\ ((error = None
                   /\ report = batch_report w [input_path] rag_retriever
                   /\ DocxProcessor.process report <> "Error")
                  \/ exists msg,
                       error = Some msg
                       /\ report
                          = build_report "Error" 1 0 None
                              [bare_issue ("Processing error: " +:+ msg)
                                 (Some (basename input_path))])).
  { intros w'. eexists _, _, _. split; [reflexivity|]. split; [reflexivity|].
    left. split; [reflexivity|]. split; [reflexivity|]. apply process_is_no_error. }
  unfold process_docx. cbv zeta. fold (temp_dir_of output_path).
  destruct (can_mkdir w (temp_dir_of output_path)) eqn:Hdir.
  - rewrite (process_multiple_docx_single w input_path _ rag_retriever Hdir).
    destruct (annotate_docx_with_comments _ _ _ _) as [fs'|e].
    + destruct (writable fs' _); [|apply Herr].
      destruct (move _ _ _); [apply Hok|apply Herr].
    + destruct (writable (files w) _); [|apply Herr].
      destruct (copy2 _ _ _); [apply Hok|apply Herr].
  - unfold process_multiple_docx. rewrite Hdir. apply Herr.
Qed.






(** X22 (process_docx): for an input path that is neither a document nor
    any other file, the wrapper answers the "Error" report whatever else
    holds, and no document is written, moved or removed. *)
Theorem process_docx_missing_input (w : World) (input_path output_path : string)
    (rag_retriever : option RAGRetriever) :
  docs (files w) !! input_path = None ->
  path_exists w input_path = false ->
  exists e w',
    process_docx w input_path output_path rag_retriever = (error_report input_path e, w')
    /\ DocxProcessor.process (fst (error_report input_path e)) = "Error"
    /\ docs (files w') = docs (files w).
Proof.
  intros Hdoc Hex. unfold process_docx. cbv zeta. fold (temp_dir_of output_path).
  destruct (can_mkdir w (temp_dir_of output_path)) eqn:Hdir.
  - rewrite (process_multiple_docx_single w input_path _ rag_retriever Hdir).
    unfold annotate_docx_with_comments, open_document. rewrite Hdoc.
    destruct (writable (files w) _).
    + unfold copy2. cbn [files docs path_exists]. rewrite Hdoc, Hex. cbn [negb].
      eexists _, _. split; [reflexivity|]. split; reflexivity.
    + eexists _, _. split; [reflexivity|]. split; reflexivity.
  - unfold process_multiple_docx. rewrite Hdir. cbn [negb].
    eexists _, _. split; [reflexivity|]. split; reflexivity.
Qed.

Lemma process_docx_missing_input_witness :
  exists e w',
    process_docx sample_world "missing.docx" "out/final.docx" None
    = (error_report "missing.docx" e, w')
    /\ DocxProcessor.process (fst (error_report "missing.docx" e)) = "Error"
    /\ docs (files w') = docs (files sample_world).
Proof.
  apply (process_docx_missing_input sample_world "missing.docx" "out/final.docx" None);
    reflexivity.
Defined.

End SingleFile.

(** ** TypeDetector: the confidence grows with the evidence *)

Section MonotoneConfidence.

Lemma table_counts_monotone :
  forallb (fun '(_, p) => counts_monotone p) DOCUMENT_PATTERNS = true.
Proof. vm_compute. reflexivity. Qed.

(** X25 (_calculate_confidence): for every type of the table, a text in
    which at least as many primary keywords, secondary keywords and
    structure indicators occur as in another text, and at most as many
    exclusion keywords, gets a confidence that is at least as high. *)
Theorem confidence_grows_with_evidence (name : string) (p : Patterns)
    (text1 text2 : string) :
  In (name, p) DOCUMENT_PATTERNS ->
  (hits text1 (primary_keywords p) <= hits text2 (primary_keywords p))%nat ->
  (hits text1 (secondary_keywords p) <= hits text2 (secondary_keywords p))%nat ->
  (hits text1 (structure_indicators p) <= hits text2 (structure_indicators p))%nat ->
  (hits text2 (exclusion_keywords p) <= hits text1 (exclusion_keywords p))%nat ->
  PrimFloat.leb (_calculate_confidence text1 p) (_calculate_confidence text2 p) = true.
Proof.
  intros Hin Hp Hs Ht He. pose proof table_counts_monotone as H.
  rewrite forallb_forall in H. specialize (H _ Hin). cbn beta iota in H.
  unfold counts_monotone in H. rewrite !calculate_confidence_counts.
  eapply forallb_upto in H; [|apply (hits_le text1 (primary_keywords p))].
  eapply forallb_upto in H; [|apply (hits_le text2 (primary_keywords p))].
  eapply forallb_upto in H; [|apply (hits_le text1 (secondary_keywords p))].
  eapply forallb_upto in H; [|apply (hits_le text2 (secondary_keywords p))].
  eapply forallb_upto in H; [|apply (hits_le text1 (structure_indicators p))].
  eapply forallb_upto in H; [|apply (hits_le text2 (structure_indicators p))].
  eapply forallb_upto in H; [|apply (hits_le text1 (exclusion_keywords p))].
  eapply forallb_upto in H; [|apply (hits_le text2 (exclusion_keywords p))].
  apply Nat.leb_le in Hp, Hs, Ht, He. rewrite Hp, Hs, Ht, He in H. exact H.
Qed.

Lemma confidence_grows_with_evidence_witness :
  PrimFloat.leb
    (_calculate_confidence "articles of association and memorandum" articles_patterns)
    (_calculate_confidence "articles of association with share capital" articles_patterns)
  = true.
Proof.
  apply (confidence_grows_with_evidence "Articles of Association" articles_patterns
           "articles of association and memorandum"
           "articles of association with share capital").
  - left. reflexivity.
  - vm_compute. lia.
  - vm_compute. lia.
  - vm_compute. lia.
  - vm_compute. lia.
Defined.

End MonotoneConfidence.

(** ** Rag: what the cleaning does *)

Section Cleaning.

Lemma sub_from_backslash_free (n : nat) (repl : string) (s : string) :
  contains "\" s = false ->
  forall prev, Re.sub_from (clean_pattern n) repl 0 prev s = s.
Proof.
  induction s as [|c s IH]; intros Hno prev; [reflexivity|].
  rewrite contains_unfold in Hno. apply orb_false_iff in Hno as [Hc Hs].
  assert (Hne : Ascii.eqb "\" c = false).
  { change (Ascii.eqb "\" c && startswith s EmptyString = false) in Hc.
    replace (startswith s EmptyString) with true in Hc by (destruct s; reflexivity).
    rewrite andb_true_r in Hc. exact Hc. }
  assert (Hm : Re.match_at (clean_pattern n) (prev, String c s) = []).
  { unfold clean_pattern. cbn [Re.match_at Re.match_lit snd]. rewrite Hne. reflexivity. }
  change (Re.sub_from (clean_pattern n) repl 0 prev (String c s))
    with (match Re.match_at (clean_pattern n) (prev, String c s) with
          | (_, rest) :: _ =>
              let k := (String.length (String c s) - String.length rest)%nat in
              match k with
              | O => String c (Re.sub_from (clean_pattern n) repl 0 (Some c) s)
              | S k' => repl +:+ Re.sub_from (clean_pattern n) repl k' (Some c) s
              end
          | [] => String c (Re.sub_from (clean_pattern n) repl 0 (Some c) s)
          end).
  rewrite Hm, (IH Hs). reflexivity.
Qed.

(** X26 (_clean_text): the pattern of the cleaning is written with
    doubled backslashes in a raw string, so it looks for backslash
    characters.  On a text without a backslash the cleaning only strips
    the surrounding whitespace: runs of blank lines stay as they are. *)
Theorem clean_text_only_strips (s : string) :
  contains "\" s = false -> _clean_text s = strip s.
Proof.
  intros Hno. unfold _clean_text, Re.sub. cbv zeta.
  rewrite sub_from_backslash_free by exact Hno. reflexivity.
Qed.

Lemma clean_text_only_strips_witness :
  contains "\" blank_line_text = false
  /\ _clean_text blank_line_text = strip blank_line_text.
Proof.
  split; [reflexivity|]. apply (clean_text_only_strips blank_line_text). reflexivity.
Defined.

End Cleaning.

(** ** Two signature checks *)

Section SignatureChecks.

Lemma match_lit_startswith (w : string) :
  forall prev s, Re.match_lit w (prev, s) <> [] -> startswith s w = true.
Proof.
  induction w as [|a w IH]; intros prev s H; [destruct s; reflexivity|].
  cbn [Re.match_lit snd] in H. destruct s as [|b s]; [congruence|].
  destruct (Ascii.eqb a b) eqn:E; [|congruence].
  simpl. rewrite E. exact (IH _ _ H).
Qed.

Lemma flat_map_not_nil {A B} (f : A -> list B) (l : list A) :
  flat_map f l <> [] -> l <> [].
Proof. destruct l; [intros H _; apply H; reflexivity|discriminate]. Qed.

Lemma match_word_startswith (w : string) (p : Re.pos) :
  Re.match_at (Re.word w) p <> [] -> startswith (snd p) w = true.
Proof.
  unfold Re.word. cbn [Re.match_at]. intros H.
  destruct (xorb (Re.word_before p) (Re.word_after p)); [|exact (False_ind _ (H eq_refl))].
  cbn [flat_map] in H. rewrite app_nil_r in H.
  apply flat_map_not_nil in H. destruct p as [prev s].
  exact (match_lit_startswith w prev s H).
Qed.

Lemma search_word_contains (w s : string) :
  Re.search (Re.word w) s = true -> contains w s = true.
Proof.
  unfold Re.search. generalize (@None ascii).
  induction s as [|c s IH]; intros prev H.
  - cbn [Re.search_from] in H.
    destruct (Re.match_at (Re.word w) (prev, EmptyString)) eqn:E; [discriminate|].
    apply contains_prefix. apply (match_word_startswith w (prev, EmptyString)).
    rewrite E. discriminate.
  - cbn [Re.search_from] in H.
    destruct (Re.match_at (Re.word w) (prev, String c s)) eqn:E.
    + rewrite contains_unfold, (IH _ H). apply orb_true_r.
    + apply contains_prefix. apply (match_word_startswith w (prev, String c s)).
      rewrite E. discriminate.
Qed.

Lemma analysis_present_signature (text primary : string) (others : list string) :
  is_unknown_only (primary :: others) = false ->
  has_signature_indicator text = true ->
  In "Signature Block"
    (present_elements (analyze_document_completeness text (primary :: others))).
Proof.
  intros Hu Hsig. unfold analyze_document_completeness. rewrite Hu. cbv zeta.
  unfold check_sections. rewrite check_sections_fold.
  fold (has_signature_indicator text). rewrite Hsig.
  destruct (signatures_required (get_document_requirements primary));
    cbn [negb present_elements]; apply in_or_app; right; left; reflexivity.
Qed.

(** X27 (_check_signatures, analyze_document_completeness): the two
    signature checks agree in one direction.  When the red-flag check
    finds a signature by another phrase than "for and on behalf", it
    reports no missing signature block and the completeness analysis
    lists the signature block as present. *)
Theorem signature_found_by_both (text primary : string) (others : list string) :
  is_unknown_only (primary :: others) = false ->
  existsb (fun pattern => Re.search pattern (lower text)) signature_patterns = true ->
  Re.search (Re.word "for and on behalf") (lower text) = false ->
  Forall (fun i => issue i <> "Missing signature block or execution clause")
    (_check_signatures text (lower text))
  /\ In "Signature Block"
       (present_elements (analyze_document_completeness text (primary :: others))).
Proof.
  intros Hu Hfound Hbehalf. split.
  - unfold _check_signatures. cbv zeta. rewrite Hfound. cbn [negb append_if].
    apply append_if_Forall; [|constructor]. cbn. discriminate.
  - apply analysis_present_signature; [exact Hu|].
    unfold has_signature_indicator, signature_indicators.
    unfold signature_patterns in Hfound. cbn [existsb] in Hfound |- *.
    rewrite Hbehalf in Hfound. rewrite !orb_false_r in Hfound |- *.
    cbn [orb] in Hfound.
    repeat (apply orb_true_iff in Hfound as [Hfound|Hfound]);
      apply search_word_contains in Hfound.
    + rewrite Hfound. reflexivity.
    + assert (H : contains "signed" (lower text) = true)
        by (eapply contains_trans; [|exact Hfound]; reflexivity).
      rewrite H. destruct (contains "signature" (lower text)); reflexivity.
    + rewrite Hfound.
      destruct (contains "signature" (lower text)), (contains "signed" (lower text));
        reflexivity.
    + assert (H : contains "witness" (lower text) = true)
        by (eapply contains_trans; [|exact Hfound]; reflexivity).
      rewrite H.
      destruct (contains "signature" (lower text)), (contains "signed" (lower text)),
        (contains "executed" (lower text)); reflexivity.
Qed.

Lemma signature_found_by_both_witness :
  Forall (fun i => issue i <> "Missing signature block or execution clause")
    (_check_signatures "Signed by the directors" (lower "Signed by the directors"))
  /\ In "Signature Block"
       (present_elements
          (analyze_document_completeness "Signed by the directors" ["Board Resolution"])).
Proof.
  apply (signature_found_by_both "Signed by the directors" "Board Resolution" []);
    reflexivity.
Defined.

End SignatureChecks.
